(** * Call planning and call summary pipelines: response clean-up, decoding
      and stage sequencing

    A shallow embedding of [planner.py] and [summary.py].  Both files share
    one shape: a stage sends a prompt to the completion service, passes the
    answer through [clean_json_output], and (all stages but the last of the
    planner) decodes the cleaned text with [json.loads].

    Python [str] values are sequences of Unicode code points, so a string
    is a list of code points here; the whitespace class is the one that
    [str.strip] and the regular expression class [\s] share in CPython.

    Three things the code relies on belong to the interpreter it runs on
    and not to the two files: how many digits [int] accepts in a literal,
    how deep [json.loads] may nest before [RecursionError], and which
    characters [sys.stdout] can encode.  They are the fields of an
    [interpreter], and every run is relative to one. *)

From Stdlib Require Import List NArith ZArith Bool Lia String Ascii DecimalString.
Import ListNotations.

Set Warnings "-register-all".
Open Scope N_scope.

(** ** Strings *)

Definition pystr := list N.

(** A literal, written as a Rocq string of ASCII characters. *)
Definition lit (s : string) : pystr :=
  List.map N_of_ascii (list_ascii_of_string s).

(** A literal holding JSON text: an apostrophe in the Rocq string stands for
    the double quote (code point 34) of the Python string. *)
Definition qlit (s : string) : pystr :=
  List.map (fun c => if c =? 39 then 34 else c) (lit s).

(** [Py_UNICODE_ISSPACE]: the class behind [str.strip], [str.isspace] and
    the pattern [\s] on [str]. *)
Definition isspace (c : N) : bool :=
  ((9 <=? c) && (c <=? 13)) || ((28 <=? c) && (c <=? 32))
  || (c =? 133) || (c =? 160) || (c =? 5760)
  || ((8192 <=? c) && (c <=? 8202))
  || (c =? 8232) || (c =? 8233) || (c =? 8239) || (c =? 8287)
  || (c =? 12288).

Definition backtick : N := 96.

(** [response_str.replace("```", "")]: one scan from the left, every
    non-overlapping occurrence dropped. *)
Fixpoint remove_fences (s : pystr) : pystr :=
  match s with
  | [] => []
  | c1 :: s1 =>
      match s1 with
      | c2 :: c3 :: t =>
          if (c1 =? backtick) && (c2 =? backtick) && (c3 =? backtick)
          then remove_fences t
          else c1 :: remove_fences s1
      | _ => c1 :: remove_fences s1
      end
  end.

(** [str.lstrip()], [str.rstrip()] and [str.strip()] without argument. *)
Fixpoint lstrip (s : pystr) : pystr :=
  match s with
  | [] => []
  | c :: t => if isspace c then lstrip t else s
  end.

Fixpoint rstrip (s : pystr) : pystr :=
  match s with
  | [] => []
  | c :: t =>
      match rstrip t with
      | [] => if isspace c then [] else [c]
      | r => c :: r
      end
  end.

Definition strip (s : pystr) : pystr := rstrip (lstrip s).

(** A lower-case ASCII letter [p] of a pattern compiled with
    [re.IGNORECASE] accepts [p], its upper-case form, and the two code
    points that Unicode case folding sends to an ASCII letter: U+017F
    (long s) for [s] and U+212A (Kelvin sign) for [k]. *)
Definition literal_ignorecase (p c : N) : bool :=
  (c =? p) || (c =? p - 32)
  || ((p =? 115) && (c =? 383)) || ((p =? 107) && (c =? 8490)).

(** The text left after a match of [^\s*json\s*] (flag [re.IGNORECASE]),
    or [None] when the pattern does not match at the start.  Both [\s*]
    are greedy, and neither can give a character back: what follows each
    of them is not a whitespace character. *)
Definition match_json_marker (s : pystr) : option pystr :=
  match lstrip s with
  | c1 :: c2 :: c3 :: c4 :: t =>
      if literal_ignorecase 106 c1 && literal_ignorecase 115 c2
         && literal_ignorecase 111 c3 && literal_ignorecase 110 c4
      then Some (lstrip t)
      else None
  | _ => None
  end.

(** [re.sub(r'^\s*json\s*', '', s, flags=re.IGNORECASE)]: the pattern is
    anchored at the start of the string and cannot match the empty string,
    so at most one match is replaced. *)
Definition sub_json_marker (s : pystr) : pystr :=
  match match_json_marker s with
  | Some rest => rest
  | None => s
  end.

(** [str(n)] for an [int]. *)
Definition str_of_int (z : Z) : pystr :=
  lit (DecimalString.NilEmpty.string_of_int (Z.to_int z)).

(** ** Exceptions and the interpreter

    The exceptions that the two files raise or let through.  Of
    [json.JSONDecodeError], [RecursionError] and [UnicodeEncodeError] only
    the class is kept: no code of the two files reads their arguments. *)

Inductive exn : Type :=
| ValueError (message : pystr)
| JSONDecodeError
| RecursionError
| UnicodeEncodeError.

Inductive result (A : Type) : Type :=
| Return (a : A)
| Raise (e : exn).
Arguments Return {A} a.
Arguments Raise {A} e.

(** What the scanner of [json.loads] does, besides entering an array or
    an object, that takes calls of its own and so room under the recursion
    limit: building the [JSONDecodeError] of a syntax error where it is
    found (the class is written in Python); building the [StopIteration]
    by which it reports that no value starts here (turned into a
    [JSONDecodeError] by [raw_decode], outside the scanner); building the
    [ValueError] of [int]; calling [parse_constant] for [NaN],
    [Infinity] and [-Infinity]. *)
Inductive action : Type :=
| BuildJSONDecodeError
| BuildStopIteration
| BuildValueError
| CallParseConstant.

(** What a run takes from the interpreter:
    - [int_max_str_digits]: [sys.get_int_max_str_digits()], the most
      digits [int(text)] accepts; [0] when there is no limit (as before
      Python 3.11);
    - [max_nesting]: how many arrays and objects inside one another
      [json.loads] can enter, at the call depth of a stage, before
      [Py_EnterRecursiveCall] fails: the room left under the recursion
      limit, counted in calls;
    - [needs]: how many calls deep an [action] of the scanner goes; it
      fails with [RecursionError] where less room is left;
    - [stdout_encodes]: whether the encoding and error handler of
      [sys.stdout] can write a character outside ASCII (ASCII characters
      are taken to be writable in every encoding). *)
Record interpreter : Type := Interpreter {
  int_max_str_digits : nat;
  max_nesting : nat;
  needs : action -> nat;
  stdout_encodes : N -> bool
}.

(** [int(text)] on a literal of [digits] digits: CPython checks the limit
    only above the threshold of 640 digits
    ([sys.int_info.str_digits_check_threshold]). *)
Definition exceeds_int_limit (py : interpreter) (digits : nat) : bool :=
  (640 <? digits)%nat && (0 <? int_max_str_digits py)%nat
  && (int_max_str_digits py <? digits)%nat.

(** The message of that [ValueError]. *)
Definition int_limit_message (py : interpreter) (digits : nat) : pystr :=
  lit "Exceeds the limit (" ++ str_of_int (Z.of_nat (int_max_str_digits py))
  ++ lit " digits) for integer string conversion: value has "
  ++ str_of_int (Z.of_nat digits)
  ++ lit " digits; use sys.set_int_max_str_digits() to increase the limit".

(** ** JSON values and [json.loads]

    The value [json.loads] builds, for the default decoder
    ([strict=True], no hooks).  A Python [int] is unbounded: [Z].  A
    Python [float] is kept as the text handed to [float(...)]: the number
    literal, or one of [NaN], [Infinity], [-Infinity].  A [dict] keeps
    its keys in insertion order. *)

Inductive json : Type :=
| JNull
| JBool (b : bool)
| JInt (z : Z)
| JFloat (text : pystr)
| JStr (s : pystr)
| JList (items : list json)
| JDict (pairs : list (pystr * json)).

Definition pystr_eqb (a b : pystr) : bool :=
  if list_eq_dec N.eq_dec a b then true else false.

(** [d[k] = v] on an insertion-ordered [dict]. *)
Fixpoint dict_set (k : pystr) (v : json) (d : list (pystr * json))
  : list (pystr * json) :=
  match d with
  | [] => [(k, v)]
  | (k', v') :: d' =>
      if pystr_eqb k k' then (k', v) :: d' else (k', v') :: dict_set k v d'
  end.

(** [dict(pairs)]. *)
Definition dict_of_pairs (pairs : list (pystr * json)) : list (pystr * json) :=
  fold_left (fun d kv => dict_set (fst kv) (snd kv) d) pairs [].

(** [d.get(k)]. *)
Fixpoint dict_get (k : pystr) (d : list (pystr * json)) : option json :=
  match d with
  | [] => None
  | (k', v) :: d' => if pystr_eqb k k' then Some v else dict_get k d'
  end.

(** Outcome of a scanner started at some position: the value and the text
    after it; a syntax error ([JSONDecodeError], or the [StopIteration]
    that [raw_decode] turns into one); another exception, raised at that
    point of the scan; or the budget of the recursive definition used up
    (which does not happen under [budget], lemma [scan_budget]). *)
Inductive scan (A : Type) : Type :=
| Scanned (a : A) (rest : pystr)
| Invalid
| Raised (e : exn)
| Exhausted.
Arguments Scanned {A} a rest.
Arguments Invalid {A}.
Arguments Raised {A} e.
Arguments Exhausted {A}.

(** The scanner takes the action [a] with room for [depth] calls, and
    then ends as [outcome]; without the room, the action fails. *)
Definition attempt {A : Type} (py : interpreter) (depth : nat) (a : action)
           (outcome : scan A) : scan A :=
  if (depth <? needs py a)%nat then Raised RecursionError else outcome.

(** A syntax error found by the scanner itself ([raise_errmsg]), and the
    report that no value starts here ([raise_stop_iteration]). *)
Definition syntax_error {A : Type} (py : interpreter) (depth : nat) : scan A :=
  attempt py depth BuildJSONDecodeError Invalid.

Definition no_value_here {A : Type} (py : interpreter) (depth : nat)
  : scan A :=
  attempt py depth BuildStopIteration Invalid.

(** [WHITESPACE = re.compile(r'[ \t\n\r]*')]. *)
Definition json_ws (c : N) : bool :=
  (c =? 32) || (c =? 9) || (c =? 10) || (c =? 13).

Fixpoint skip_ws (s : pystr) : pystr :=
  match s with
  | [] => []
  | c :: t => if json_ws c then skip_ws t else s
  end.

Definition is_digit (c : N) : bool := (48 <=? c) && (c <=? 57).

Definition hex_value (c : N) : option N :=
  if is_digit c then Some (c - 48)
  else if (97 <=? c) && (c <=? 102) then Some (c - 87)
  else if (65 <=? c) && (c <=? 70) then Some (c - 55)
  else None.

(** [_decode_uXXXX]: four hexadecimal digits. *)
Definition decode_uXXXX (h1 h2 h3 h4 : N) : option N :=
  match hex_value h1, hex_value h2, hex_value h3, hex_value h4 with
  | Some a, Some b, Some c, Some d => Some (((a * 16 + b) * 16 + c) * 16 + d)
  | _, _, _, _ => None
  end.

(** The [BACKSLASH] table of the decoder. *)
Definition backslash (c : N) : option N :=
  if (c =? 34) || (c =? 92) || (c =? 47) then Some c
  else if c =? 98 then Some 8
  else if c =? 102 then Some 12
  else if c =? 110 then Some 10
  else if c =? 114 then Some 13
  else if c =? 116 then Some 9
  else None.

(** [scanstring(s, end, strict=True)], started after the opening quote;
    [acc] holds the characters decoded so far, last one first. *)
Fixpoint scanstring (s : pystr) (acc : pystr) : option (pystr * pystr) :=
  match s with
  | [] => None
  | c :: t =>
      if c =? 34 then Some (rev acc, t)
      else if c =? 92 then
        match t with
        | [] => None
        | e :: t1 =>
            if e =? 117 then
              match t1 with
              | h1 :: h2 :: h3 :: h4 :: t2 =>
                  match decode_uXXXX h1 h2 h3 h4 with
                  | None => None
                  | Some uni =>
                      if (55296 <=? uni) && (uni <=? 56319) then
                        match t2 with
                        | b :: u :: t3 =>
                            if (b =? 92) && (u =? 117) then
                              match t3 with
                              | g1 :: g2 :: g3 :: g4 :: t4 =>
                                  match decode_uXXXX g1 g2 g3 g4 with
                                  | None => None
                                  | Some uni2 =>
                                      if (56320 <=? uni2) && (uni2 <=? 57343)
                                      then scanstring t4
                                             (65536 + ((uni - 55296) * 1024
                                                       + (uni2 - 56320)) :: acc)
                                      else scanstring t2 (uni :: acc)
                                  end
                              | _ => None
                              end
                            else scanstring t2 (uni :: acc)
                        | _ => scanstring t2 (uni :: acc)
                        end
                      else scanstring t2 (uni :: acc)
                  end
              | _ => None
              end
            else
              match backslash e with
              | Some d => scanstring t1 (d :: acc)
              | None => None
              end
        end
      else if c <=? 31 then None
      else scanstring t (c :: acc)
  end.

(** Leading run of ASCII digits and what follows it. *)
Fixpoint span_digits (s : pystr) : pystr * pystr :=
  match s with
  | c :: t =>
      if is_digit c
      then let (d, r) := span_digits t in (c :: d, r)
      else ([], s)
  | [] => ([], [])
  end.

(** The three groups of [NUMBER_RE]: an optional minus sign and then
    either [0] or a digit [1-9] with any digits after it; a dot and one
    digit or more; [e] or [E], an optional sign, and one digit or more. *)
Definition match_integer (s : pystr) : option (pystr * pystr) :=
  let (sign, s1) :=
    match s with
    | c :: t => if c =? 45 then ([45], t) else ([], s)
    | [] => ([], s)
    end in
  match s1 with
  | c :: t =>
      if c =? 48 then Some (sign ++ [48], t)
      else if is_digit c
      then let (d, r) := span_digits t in Some (sign ++ c :: d, r)
      else None
  | [] => None
  end.

Definition match_frac (s : pystr) : option (pystr * pystr) :=
  match s with
  | c :: t =>
      if c =? 46 then
        match span_digits t with
        | ([], _) => None
        | (d, r) => Some (c :: d, r)
        end
      else None
  | [] => None
  end.

Definition match_exp (s : pystr) : option (pystr * pystr) :=
  match s with
  | c :: t =>
      if (c =? 101) || (c =? 69) then
        let (sign, t1) :=
          match t with
          | g :: t' => if (g =? 45) || (g =? 43) then ([g], t') else ([], t)
          | [] => ([], t)
          end in
        match span_digits t1 with
        | ([], _) => None
        | (d, r) => Some (c :: sign ++ d, r)
        end
      else None
  | [] => None
  end.

(** [int(integer)] on a text accepted by the first group. *)
Definition int_of_digits (d : pystr) : Z :=
  fold_left (fun a c => (a * 10 + Z.of_N (c - 48))%Z) d 0%Z.

Definition int_of_text (t : pystr) : Z :=
  match t with
  | c :: d => if c =? 45 then (- int_of_digits d)%Z else int_of_digits t
  | [] => 0%Z
  end.

(** The number branch of [_scan_once]: [int(integer)] when the literal has
    neither fraction nor exponent, [float(integer + frac + exp)] otherwise. *)
Definition match_number (s : pystr) : option (json * pystr) :=
  match match_integer s with
  | None => None
  | Some (integer, r0) =>
      let (frac, r1) :=
        match match_frac r0 with
        | Some (f, r) => (f, r)
        | None => ([], r0)
        end in
      let (exp, r2) :=
        match match_exp r1 with
        | Some (e, r) => (e, r)
        | None => ([], r1)
        end in
      match frac, exp with
      | [], [] => Some (JInt (int_of_text integer), r2)
      | _, _ => Some (JFloat (integer ++ frac ++ exp), r2)
      end
  end.

(** [string[idx:idx + len(word)] == word]: the text after [word]. *)
Fixpoint after_word (word s : pystr) : option pystr :=
  match word, s with
  | [], _ => Some s
  | w :: word', c :: s' => if c =? w then after_word word' s' else None
  | _ :: _, [] => None
  end.

(** The branches of [_scan_once] that need no recursion, in its order:
    [null], [true], [false], a number, [NaN], [Infinity], [-Infinity]. *)
Definition scan_constant (s : pystr) : option (json * pystr) :=
  match s with
  | [] => None
  | c :: t =>
      match (if c =? 110 then after_word (lit "ull") t else None) with
      | Some r => Some (JNull, r)
      | None =>
      match (if c =? 116 then after_word (lit "rue") t else None) with
      | Some r => Some (JBool true, r)
      | None =>
      match (if c =? 102 then after_word (lit "alse") t else None) with
      | Some r => Some (JBool false, r)
      | None =>
      match match_number s with
      | Some (v, r) => Some (v, r)
      | None =>
      match (if c =? 78 then after_word (lit "aN") t else None) with
      | Some r => Some (JFloat (lit "NaN"), r)
      | None =>
      match (if c =? 73 then after_word (lit "nfinity") t else None) with
      | Some r => Some (JFloat (lit "Infinity"), r)
      | None =>
      match (if c =? 45 then after_word (lit "Infinity") t else None) with
      | Some r => Some (JFloat (lit "-Infinity"), r)
      | None => None
      end end end end end end end
  end.

(** The number of digits of the integer literal a text starts with: the
    first group of [NUMBER_RE] without its sign. *)
Definition integer_digits (s : pystr) : nat :=
  match match_integer s with
  | Some (integer, _) => List.length (List.filter is_digit integer)
  | None => O
  end.

Definition is_int (v : json) : bool :=
  match v with
  | JInt _ => true
  | _ => false
  end.

(** The values that [parse_constant] gives: no number literal reads as
    one of these three words. *)
Definition is_named_constant (v : json) : bool :=
  match v with
  | JFloat text =>
      pystr_eqb text (lit "NaN") || pystr_eqb text (lit "Infinity")
      || pystr_eqb text (lit "-Infinity")
  | _ => false
  end.

(** [_scan_once], [JSONArray] and [JSONObject] call one another; the
    budget [n] bounds the depth of these calls in the definition.
    [array_items] is the loop of [JSONArray], entered at the first value
    with the values read so far (last one first); [object_pairs] is the
    loop of [JSONObject], entered after the opening quote of a key.

    [depth] is the room left under the recursion limit.  The scanner
    calls [Py_EnterRecursiveCall] when it meets an opening brace or
    bracket, before it reads what is inside, and that call fails with
    [RecursionError] when no room is left; what is inside is read with
    one call less.  The number branch calls [int(integer)], which raises
    [ValueError] on a literal with too many digits. *)
Fixpoint scan_once (py : interpreter) (n : nat) (depth : nat) (s : pystr)
         {struct n} : scan json :=
  match n with
  | O => Exhausted
  | S n' =>
      match s with
      | [] => no_value_here py depth
      | c :: t =>
          if c =? 34 then
            match scanstring t [] with
            | Some (str, r) => Scanned (JStr str) r
            | None => syntax_error py depth
            end
          else if c =? 123 then
            match depth with
            | O => Raised RecursionError
            | S depth' =>
                match skip_ws t with
                | c' :: t' =>
                    if c' =? 125 then Scanned (JDict (dict_of_pairs [])) t'
                    else if c' =? 34 then
                      match object_pairs py n' depth' t' [] with
                      | Scanned pairs r =>
                          Scanned (JDict (dict_of_pairs pairs)) r
                      | Invalid => Invalid
                      | Raised e => Raised e
                      | Exhausted => Exhausted
                      end
                    else syntax_error py depth'
                | [] => syntax_error py depth'
                end
            end
          else if c =? 91 then
            match depth with
            | O => Raised RecursionError
            | S depth' =>
                match skip_ws t with
                | c' :: t' =>
                    if c' =? 93 then Scanned (JList []) t'
                    else
                      match array_items py n' depth' (c' :: t') [] with
                      | Scanned values r => Scanned (JList values) r
                      | Invalid => Invalid
                      | Raised e => Raised e
                      | Exhausted => Exhausted
                      end
                | [] => no_value_here py depth'
                end
            end
          else
            match scan_constant s with
            | Some (v, r) =>
                if is_int v && exceeds_int_limit py (integer_digits s)
                then attempt py depth BuildValueError
                       (Raised (ValueError
                                  (int_limit_message py (integer_digits s))))
                else if is_named_constant v
                then attempt py depth CallParseConstant (Scanned v r)
                else Scanned v r
            | None => no_value_here py depth
            end
      end
  end

with array_items (py : interpreter) (n : nat) (depth : nat) (s : pystr)
                 (values : list json) {struct n} : scan (list json) :=
  match n with
  | O => Exhausted
  | S n' =>
      match scan_once py n' depth s with
      | Scanned value r =>
          match skip_ws r with
          | c :: t =>
              if c =? 93 then Scanned (rev (value :: values)) t
              else if c =? 44
              then array_items py n' depth (skip_ws t) (value :: values)
              else syntax_error py depth
          | [] => syntax_error py depth
          end
      | Invalid => Invalid
      | Raised e => Raised e
      | Exhausted => Exhausted
      end
  end

with object_pairs (py : interpreter) (n : nat) (depth : nat) (s : pystr)
                  (pairs : list (pystr * json)) {struct n}
  : scan (list (pystr * json)) :=
  match n with
  | O => Exhausted
  | S n' =>
      match scanstring s [] with
      | None => syntax_error py depth
      | Some (key, r) =>
          match skip_ws r with
          | c :: t =>
              if c =? 58 then
                match scan_once py n' depth (skip_ws t) with
                | Scanned value r' =>
                    match skip_ws r' with
                    | c' :: t' =>
                        if c' =? 125 then Scanned (rev ((key, value) :: pairs)) t'
                        else if c' =? 44 then
                          match skip_ws t' with
                          | q :: t'' =>
                              if q =? 34
                              then object_pairs py n' depth t''
                                     ((key, value) :: pairs)
                              else syntax_error py depth
                          | [] => syntax_error py depth
                          end
                        else syntax_error py depth
                    | [] => syntax_error py depth
                    end
                | Invalid => Invalid
                | Raised e => Raised e
                | Exhausted => Exhausted
                end
              else syntax_error py depth
          | [] => syntax_error py depth
          end
      end
  end.

(** Budget under which the scanners never stop short on a text of the
    given length (lemma [scan_budget] below). *)
Definition budget (s : pystr) : nat := 2 * List.length s + 2.

(** [json.loads(s)] for a [str]: [JSONDecoder.decode], that is whitespace,
    one value, whitespace, end of text.  It returns the value, raises
    [json.JSONDecodeError] for a text that is not JSON (also for text
    after the value: "Extra data"), or lets through what the scanner
    raised: the [ValueError] of [int] or [RecursionError].  The
    [JSONDecodeError] that [decode] and [raw_decode] build themselves,
    above the scanner, is taken to have the room it needs. *)
Definition json_loads (py : interpreter) (s : pystr) : result json :=
  match scan_once py (budget s) (max_nesting py) (skip_ws s) with
  | Scanned obj r =>
      match skip_ws r with
      | [] => Return obj
      | _ :: _ => Raise JSONDecodeError
      end
  | Invalid => Raise JSONDecodeError
  | Raised e => Raise e
  | Exhausted => Raise JSONDecodeError
  end.

(** ** The completion service and standard output

    A stage builds a [PromptTemplate], wraps it with the module's [llm]
    in an [LLMChain], and calls [chain.run] with the template's variables.
    The wording of a template is fixed per stage, so a request is the
    stage's template together with the values of its variables. *)

Inductive template : Type :=
| intent_prompt | planning_prompt | refine_prompt | system_prompt
| summary_prompt.

(** A value passed to a template or to [print]: a [str], an [int], or
    the [str] that [json.dumps(v, ensure_ascii=False, indent=...)] gives
    for a decoded value [v] (kept as [v] and the indentation).
    [json.dumps] is taken to return on the values it is given; that it
    can itself run into the recursion limit, on a value nested as deep as
    [json.loads] can go or deeper, is left out, as is a call of the
    service that fails. *)
Inductive pyval : Type :=
| VStr (s : pystr)
| VInt (z : Z)
| VDumps (indent : option Z) (v : json).

Record request : Type := Request {
  req_template : template;
  req_variables : list (pystr * pyval)
}.

(** The completion service answers a request with a text.  Its answers
    need not be repeatable (the models run at temperature 0.7), so the
    answer may depend on the exchanges made before.  A call that fails
    in the service itself (network, credentials) is outside the model. *)
Definition service : Type := list (request * pystr) -> request -> pystr.

(** What a run leaves behind: the exchanges with the service, oldest
    first, and the [print] calls of the two files that went through,
    oldest first, each with its arguments (what the chains log in verbose
    mode is not recorded, nor the part of a line written before a [print]
    call failed). *)
Record world : Type := World {
  calls : list (request * pystr);
  stdout : list (list pyval)
}.

Definition start : world := World [] [].

(** Computations that read and extend the [world] and may raise. *)
Definition run (A : Type) : Type := world -> result A * world.

Definition ret {A} (a : A) : run A := fun w => (Return a, w).

Definition bind {A B} (m : run A) (k : A -> run B) : run B :=
  fun w =>
    match m w with
    | (Return a, w') => k a w'
    | (Raise e, w') => (Raise e, w')
    end.

Definition raise {A} (e : exn) : run A := fun w => (Raise e, w).

(** The characters of the strings inside a decoded value, keys and
    values alike. *)
Fixpoint json_chars (v : json) : pystr :=
  match v with
  | JStr s => s
  | JList items => flat_map json_chars items
  | JDict pairs =>
      flat_map (fun kv : pystr * json => let (k, x) := kv in k ++ json_chars x)
        pairs
  | _ => []
  end.

(** The characters of [str(a)] that can lie outside ASCII.  What
    [json.dumps(v, ensure_ascii=False)] writes besides the characters of
    the strings of [v], unescaped, is ASCII: punctuation, digits, the
    words of the constants, escapes for the control characters. *)
Definition chars_of (a : pyval) : pystr :=
  match a with
  | VStr s => s
  | VInt _ => []
  | VDumps _ v => json_chars v
  end.

(** [sys.stdout] can encode the text. *)
Definition encodable (py : interpreter) (s : pystr) : bool :=
  forallb (fun c => (c <? 128) || stdout_encodes py c) s.

Definition printable (py : interpreter) (args : list pyval) : bool :=
  forallb (fun a => encodable py (chars_of a)) args.

(** [print] with its arguments: the line is written, or [sys.stdout.write] raises
    [UnicodeEncodeError] on an argument it cannot encode. *)
Definition print (py : interpreter) (args : list pyval) : run unit :=
  fun w =>
    if printable py args
    then (Return tt, World (calls w) (stdout w ++ [args]))
    else (Raise UnicodeEncodeError, w).

Definition chain_run (llm : service) (t : template)
           (variables : list (pystr * pyval)) : run pystr :=
  fun w =>
    let rq := Request t variables in
    let answer := llm (calls w) rq in
    (Return answer, World (calls w ++ [(rq, answer)]) (stdout w)).

Notation "x <- m ;; k" := (bind m (fun x => k))
  (at level 61, m at next level, right associativity).
Notation "m ;;; k" := (bind m (fun _ => k))
  (at level 61, right associativity).

(** [range(n)]. *)
Definition range (n : Z) : list Z :=
  List.map Z.of_nat (seq 0 (Z.to_nat n)).

(** ** [planner.py] *)

Module Planner.

Definition clean_json_output (response_str : pystr) : pystr :=
  let cleaned_response := remove_fences response_str in
  let cleaned_response := sub_json_marker cleaned_response in
  strip cleaned_response.

Section WithService.

(** The interpreter the module runs on, and the module-level [llm]. *)
Variable py : interpreter.
Variable llm : service.

(** Each decoding stage ends with
    [try: v = json.loads(text)] / [except json.JSONDecodeError: print(...);
    raise ValueError(...)] / [return v]: the handler is for
    [JSONDecodeError] alone, any other exception of [json.loads] leaves
    the stage as it is. *)
Definition generate_intent (user_input : pystr) : run json :=
  response_str <- chain_run llm intent_prompt
                    [(lit "user_input", VStr user_input)] ;;
  let response_str := clean_json_output response_str in
  match json_loads py response_str with
  | Return intent => ret intent
  | Raise JSONDecodeError =>
      print py [VStr (lit "Failed to parse JSON response in generate_intent:");
                VStr response_str] ;;;
      raise (ValueError (lit "Failed to parse JSON response in generate_intent"))
  | Raise e => raise e
  end.

Definition generate_call_plan (intent : json) : run json :=
  let intent_str := VDumps None intent in
  response_json_str <- chain_run llm planning_prompt
                         [(lit "intent", intent_str)] ;;
  let response_json_str := clean_json_output response_json_str in
  match json_loads py response_json_str with
  | Return plan => ret plan
  | Raise JSONDecodeError =>
      print py [VStr (lit "Failed to parse JSON response in generate_call_plan:");
                VStr response_json_str] ;;;
      raise (ValueError
               (lit "Failed to parse JSON response in generate_call_plan"))
  | Raise e => raise e
  end.

(** The body of the [for] loop of [iterative_refinement], for loop index
    [i] and the current value of [refined_plan]; it gives the next value
    of [refined_plan]. *)
Definition refinement_pass (intent : json) (i : Z) (refined_plan : json)
  : run json :=
  let plan_json_str := VDumps (Some 2%Z) refined_plan in
  let intent_str := VDumps None intent in
  response_json_str <- chain_run llm refine_prompt
                         [(lit "plan_json", plan_json_str);
                          (lit "intent", intent_str)] ;;
  let response_json_str := clean_json_output response_json_str in
  match json_loads py response_json_str with
  | Return refined_plan' => ret refined_plan'
  | Raise JSONDecodeError =>
      print py [VStr (lit "Failed to parse JSON response in iterative_refinement, iteration");
                VInt (i + 1); VStr (lit ":"); VStr response_json_str] ;;;
      raise (ValueError
               (lit "Failed to parse JSON response in iterative_refinement, iteration "
                  ++ str_of_int (i + 1)))
  | Raise e => raise e
  end.

(** [for i in <indices>: refined_plan = <body>]. *)
Fixpoint refinement_loop (intent : json) (indices : list Z)
         (refined_plan : json) : run json :=
  match indices with
  | [] => ret refined_plan
  | i :: indices' =>
      refined_plan' <- refinement_pass intent i refined_plan ;;
      refinement_loop intent indices' refined_plan'
  end.

Definition iterative_refinement (plan intent : json) (iterations : Z)
  : run json :=
  let refined_plan := plan in
  refinement_loop intent (range iterations) refined_plan.

Definition create_cot_system_prompt_from_plan (plan intent : json)
  : run pystr :=
  let plan_json_str := VDumps (Some 2%Z) plan in
  let intent_str := VDumps None intent in
  final_output <- chain_run llm system_prompt
                    [(lit "plan_json", plan_json_str);
                     (lit "intent", intent_str)] ;;
  let final_output := clean_json_output final_output in
  ret final_output.

Definition main : run unit :=
  let user_input :=
    lit "Want to ask insurance company about my car insurance. when my insurance is expired, and I want to renew." in
  intent <- generate_intent user_input ;;
  print py [VStr (10 :: lit "[Generated Intent]")] ;;;
  print py [VDumps (Some 2%Z) intent] ;;;
  initial_plan <- generate_call_plan intent ;;
  print py [VStr (10 :: lit "[Initial Call Plan]")] ;;;
  print py [VDumps (Some 2%Z) initial_plan] ;;;
  refined_plan <- iterative_refinement initial_plan intent 3 ;;
  print py [VStr (10 :: lit "[Refined Call Plan]")] ;;;
  print py [VDumps (Some 2%Z) refined_plan] ;;;
  final_system_prompt <- create_cot_system_prompt_from_plan refined_plan intent ;;
  print py [VStr (10 :: lit "[Final System Prompt]")] ;;;
  print py [VStr final_system_prompt].

End WithService.

End Planner.

(** ** [summary.py] *)

Module Summary.

Definition clean_json_output (response_str : pystr) : pystr :=
  let cleaned_response := remove_fences response_str in
  let cleaned_response := sub_json_marker cleaned_response in
  strip cleaned_response.

Section WithService.

Variable py : interpreter.
Variable llm : service.

Definition summarize_call_log (call_log : pystr) : run json :=
  response_str <- chain_run llm summary_prompt
                    [(lit "call_log", VStr call_log)] ;;
  let response_str := clean_json_output response_str in
  match json_loads py response_str with
  | Return summary => ret summary
  | Raise JSONDecodeError =>
      print py [VStr (lit "Failed to parse JSON response in summarize_call_log:");
                VStr response_str] ;;;
      raise (ValueError
               (lit "Failed to parse JSON response in summarize_call_log"))
  | Raise e => raise e
  end.

(** The example record of [main]. *)
Definition call_record : pystr :=
  lit "Hello Tony, this is Seo calling to confirm our meeting time scheduled for 7pm.

0:00
I'm sorry, I can't go to the apartment.

0:06
I understand, Tony. Could you let me know if there's a different time that works better for you, or if there's a reason for the change? I want to make sure we have the correct details.

0:11
1590 ms
Because my car is broken, so can we make another appointment next week?

0:23
I see, Tony. Thank you for letting me know. I will note that your car is currently unavailable and that you'd prefer to reschedule for next week. I will verify the new appointment time and follow up with you soon. Is there anything else I can assist you with today?

0:33
483 ms
Oh thank you Dan! I want you to let me know how faster when your appointment is available.

0:48
I'll make sure to check the earliest available appointment for next week and get back to you as soon as possible. If there's anything else you need, feel free to let me know.

0:59
556 ms
Oh thanks! It's okay.

1:08
Thank you, Tony. I'll follow up with you soon regarding the new appointment time. Have a great day!

1:12
Tool called: end_call


1:12
".

Definition main : run unit :=
  summary <- summarize_call_log call_record ;;
  print py [VStr (10 :: lit "[Call Record Summary]")] ;;;
  print py [VDumps (Some 2%Z) summary].

End WithService.

End Summary.

(** ** Vocabulary of the properties *)

Definition fence : pystr := [backtick; backtick; backtick].

(** The text holds the fence marker somewhere. *)
Definition fence_in (s : pystr) : Prop :=
  exists a b, s = a ++ fence ++ b.

(** The text starts with the marker that [sub_json_marker] removes:
    whitespace (possibly none), then [json] in any letter case. *)
Definition leading_json_marker (s : pystr) : Prop :=
  exists ws c1 c2 c3 c4 rest,
    s = ws ++ c1 :: c2 :: c3 :: c4 :: rest
    /\ Forall (fun c => isspace c = true) ws
    /\ In c1 [106; 74] /\ In c2 [115; 83; 383]
    /\ In c3 [111; 79] /\ In c4 [110; 78].

Definition all_space (s : pystr) : Prop := Forall (fun c => isspace c = true) s.

Definition starts_fence (s : pystr) : bool :=
  match s with
  | c1 :: c2 :: c3 :: _ =>
      (c1 =? backtick) && (c2 =? backtick) && (c3 =? backtick)
  | _ => false
  end.

Definition starts_tick (s : pystr) : bool :=
  match s with
  | c :: _ => c =? backtick
  | [] => false
  end.

(** The answer of an exchange decodes once cleaned: [json.loads] returns
    a value for it. *)
Definition decodes (py : interpreter) (c : request * pystr) : Prop :=
  exists v, json_loads py (Planner.clean_json_output (snd c)) = Return v.

(** The value decoded from the last of a list of exchanges, and [plan]
    when there is none. *)
Definition last_decoded (py : interpreter) (plan : json)
           (exchanges : list (request * pystr)) : result json :=
  match rev exchanges with
  | [] => Return plan
  | c :: _ => json_loads py (Planner.clean_json_output (snd c))
  end.

(** The request of a refinement pass over the plan [p]. *)
Definition refine_request (intent p : json) : request :=
  Request refine_prompt
    [(lit "plan_json", VDumps (Some 2%Z) p); (lit "intent", VDumps None intent)].

(** The message and the printed line of a refinement pass that fails at
    loop index [i]. *)
Definition refine_message (i : Z) : pystr :=
  lit "Failed to parse JSON response in iterative_refinement, iteration "
    ++ str_of_int (i + 1).

Definition refine_line (i : Z) (text : pystr) : list pyval :=
  [VStr (lit "Failed to parse JSON response in iterative_refinement, iteration");
   VInt (i + 1); VStr (lit ":"); VStr text].

(** The requests of the other stages. *)
Definition intent_request (user_input : pystr) : request :=
  Request intent_prompt [(lit "user_input", VStr user_input)].

Definition plan_request (intent : json) : request :=
  Request planning_prompt [(lit "intent", VDumps None intent)].

Definition system_request (plan intent : json) : request :=
  Request system_prompt
    [(lit "plan_json", VDumps (Some 2%Z) plan); (lit "intent", VDumps None intent)].

Definition summary_request (call_log : pystr) : request :=
  Request summary_prompt [(lit "call_log", VStr call_log)].

(** The world after one more exchange, and after one more printed line. *)
Definition exchanged (w : world) (rq : request) (answer : pystr) : world :=
  World (calls w ++ [(rq, answer)]) (stdout w).

Definition printed (w : world) (line : list pyval) : world :=
  World (calls w) (stdout w ++ [line]).

(** The exchanges a run added to those of the world [w0] it started in. *)
Definition issued (w0 w : world) : list (request * pystr) :=
  skipn (List.length (calls w0)) (calls w).

(** The templates of a run of [Planner.main] that goes through. *)
Definition pipeline_order : list template :=
  [intent_prompt; planning_prompt; refine_prompt; refine_prompt;
   refine_prompt; system_prompt].

(** [a] occurs in [s]: Python's [a in s]. *)
Definition infix_of (a s : pystr) : Prop := exists x y, s = x ++ a ++ y.

(** [r[k]] for a returned mapping [r]; [None] when the run raised, the
    value is no mapping, or the key is absent. *)
Definition field (k : pystr) (r : result json) : option json :=
  match r with
  | Return (JDict d) => dict_get k d
  | _ => None
  end.

(** *** Sample services *)

(** A service that never answers with JSON. *)
Definition garbled : service :=
  fun _ _ => lit "Sorry, I cannot help with that.".

(** A service that answers every request with the same text. *)
Definition constant (answer : pystr) : service := fun _ _ => answer.

(** A service that answers its [k]th request with the [k]th text of a
    script (and with the empty text once the script is over). *)
Definition scripted (answers : list pystr) : service :=
  fun history _ => nth (List.length history) answers [].

Definition tony_summary : pystr :=
  qlit "{'recipient':'Tony','purpose':'confirm meeting','result':'failure','failureReason':'car broken','nextSteps':'reschedule','additionalDetails':''}".

Definition sample_intent : json :=
  JDict [(lit "Caller(You)", JStr (lit "AI agent"));
         (lit "recipient(Opponent)", JStr (lit "insurance company"));
         (lit "purpose", JStr (lit "renew expired car insurance"));
         (lit "context", JStr (lit "policy expiring soon"))].

Definition sample_plan : json :=
  JDict [(lit "scenarios",
          JList [JDict [(lit "name", JStr (lit "Greeting"));
                        (lit "description", JStr (lit "The agent answers"));
                        (lit "chainOfThought", JStr (lit "State the purpose"));
                        (lit "possibleActions",
                         JList [JDict [(lit "action", JStr (lit "Ask to renew"));
                                       (lit "next", JStr (lit "END"))]])]])].

Definition sample_plan_text : pystr :=
  qlit "```json
{'scenarios': [{'name': 'Greeting', 'description': 'The agent answers',
  'chainOfThought': 'State the purpose',
  'possibleActions': [{'action': 'Ask to renew', 'next': 'END'}]}]}
```".

Definition sample_intent_text : pystr :=
  qlit "{'Caller(You)': 'AI agent', 'recipient(Opponent)': 'insurance company',
 'purpose': 'renew expired car insurance', 'context': 'policy expiring soon'}".

(** [s.startswith(a)] and [a in s], as tests. *)
Fixpoint prefix_b (a s : pystr) : bool :=
  match a, s with
  | [], _ => true
  | x :: a', y :: s' => (x =? y) && prefix_b a' s'
  | _ :: _, [] => false
  end.

Fixpoint infix_b (a s : pystr) : bool :=
  prefix_b a s
  || match s with
     | [] => false
     | _ :: s' => infix_b a s'
     end.

(** A stand-in for the service that answers [tony_summary] to a summary
    request whose call record mentions a broken car, and nothing
    otherwise. *)
Definition broken_car_stub : service :=
  fun _ rq =>
    match req_template rq, req_variables rq with
    | summary_prompt, [(_, VStr call_log)] =>
        if infix_b (lit "car is broken") call_log then tony_summary else []
    | _, _ => []
    end.

(** One round of the loop of [scanstring]: the closing quote, one decoded
    character, or an error; with the text that follows. *)
Inductive chunk : Type :=
| Close (rest : pystr)
| Char (ch : N) (rest : pystr)
| Bad.

Definition string_step (s : pystr) : chunk :=
  match s with
  | [] => Bad
  | c :: t =>
      if c =? 34 then Close t
      else if c =? 92 then
        match t with
        | [] => Bad
        | e :: t1 =>
            if e =? 117 then
              match t1 with
              | h1 :: h2 :: h3 :: h4 :: t2 =>
                  match decode_uXXXX h1 h2 h3 h4 with
                  | None => Bad
                  | Some uni =>
                      if (55296 <=? uni) && (uni <=? 56319) then
                        match t2 with
                        | b :: u :: t3 =>
                            if (b =? 92) && (u =? 117) then
                              match t3 with
                              | g1 :: g2 :: g3 :: g4 :: t4 =>
                                  match decode_uXXXX g1 g2 g3 g4 with
                                  | None => Bad
                                  | Some uni2 =>
                                      if (56320 <=? uni2) && (uni2 <=? 57343)
                                      then Char (65536 + ((uni - 55296) * 1024
                                                          + (uni2 - 56320))) t4
                                      else Char uni t2
                                  end
                              | _ => Bad
                              end
                            else Char uni t2
                        | _ => Char uni t2
                        end
                      else Char uni t2
                  end
              | _ => Bad
              end
            else
              match backslash e with
              | Some d => Char d t1
              | None => Bad
              end
        end
      else if c <=? 31 then Bad
      else Char c t
  end.

(** A markdown code fence around [j]: the opening fence with its language
    tag [lang], the text between whitespace [pre] and [post] (the line
    breaks of the fence), and the closing fence. *)
Definition fenced (lang pre j post : pystr) : pystr :=
  fence ++ lang ++ pre ++ j ++ post ++ fence.

(** No character of the text is a backtick. *)
Definition tick_free (s : pystr) : Prop := Forall (fun c => c <> backtick) s.

(** The outcome of a scanner when [W] is put behind the text it read. *)
Definition trailing {A : Type} (W : pystr) (o : option (A * pystr))
  : option (A * pystr) :=
  match o with
  | Some (a, r) => Some (a, r ++ W)
  | None => None
  end.

Definition chunk_trailing (W : pystr) (k : chunk) : chunk :=
  match k with
  | Close r => Close (r ++ W)
  | Char ch r => Char ch (r ++ W)
  | Bad => Bad
  end.

(** The text is empty or starts with a whitespace character. *)
Definition no_value (s : pystr) : Prop :=
  match s with
  | [] => True
  | w :: _ => isspace w = true
  end.

(** [a] is [b] with some characters left out. *)
Inductive subseq : pystr -> pystr -> Prop :=
| subseq_nil : subseq [] []
| subseq_keep (c : N) (a b : pystr) : subseq a b -> subseq (c :: a) (c :: b)
| subseq_drop (c : N) (a b : pystr) : subseq a b -> subseq a (c :: b).

(** The exchanges of a refinement loop started on the plan [p] are
    chained: each request carries the plan in force, which is [p] at the
    start and then the value decoded from the answer before; an answer
    that fails to decode ends the list. *)
Fixpoint chained (py : interpreter) (intent p : json)
         (l : list (request * pystr)) : Prop :=
  match l with
  | [] => True
  | c :: l' =>
      fst c = refine_request intent p
      /\ match json_loads py (Planner.clean_json_output (snd c)) with
         | Return p' => chained py intent p' l'
         | Raise _ => l' = []
         end
  end.

(** The request text that [main] of [planner.py] holds. *)
Definition main_user_input : pystr :=
  lit "Want to ask insurance company about my car insurance. when my insurance is expired, and I want to renew.".


(** *** Sample interpreters *)

(** CPython 3.11 as installed: [int] takes 4300 digits; the recursion
    limit of 1000 leaves the scanner room for 993 calls when a stage
    called from [main] calls [json.loads]; building a [JSONDecodeError]
    goes three calls deep, calling [parse_constant] one, and the two
    other exceptions are set without a call; [sys.stdout] writes UTF-8,
    which encodes every character but a lone surrogate. *)
Definition cpython : interpreter :=
  Interpreter 4300 993
    (fun a =>
       match a with
       | BuildJSONDecodeError => 3
       | CallParseConstant => 1
       | BuildStopIteration | BuildValueError => 0
       end)%nat
    (fun c => negb ((55296 <=? c) && (c <=? 57343))).

(** The same after [sys.set_int_max_str_digits(0)]. *)
Definition cpython_any_int : interpreter :=
  Interpreter 0 993 (needs cpython) (stdout_encodes cpython).

(** The same with [sys.stdout] in ASCII, as under the C locale. *)
Definition cpython_ascii : interpreter :=
  Interpreter 4300 993 (needs cpython) (fun _ => false).

(** *** The failure of a decoding stage *)

(** What a decoding stage raises when [json.loads] raised [e]: for
    [JSONDecodeError] the [ValueError] of its handler, unless the [print]
    of the handler fails first; any other exception as it is. *)
Definition stage_error (py : interpreter) (line : list pyval)
           (message : pystr) (e : exn) : exn :=
  match e with
  | JSONDecodeError =>
      if printable py line then ValueError message else UnicodeEncodeError
  | _ => e
  end.

(** The lines it has printed by then, and the world it leaves. *)
Definition stage_lines (py : interpreter) (line : list pyval) (e : exn)
  : list (list pyval) :=
  match e with
  | JSONDecodeError => if printable py line then [line] else []
  | _ => []
  end.

Definition stage_output (py : interpreter) (line : list pyval) (e : exn)
           (w : world) : world :=
  match e with
  | JSONDecodeError => if printable py line then printed w line else w
  | _ => w
  end.

(** The message and the diagnostic line of the decoding stage that makes
    the request number [k] (from 0) of [Planner.main], with template [t]:
    requests 2, 3 and 4 are the passes 1, 2 and 3 of the refinement. *)
Definition stage_message (t : template) (k : nat) : pystr :=
  match t with
  | intent_prompt => lit "Failed to parse JSON response in generate_intent"
  | planning_prompt => lit "Failed to parse JSON response in generate_call_plan"
  | refine_prompt => refine_message (Z.of_nat (k - 2))
  | summary_prompt => lit "Failed to parse JSON response in summarize_call_log"
  | system_prompt => []
  end.

Definition stage_line (t : template) (k : nat) (text : pystr) : list pyval :=
  match t with
  | intent_prompt =>
      [VStr (lit "Failed to parse JSON response in generate_intent:"); VStr text]
  | planning_prompt =>
      [VStr (lit "Failed to parse JSON response in generate_call_plan:");
       VStr text]
  | refine_prompt => refine_line (Z.of_nat (k - 2)) text
  | summary_prompt =>
      [VStr (lit "Failed to parse JSON response in summarize_call_log:");
       VStr text]
  | system_prompt => []
  end.

(** A text of 4301 digits [1]: an integer literal, one digit above the
    limit of [cpython]. *)
Definition long_integer : pystr := repeat 49 4301.

(** How a run of [Planner.main] ends with the exception [e] at its last
    exchange [c], which is its request number [k] (from 0).  At an
    exchange of a decoding stage, either [json.loads] raised and [e] is
    the error of that stage, or the stage returned and the [print] of its
    value failed ([main] prints the intent, the first plan and the last
    refined plan: the values of the requests 0, 1 and 4).  At the exchange
    of the last stage, the [print] of its cleaned answer failed. *)
Definition main_failure (py : interpreter) (k : nat) (c : request * pystr)
           (e : exn) : Prop :=
  let t := req_template (fst c) in
  let text := Planner.clean_json_output (snd c) in
  match t with
  | system_prompt => encodable py text = false /\ e = UnicodeEncodeError
  | _ =>
      match json_loads py text with
      | Raise e0 =>
          e = stage_error py (stage_line t k text) (stage_message t k) e0
      | Return v =>
          (k = 0 \/ k = 1 \/ k = 4)%nat
          /\ printable py [VDumps (Some 2%Z) v] = false
          /\ e = UnicodeEncodeError
      end
  end.
(** * Properties *)

(** ** Evaluation on sample texts *)

Example loads_object :
  json_loads cpython (qlit " {'a': [1, -2.5e3, true, null], 'b': {'c': 'x\u00e9\n'}, 'a': 'z'} ")
  = Return (JDict [(lit "a", JStr (lit "z"));
                   (lit "b", JDict [(lit "c", JStr [120; 233; 10])])]).
Proof. vm_compute. reflexivity. Qed.

Example loads_list :
  json_loads cpython (qlit "[1, -2.5e3, true, null, NaN, -0, [], {}]")
  = Return (JList [JInt 1; JFloat (lit "-2.5e3"); JBool true; JNull;
                   JFloat (lit "NaN"); JInt 0; JList []; JDict []]).
Proof. vm_compute. reflexivity. Qed.

Example loads_pair :
  json_loads cpython (qlit "'\ud83d\ude00 \ud83d'")
  = Return (JStr [128512; 32; 55357]).
Proof. vm_compute. reflexivity. Qed.

Example loads_bad :
  List.map (json_loads cpython)
    [qlit "{'a': 1,}"; qlit "[1,]"; qlit "01"; qlit "{} x"; qlit "";
     qlit "'abc"; qlit "{a: 1}"; qlit "1."; qlit "tru"]
  = repeat (Raise JSONDecodeError) 9.
Proof. vm_compute. reflexivity. Qed.

(** The limits of the interpreter: one digit too many, one container too
    many; the exception of the first of a limit and a syntax error that
    the scan meets. *)
Example loads_long_integer :
  json_loads cpython long_integer
  = Raise (ValueError
             (lit "Exceeds the limit (4300 digits) for integer string conversion: value has 4301 digits; use sys.set_int_max_str_digits() to increase the limit"))
  /\ json_loads cpython (45 :: long_integer) = json_loads cpython long_integer
  /\ (exists z, json_loads cpython (repeat 57 4300) = Return (JInt z))
  /\ (exists z, json_loads cpython_any_int long_integer = Return (JInt z))
  /\ json_loads cpython (long_integer ++ lit ".5")
     = Return (JFloat (long_integer ++ lit ".5")).
Proof.
  repeat apply conj; try (vm_compute; reflexivity);
    eexists; vm_compute; reflexivity.
Qed.

Example loads_deep :
  json_loads cpython (repeat 91 994 ++ repeat 93 994) = Raise RecursionError
  /\ (exists v, json_loads cpython (repeat 91 993 ++ repeat 93 993) = Return v)
  /\ json_loads cpython (repeat 91 2000 ++ lit "oops") = Raise RecursionError
  /\ json_loads cpython (lit "[oops" ++ repeat 91 2000) = Raise JSONDecodeError
  /\ json_loads cpython (repeat 123 2000) = Raise JSONDecodeError
  /\ json_loads cpython (lit "[1, " ++ long_integer ++ lit ", oops")
     = Raise (ValueError (int_limit_message cpython 4301))
  /\ json_loads cpython (lit "[oops, " ++ long_integer ++ lit "]")
     = Raise JSONDecodeError.
Proof.
  repeat apply conj; try (vm_compute; reflexivity);
    eexists; vm_compute; reflexivity.
Qed.

Example print_encodes :
  printable cpython [VStr [233; 128512]; VInt 3; VDumps None (JStr [233])] = true
  /\ printable cpython [VDumps (Some 2%Z) (JDict [(lit "k", JList [JStr [55357]])])]
     = false
  /\ printable cpython_ascii [VStr [233]] = false
  /\ printable cpython_ascii [VStr (lit "plain")] = true.
Proof. vm_compute. repeat split; reflexivity. Qed.

Example range_3 : range 3 = [0; 1; 2]%Z. Proof. reflexivity. Qed.

Example range_neg : range (-2) = []. Proof. reflexivity. Qed.

Example str_of_int_12 : str_of_int 12 = lit "12". Proof. reflexivity. Qed.

(** ** Whitespace trimming *)

Lemma lstrip_split (s : pystr) :
  exists ws, s = ws ++ lstrip s /\ all_space ws.
Proof.
  induction s as [|c t [ws [E F]]]; simpl.
  - exists []. split; [reflexivity | constructor].
  - destruct (isspace c) eqn:Hc.
    + exists (c :: ws). split; [simpl; congruence | constructor; assumption].
    + exists []. split; [reflexivity | constructor].
Qed.

Lemma lstrip_app_space (ws s : pystr) :
  all_space ws -> lstrip (ws ++ s) = lstrip s.
Proof.
  induction 1 as [|c ws Hc _ IH]; simpl; [reflexivity|].
  rewrite Hc. exact IH.
Qed.

Lemma lstrip_head (s : pystr) (c : N) (t : pystr) :
  lstrip s = c :: t -> isspace c = false.
Proof.
  induction s as [|d s IH]; simpl; [discriminate|].
  destruct (isspace d) eqn:Hd; [exact IH|].
  intros E. injection E as -> _. exact Hd.
Qed.

Lemma lstrip_fixed (c : N) (t : pystr) :
  isspace c = false -> lstrip (c :: t) = c :: t.
Proof. intros H. simpl. rewrite H. reflexivity. Qed.

Lemma lstrip_idem (s : pystr) : lstrip (lstrip s) = lstrip s.
Proof.
  destruct (lstrip s) as [|c t] eqn:E; [reflexivity|].
  apply lstrip_fixed. exact (lstrip_head _ _ _ E).
Qed.

Lemma rstrip_split (s : pystr) :
  exists ws, s = rstrip s ++ ws /\ all_space ws.
Proof.
  induction s as [|c t [ws [E F]]]; simpl.
  - exists []. split; [reflexivity | constructor].
  - destruct (rstrip t) as [|d r] eqn:Er.
    + destruct (isspace c) eqn:Hc.
      * exists (c :: ws). simpl in E. subst t.
        split; [reflexivity | constructor; assumption].
      * exists ws. simpl in E. subst t. split; [reflexivity | assumption].
    + exists ws. rewrite E at 1. split; [reflexivity | assumption].
Qed.

Lemma rstrip_app_space (s ws : pystr) :
  all_space ws -> rstrip (s ++ ws) = rstrip s.
Proof.
  intros H. assert (E : rstrip ws = []).
  { induction H as [|c ws Hc _ IH]; simpl; [reflexivity|].
    rewrite IH, Hc. reflexivity. }
  induction s as [|c t IH]; simpl; [exact E|].
  rewrite IH. reflexivity.
Qed.

(** A text whose last character is not whitespace is left alone. *)
Lemma rstrip_fixed (s : pystr) (c : N) :
  isspace c = false -> rstrip (s ++ [c]) = s ++ [c].
Proof.
  intros H. induction s as [|d t IH]; simpl.
  - rewrite H. reflexivity.
  - rewrite IH. destruct (t ++ [c]) eqn:E; [|reflexivity].
    destruct t; discriminate.
Qed.

Lemma rstrip_last (s : pystr) :
  rstrip s = [] \/ exists r c, rstrip s = r ++ [c] /\ isspace c = false.
Proof.
  induction s as [|d t IH]; simpl; [left; reflexivity|].
  destruct (rstrip t) as [|e r] eqn:E.
  - destruct (isspace d) eqn:Hd; [left; reflexivity|].
    right. exists [], d. split; [reflexivity | assumption].
  - right. destruct IH as [IH | [r' [c [E' Hc]]]]; [discriminate|].
    exists (d :: r'), c. rewrite E'. split; [reflexivity | assumption].
Qed.

Lemma rstrip_idem (s : pystr) : rstrip (rstrip s) = rstrip s.
Proof.
  destruct (rstrip_last s) as [E | [r [c [E Hc]]]]; rewrite E.
  - reflexivity.
  - apply rstrip_fixed. exact Hc.
Qed.

(** Trimming the right end keeps a first character that is not whitespace. *)
Lemma rstrip_cons (c : N) (t : pystr) :
  isspace c = false -> exists r, rstrip (c :: t) = c :: r.
Proof.
  intros H. simpl. destruct (rstrip t) as [|d r].
  - rewrite H. exists []. reflexivity.
  - exists (d :: r). reflexivity.
Qed.

Lemma lstrip_strip (s : pystr) : lstrip (strip s) = strip s.
Proof.
  unfold strip. destruct (lstrip s) as [|c t] eqn:E; [reflexivity|].
  pose proof (lstrip_head _ _ _ E) as Hc.
  destruct (rstrip_cons c t Hc) as [r ->]. apply lstrip_fixed. exact Hc.
Qed.

Lemma strip_idem (s : pystr) : strip (strip s) = strip s.
Proof.
  unfold strip at 1. rewrite lstrip_strip. unfold strip. apply rstrip_idem.
Qed.

Lemma lstrip_length (s : pystr) : (List.length (lstrip s) <= List.length s)%nat.
Proof.
  destruct (lstrip_split s) as [ws [E _]]. rewrite E at 2.
  rewrite length_app. lia.
Qed.

Lemma rstrip_length (s : pystr) : (List.length (rstrip s) <= List.length s)%nat.
Proof.
  destruct (rstrip_split s) as [ws [E _]]. rewrite E at 2.
  rewrite length_app. lia.
Qed.

Lemma strip_length (s : pystr) : (List.length (strip s) <= List.length s)%nat.
Proof.
  unfold strip. pose proof (rstrip_length (lstrip s)).
  pose proof (lstrip_length s). lia.
Qed.

(** ** Fence removal *)

Lemma starts_fence_true (s : pystr) :
  starts_fence s = true -> exists t, s = fence ++ t.
Proof.
  destruct s as [|c1 [|c2 [|c3 t]]]; simpl; try discriminate.
  intros H. apply andb_prop in H as [H H3]. apply andb_prop in H as [H1 H2].
  apply N.eqb_eq in H1, H2, H3. subst. exists t. reflexivity.
Qed.

Lemma remove_fences_skip (t : pystr) :
  remove_fences (fence ++ t) = remove_fences t.
Proof. reflexivity. Qed.

Lemma remove_fences_keep (c : N) (s : pystr) :
  starts_fence (c :: s) = false ->
  remove_fences (c :: s) = c :: remove_fences s.
Proof.
  destruct s as [|c2 [|c3 t]]; try reflexivity.
  cbn [starts_fence remove_fences]. intros ->. reflexivity.
Qed.

(** The induction that follows the scan of [remove_fences]. *)
Lemma remove_fences_scan (P : pystr -> Prop) :
  P [] ->
  (forall t, P t -> P (fence ++ t)) ->
  (forall c s, starts_fence (c :: s) = false -> P s -> P (c :: s)) ->
  forall s, P s.
Proof.
  intros Hnil Hskip Hkeep s.
  assert (H : forall n s, (List.length s <= n)%nat -> P s).
  { clear s. induction n as [|n IH]; intros s Hs.
    - destruct s; [exact Hnil | simpl in Hs; lia].
    - destruct s as [|c s]; [exact Hnil|].
      destruct (starts_fence (c :: s)) eqn:E.
      + destruct (starts_fence_true _ E) as [t Et]. rewrite Et.
        apply Hskip, IH. rewrite Et in Hs. simpl in Hs. lia.
      + apply Hkeep; [exact E|]. apply IH. simpl in Hs. lia. }
  exact (H (List.length s) s (le_n _)).
Qed.

Lemma fence_in_cons (c : N) (s : pystr) : fence_in s -> fence_in (c :: s).
Proof. intros [a [b E]]. exists (c :: a), b. rewrite E. reflexivity. Qed.

Lemma fence_in_app_r (a s : pystr) : fence_in s -> fence_in (a ++ s).
Proof. induction a; simpl; [tauto|]. intros H. apply fence_in_cons; auto. Qed.

Lemma fence_in_app_l (s b : pystr) : fence_in s -> fence_in (s ++ b).
Proof.
  intros [a [b' E]]. exists a, (b' ++ b). rewrite E.
  rewrite <- !app_assoc. reflexivity.
Qed.

Lemma fence_in_starts (s : pystr) : starts_fence s = true -> fence_in s.
Proof. intros H. destruct (starts_fence_true _ H) as [t ->]. exists [], t. reflexivity. Qed.

(** A fence lies at the start or in the tail. *)
Lemma fence_in_inv (c : N) (s : pystr) :
  fence_in (c :: s) -> starts_fence (c :: s) = true \/ fence_in s.
Proof.
  intros [[|d a] [b E]].
  - left. simpl in E. rewrite E. reflexivity.
  - right. injection E as _ E. exists a, b. exact E.
Qed.

(** Without a fence the replacement changes nothing. *)
Lemma remove_fences_id (s : pystr) : ~ fence_in s -> remove_fences s = s.
Proof.
  induction s as [|c s IH]; intros H; [reflexivity|].
  rewrite remove_fences_keep.
  - rewrite IH; [reflexivity|]. intros F. apply H, fence_in_cons, F.
  - destruct (starts_fence (c :: s)) eqn:E; [|reflexivity].
    destruct H. apply fence_in_starts, E.
Qed.

Lemma remove_fences_no_tick (s : pystr) :
  starts_tick s = false -> starts_tick (remove_fences s) = false.
Proof.
  destruct s as [|c s]; [reflexivity|]. intros H.
  rewrite remove_fences_keep; [exact H|].
  simpl in H. destruct s as [|c2 [|c3 t]]; try reflexivity.
  simpl. rewrite H. reflexivity.
Qed.

(** The result of the replacement never starts with a fence... *)
Lemma remove_fences_starts (s : pystr) :
  starts_fence (remove_fences s) = false.
Proof.
  induction s as [| t IH | c s E IH] using remove_fences_scan.
  - reflexivity.
  - rewrite remove_fences_skip. exact IH.
  - rewrite remove_fences_keep by exact E.
    destruct (c =? backtick) eqn:Hc.
    2:{ destruct (remove_fences s) as [|c2 [|c3 t]]; try reflexivity.
        simpl. rewrite Hc. reflexivity. }
    destruct s as [|c2 s]; [reflexivity|].
    destruct (c2 =? backtick) eqn:Hc2.
    2:{ pose proof (remove_fences_no_tick (c2 :: s) Hc2) as T.
        destruct (remove_fences (c2 :: s)) as [|d [|d' t]]; try reflexivity.
        simpl in T. simpl. rewrite T, andb_false_r. reflexivity. }
    assert (T : starts_tick s = false).
    { destruct s as [|c3 t]; [reflexivity|]. simpl in E |- *.
      rewrite Hc, Hc2 in E. exact E. }
    assert (K : starts_fence (c2 :: s) = false).
    { destruct s as [|c3 [|c4 t]]; try reflexivity. simpl in T |- *.
      rewrite T, andb_false_r. reflexivity. }
    rewrite remove_fences_keep by exact K.
    pose proof (remove_fences_no_tick s T) as T'.
    destruct (remove_fences s) as [|d t]; [reflexivity|].
    simpl in T' |- *. rewrite T', andb_false_r. reflexivity.
Qed.

(** ... and each of its suffixes is the result for a suffix of the text. *)
Lemma remove_fences_suffix (s a x : pystr) :
  remove_fences s = a ++ x -> exists s', remove_fences s' = x.
Proof.
  revert a. induction s as [| t IH | c s E IH] using remove_fences_scan;
    intros a H.
  - exists []. destruct a; [exact H | discriminate].
  - rewrite remove_fences_skip in H. exact (IH a H).
  - destruct a as [|d a].
    + exists (c :: s). exact H.
    + rewrite remove_fences_keep in H by exact E.
      injection H as _ H. exact (IH a H).
Qed.

Lemma remove_fences_clean (s : pystr) : ~ fence_in (remove_fences s).
Proof.
  intros [a [b E]]. destruct (remove_fences_suffix _ _ _ E) as [s' E'].
  pose proof (remove_fences_starts s') as F. rewrite E' in F. discriminate.
Qed.

Lemma remove_fences_length (s : pystr) :
  (List.length (remove_fences s) <= List.length s)%nat.
Proof.
  induction s as [| t IH | c s E IH] using remove_fences_scan.
  - apply le_n.
  - rewrite remove_fences_skip. simpl. lia.
  - rewrite remove_fences_keep by exact E. simpl. lia.
Qed.

(** ** The leading [json] marker *)

Ltac eqb_cases :=
  repeat match goal with
         | |- context [?a =? ?b] =>
             let E := fresh "E" in
             destruct (N.eqb_spec a b) as [E|E]; [try subst a|]
         end.

Lemma literal_j (c : N) : literal_ignorecase 106 c = true <-> In c [106; 74].
Proof.
  unfold literal_ignorecase. change (106 - 32) with 74. simpl (_ =? 115).
  simpl (_ =? 107). simpl In. eqb_cases; simpl; intuition (try discriminate; try lia).
Qed.

Lemma literal_s (c : N) : literal_ignorecase 115 c = true <-> In c [115; 83; 383].
Proof.
  unfold literal_ignorecase. change (115 - 32) with 83. simpl (_ =? 115).
  simpl (_ =? 107). simpl In. eqb_cases; simpl; intuition (try discriminate; try lia).
Qed.

Lemma literal_o (c : N) : literal_ignorecase 111 c = true <-> In c [111; 79].
Proof.
  unfold literal_ignorecase. change (111 - 32) with 79. simpl (_ =? 115).
  simpl (_ =? 107). simpl In. eqb_cases; simpl; intuition (try discriminate; try lia).
Qed.

Lemma literal_n (c : N) : literal_ignorecase 110 c = true <-> In c [110; 78].
Proof.
  unfold literal_ignorecase. change (110 - 32) with 78. simpl (_ =? 115).
  simpl (_ =? 107). simpl In. eqb_cases; simpl; intuition (try discriminate; try lia).
Qed.

Lemma match_json_marker_some (s r : pystr) :
  match_json_marker s = Some r ->
  leading_json_marker s /\ (List.length r + 4 <= List.length s)%nat.
Proof.
  unfold match_json_marker. destruct (lstrip_split s) as [ws [E F]].
  destruct (lstrip s) as [|c1 [|c2 [|c3 [|c4 t]]]]; try discriminate.
  destruct (literal_ignorecase 106 c1) eqn:H1; [|discriminate].
  destruct (literal_ignorecase 115 c2) eqn:H2; [|discriminate].
  destruct (literal_ignorecase 111 c3) eqn:H3; [|discriminate].
  destruct (literal_ignorecase 110 c4) eqn:H4; [|discriminate].
  simpl. intros [= <-]. split.
  - exists ws, c1, c2, c3, c4, t.
    apply literal_j in H1. apply literal_s in H2.
    apply literal_o in H3. apply literal_n in H4.
    repeat split; assumption.
  - rewrite E, length_app. pose proof (lstrip_length t). simpl. lia.
Qed.

Lemma match_json_marker_none (s : pystr) :
  match_json_marker s = None <-> ~ leading_json_marker s.
Proof.
  split.
  - intros H (ws & c1 & c2 & c3 & c4 & rest & E & F & H1 & H2 & H3 & H4).
    unfold match_json_marker in H. subst s.
    rewrite lstrip_app_space in H by exact F.
    assert (Hc : isspace c1 = false).
    { destruct H1 as [<- | [<- | []]]; reflexivity. }
    rewrite lstrip_fixed in H by exact Hc.
    apply literal_j in H1. apply literal_s in H2.
    apply literal_o in H3. apply literal_n in H4.
    rewrite H1, H2, H3, H4 in H. discriminate.
  - intros H. destruct (match_json_marker s) as [r|] eqn:E; [|reflexivity].
    destruct H. exact (proj1 (match_json_marker_some _ _ E)).
Qed.

(** What [sub_json_marker] leaves is the end of the text. *)
Lemma sub_json_marker_suffix (s : pystr) :
  exists a, s = a ++ sub_json_marker s.
Proof.
  unfold sub_json_marker, match_json_marker.
  destruct (lstrip_split s) as [ws [E _]].
  destruct (lstrip s) as [|c1 [|c2 [|c3 [|c4 t]]]];
    try (exists []; reflexivity).
  destruct (_ && _); [|exists []; reflexivity].
  destruct (lstrip_split t) as [ws' [E' _]].
  exists (ws ++ c1 :: c2 :: c3 :: c4 :: ws').
  rewrite E at 1. rewrite E' at 1. rewrite <- app_assoc. reflexivity.
Qed.

Lemma strip_infix (s : pystr) : exists a b, s = a ++ strip s ++ b.
Proof.
  destruct (lstrip_split s) as [a [E _]].
  destruct (rstrip_split (lstrip s)) as [b [E' _]].
  exists a, b. unfold strip. rewrite <- E'. exact E.
Qed.

(** ** [clean_json_output] *)

Lemma summary_clean_json_output (s : pystr) :
  Summary.clean_json_output s = Planner.clean_json_output s.
Proof. reflexivity. Qed.

Lemma clean_json_output_no_fence (s : pystr) :
  ~ fence_in (Planner.clean_json_output s).
Proof.
  unfold Planner.clean_json_output. intros F.
  apply (remove_fences_clean s).
  destruct (sub_json_marker_suffix (remove_fences s)) as [a E].
  destruct (strip_infix (sub_json_marker (remove_fences s))) as [b [c E']].
  rewrite E, E'. apply fence_in_app_r, fence_in_app_r, fence_in_app_l, F.
Qed.

Lemma clean_json_output_stripped (s : pystr) :
  strip (Planner.clean_json_output s) = Planner.clean_json_output s.
Proof. apply strip_idem. Qed.

Lemma clean_json_output_length (s : pystr) :
  (List.length (Planner.clean_json_output s) <= List.length s)%nat.
Proof.
  unfold Planner.clean_json_output.
  pose proof (strip_length (sub_json_marker (remove_fences s))).
  pose proof (remove_fences_length s).
  destruct (sub_json_marker_suffix (remove_fences s)) as [a E].
  apply (f_equal (@List.length N)) in E. rewrite length_app in E. lia.
Qed.

(** On a text without fence and without leading marker the function only
    trims. *)
Lemma clean_json_output_plain (s : pystr) :
  ~ fence_in s -> ~ leading_json_marker s ->
  Planner.clean_json_output s = strip s.
Proof.
  intros F M. unfold Planner.clean_json_output.
  rewrite (remove_fences_id _ F). unfold sub_json_marker.
  apply match_json_marker_none in M. rewrite M. reflexivity.
Qed.

Lemma clean_json_output_marked (s : pystr) :
  ~ fence_in s -> leading_json_marker s ->
  (List.length (Planner.clean_json_output s) < List.length s)%nat.
Proof.
  intros F M. unfold Planner.clean_json_output.
  rewrite (remove_fences_id _ F). unfold sub_json_marker.
  destruct (match_json_marker s) as [r|] eqn:E.
  - apply match_json_marker_some in E as [_ L].
    pose proof (strip_length r). lia.
  - apply match_json_marker_none in E. contradiction.
Qed.

(** Decision of the two conditions by evaluation. *)
Lemma no_fence_by_scan (s : pystr) : remove_fences s = s -> ~ fence_in s.
Proof. intros E. rewrite <- E. apply remove_fences_clean. Qed.

Lemma no_marker_by_match (s : pystr) :
  match_json_marker s = None -> ~ leading_json_marker s.
Proof. apply match_json_marker_none. Qed.

(** C3, as stated: cleaning twice is not always cleaning once.  A second
    [json] word behind the first is removed by the second pass only. *)
Lemma clean_json_output_not_idempotent :
  Planner.clean_json_output (Planner.clean_json_output (lit "json json {}"))
  <> Planner.clean_json_output (lit "json json {}").
Proof. vm_compute. discriminate. Qed.

(** C3, amended: cleaning a cleaned text changes nothing exactly when the
    cleaned text does not itself start with a [json] marker; the same holds
    for the copy of the function in [summary.py]. *)
Theorem clean_json_output_idempotent (s : pystr) :
  (Planner.clean_json_output (Planner.clean_json_output s)
   = Planner.clean_json_output s
   <-> ~ leading_json_marker (Planner.clean_json_output s))
  /\ (Summary.clean_json_output (Summary.clean_json_output s)
      = Summary.clean_json_output s
      <-> ~ leading_json_marker (Summary.clean_json_output s)).
Proof.
  assert (H : Planner.clean_json_output (Planner.clean_json_output s)
              = Planner.clean_json_output s
              <-> ~ leading_json_marker (Planner.clean_json_output s)).
  { pose proof (clean_json_output_no_fence s) as F. split.
    - intros E M.
      pose proof (clean_json_output_marked _ F M) as L.
      rewrite E in L. lia.
    - intros M. rewrite (clean_json_output_plain _ F M).
      apply clean_json_output_stripped. }
  split; exact H.
Qed.

Lemma clean_json_output_idempotent_witness :
  Planner.clean_json_output
    (Planner.clean_json_output (qlit "```json
{'purpose': 'renew'}
```"))
  = Planner.clean_json_output (qlit "```json
{'purpose': 'renew'}
```").
Proof.
  apply (proj1 (clean_json_output_idempotent _)).
  apply no_marker_by_match. vm_compute. reflexivity.
Defined.

(** C7: on a text with no fence marker and no leading [json] marker,
    [clean_json_output] is [str.strip]. *)
Theorem clean_json_output_trims (s : pystr) :
  ~ fence_in s -> ~ leading_json_marker s ->
  Planner.clean_json_output s = strip s
  /\ Summary.clean_json_output s = strip s.
Proof.
  intros F M. split; [|rewrite (summary_clean_json_output s)];
    apply clean_json_output_plain; assumption.
Qed.

Lemma clean_json_output_trims_witness :
  Planner.clean_json_output (qlit "  {'purpose': 'renew'}
 ") = qlit "{'purpose': 'renew'}"
  /\ Summary.clean_json_output (qlit "  {'purpose': 'renew'}
 ") = qlit "{'purpose': 'renew'}".
Proof.
  apply (clean_json_output_trims (qlit "  {'purpose': 'renew'}
 ")).
  - apply no_fence_by_scan. vm_compute. reflexivity.
  - apply no_marker_by_match. vm_compute. reflexivity.
Defined.

(** ** One stage, one exchange *)

Arguments json_loads : simpl never.
Arguments Planner.clean_json_output : simpl never.
Arguments Summary.clean_json_output : simpl never.
Arguments lit : simpl never.
Arguments str_of_int : simpl never.

Lemma stage_output_calls (py : interpreter) (line : list pyval) (e : exn)
      (w : world) :
  calls (stage_output py line e w) = calls w.
Proof.
  destruct e; try reflexivity. simpl. destruct (printable py line); reflexivity.
Qed.

Lemma stage_output_stdout (py : interpreter) (line : list pyval) (e : exn)
      (w : world) :
  stdout (stage_output py line e w) = stdout w ++ stage_lines py line e.
Proof.
  destruct e; simpl; try (rewrite app_nil_r; reflexivity).
  destruct (printable py line); simpl; [|rewrite app_nil_r]; reflexivity.
Qed.

(** The tail every decoding stage ends with. *)
Lemma decode_or_raise (py : interpreter) (A : Type) (r : result A)
      (line : list pyval) (message : pystr) (w : world) :
  match r with
  | Return v => ret v
  | Raise JSONDecodeError => print py line ;;; raise (ValueError message)
  | Raise e => raise e
  end w
  = match r with
    | Return v => (Return v, w)
    | Raise e =>
        (Raise (stage_error py line message e), stage_output py line e w)
    end.
Proof.
  destruct r as [v|[]]; try reflexivity.
  unfold bind, print, stage_error, stage_output.
  destruct (printable py line); reflexivity.
Qed.

Lemma refinement_pass_run (py : interpreter) (llm : service) (intent : json)
      (i : Z) (p : json) (w : world) :
  let rq := refine_request intent p in
  let answer := llm (calls w) rq in
  let text := Planner.clean_json_output answer in
  Planner.refinement_pass py llm intent i p w
  = match json_loads py text with
    | Return p' => (Return p', exchanged w rq answer)
    | Raise e =>
        (Raise (stage_error py (refine_line i text) (refine_message i) e),
         stage_output py (refine_line i text) e (exchanged w rq answer))
    end.
Proof.
  intros rq answer text.
  exact (decode_or_raise py json (json_loads py text) (refine_line i text)
           (refine_message i) (exchanged w rq answer)).
Qed.

Lemma nth_error_range (n : Z) (k : nat) :
  (k < Z.to_nat n)%nat -> nth_error (range n) k = Some (Z.of_nat k).
Proof.
  intros H. unfold range.
  rewrite nth_error_map, nth_error_seq.
  destruct (Nat.ltb_spec k (Z.to_nat n)); [reflexivity | lia].
Qed.

Lemma length_range (n : Z) : List.length (range n) = Z.to_nat n.
Proof. unfold range. rewrite length_map, length_seq. reflexivity. Qed.

Lemma refinement_loop_step (py : interpreter) (llm : service) (intent : json)
      (i : Z) (indices : list Z) (p : json) (w : world) :
  let rq := refine_request intent p in
  let answer := llm (calls w) rq in
  let text := Planner.clean_json_output answer in
  Planner.refinement_loop py llm intent (i :: indices) p w
  = match json_loads py text with
    | Return p' =>
        Planner.refinement_loop py llm intent indices p'
          (exchanged w rq answer)
    | Raise e =>
        (Raise (stage_error py (refine_line i text) (refine_message i) e),
         stage_output py (refine_line i text) e (exchanged w rq answer))
    end.
Proof.
  intros rq answer text. cbn [Planner.refinement_loop]. unfold bind at 1.
  rewrite refinement_pass_run. fold rq answer text.
  destruct (json_loads py text); reflexivity.
Qed.

(** What a run of the loop does: it returns after one exchange per index,
    all decoding, with the value decoded from the last one; or it raises
    at the first exchange that fails to decode, which is then the last. *)
Lemma refinement_loop_run (py : interpreter) (llm : service) (intent : json)
      (indices : list Z) :
  forall (p : json) (w : world),
  exists new,
    calls (snd (Planner.refinement_loop py llm intent indices p w))
    = calls w ++ new
    /\ Forall (fun c => req_template (fst c) = refine_prompt) new
    /\ match fst (Planner.refinement_loop py llm intent indices p w) with
       | Return v =>
           List.length new = List.length indices
           /\ Forall (decodes py) new
           /\ last_decoded py p new = Return v
           /\ stdout (snd (Planner.refinement_loop py llm intent indices p w))
              = stdout w
       | Raise e =>
           exists good c i e0,
             new = good ++ [c]
             /\ Forall (decodes py) good
             /\ nth_error indices (List.length good) = Some i
             /\ json_loads py (Planner.clean_json_output (snd c)) = Raise e0
             /\ e = stage_error py
                      (refine_line i (Planner.clean_json_output (snd c)))
                      (refine_message i) e0
             /\ stdout (snd (Planner.refinement_loop py llm intent indices p w))
                = stdout w
                    ++ stage_lines py
                         (refine_line i (Planner.clean_json_output (snd c))) e0
       end.
Proof.
  induction indices as [|i indices IH]; intros p w.
  - exists []. simpl. rewrite app_nil_r. repeat split; constructor.
  - rewrite refinement_loop_step.
    set (rq := refine_request intent p).
    set (answer := llm (calls w) rq).
    destruct (json_loads py (Planner.clean_json_output answer))
      as [p'|e0] eqn:E.
    + assert (D : decodes py (rq, answer)) by (exists p'; exact E).
      destruct (IH p' (exchanged w rq answer)) as [new [Hc [Ht Hr]]].
      exists ((rq, answer) :: new). split; [|split].
      * rewrite Hc. simpl. rewrite <- app_assoc. reflexivity.
      * constructor; [reflexivity | exact Ht].
      * revert Hr.
        destruct (fst (Planner.refinement_loop py llm intent indices p' _));
          intros Hr.
        -- destruct Hr as (Hl & Hd & Hv & Ho). repeat split.
           ++ simpl. rewrite Hl. reflexivity.
           ++ constructor; [exact D | exact Hd].
           ++ unfold last_decoded in Hv |- *. simpl.
              destruct (rev new) as [|c r] eqn:Er.
              ** simpl. injection Hv as <-. exact E.
              ** simpl. exact Hv.
           ++ exact Ho.
        -- destruct Hr as (good & c & j & e1 & Hn & Hd & Hi & Hf & He & Ho).
           exists ((rq, answer) :: good), c, j, e1. repeat split.
           ++ rewrite Hn. reflexivity.
           ++ constructor; [exact D | exact Hd].
           ++ exact Hi.
           ++ exact Hf.
           ++ exact He.
           ++ exact Ho.
    + exists [(rq, answer)]. cbn [fst snd].
      rewrite stage_output_calls, stage_output_stdout.
      split; [reflexivity|]. split.
      * constructor; [reflexivity | constructor].
      * exists [], (rq, answer), i, e0. repeat split; try constructor.
        exact E.
Qed.

Example sample_plan_decodes :
  json_loads cpython (Planner.clean_json_output sample_plan_text)
  = Return sample_plan.
Proof. vm_compute. reflexivity. Qed.

Example sample_intent_decodes :
  json_loads cpython (Planner.clean_json_output sample_intent_text)
  = Return sample_intent.
Proof. vm_compute. reflexivity. Qed.

Lemma generate_intent_run (py : interpreter) (llm : service)
      (user_input : pystr) (w : world) :
  let rq := intent_request user_input in
  let answer := llm (calls w) rq in
  let text := Planner.clean_json_output answer in
  Planner.generate_intent py llm user_input w
  = match json_loads py text with
    | Return intent => (Return intent, exchanged w rq answer)
    | Raise e =>
        (Raise (stage_error py (stage_line intent_prompt 0 text)
                  (stage_message intent_prompt 0) e),
         stage_output py (stage_line intent_prompt 0 text) e
           (exchanged w rq answer))
    end.
Proof.
  intros rq answer text.
  exact (decode_or_raise py json (json_loads py text) _ _
           (exchanged w rq answer)).
Qed.

Lemma generate_call_plan_run (py : interpreter) (llm : service)
      (intent : json) (w : world) :
  let rq := plan_request intent in
  let answer := llm (calls w) rq in
  let text := Planner.clean_json_output answer in
  Planner.generate_call_plan py llm intent w
  = match json_loads py text with
    | Return plan => (Return plan, exchanged w rq answer)
    | Raise e =>
        (Raise (stage_error py (stage_line planning_prompt 1 text)
                  (stage_message planning_prompt 1) e),
         stage_output py (stage_line planning_prompt 1 text) e
           (exchanged w rq answer))
    end.
Proof.
  intros rq answer text.
  exact (decode_or_raise py json (json_loads py text) _ _
           (exchanged w rq answer)).
Qed.

Lemma summarize_call_log_run (py : interpreter) (llm : service)
      (call_log : pystr) (w : world) :
  let rq := summary_request call_log in
  let answer := llm (calls w) rq in
  let text := Summary.clean_json_output answer in
  Summary.summarize_call_log py llm call_log w
  = match json_loads py text with
    | Return summary => (Return summary, exchanged w rq answer)
    | Raise e =>
        (Raise (stage_error py (stage_line summary_prompt 0 text)
                  (stage_message summary_prompt 0) e),
         stage_output py (stage_line summary_prompt 0 text) e
           (exchanged w rq answer))
    end.
Proof.
  intros rq answer text.
  exact (decode_or_raise py json (json_loads py text) _ _
           (exchanged w rq answer)).
Qed.

Lemma create_cot_system_prompt_from_plan_run (llm : service)
      (plan intent : json) (w : world) :
  let rq := system_request plan intent in
  let answer := llm (calls w) rq in
  Planner.create_cot_system_prompt_from_plan llm plan intent w
  = (Return (Planner.clean_json_output answer), exchanged w rq answer).
Proof. reflexivity. Qed.

Lemma issued_app (w0 : world) (l new : list (request * pystr))
      (out : list (list pyval)) :
  l = calls w0 -> issued w0 (World (l ++ new) out) = new.
Proof.
  intros ->. unfold issued. simpl.
  rewrite skipn_app, skipn_all, Nat.sub_diag. reflexivity.
Qed.

Lemma range_nonpositive (n : Z) : (n <= 0)%Z -> range n = [].
Proof.
  intros H. unfold range. replace (Z.to_nat n) with 0%nat by lia. reflexivity.
Qed.

(** ** Iterative refinement *)

(** C1, as stated: with a service whose first answer is not JSON, a run
    asked for two passes stops after one exchange and returns nothing. *)
Lemma iterative_refinement_stops_early :
  let r := Planner.iterative_refinement cpython garbled sample_plan
             sample_intent 2 start in
  List.length (calls (snd r)) = 1%nat
  /\ fst r = Raise (ValueError (refine_message 0)).
Proof. vm_compute. split; reflexivity. Qed.

(** The outcome of a run of [iterative_refinement], whatever the count. *)
Lemma iterative_refinement_run (py : interpreter) (llm : service)
      (plan intent : json) (n : Z) (w : world) :
  let r := Planner.iterative_refinement py llm plan intent n w in
  calls (snd r) = calls w ++ issued w (snd r)
  /\ Forall (fun c => req_template (fst c) = refine_prompt) (issued w (snd r))
  /\ match fst r with
     | Return v =>
         List.length (issued w (snd r)) = Z.to_nat n
         /\ Forall (decodes py) (issued w (snd r))
         /\ last_decoded py plan (issued w (snd r)) = Return v
         /\ stdout (snd r) = stdout w
     | Raise e =>
         exists good c e0,
           issued w (snd r) = good ++ [c]
           /\ (List.length good < Z.to_nat n)%nat
           /\ Forall (decodes py) good
           /\ json_loads py (Planner.clean_json_output (snd c)) = Raise e0
           /\ e = stage_error py
                    (refine_line (Z.of_nat (List.length good))
                       (Planner.clean_json_output (snd c)))
                    (refine_message (Z.of_nat (List.length good))) e0
           /\ stdout (snd r)
              = stdout w
                  ++ stage_lines py
                       (refine_line (Z.of_nat (List.length good))
                          (Planner.clean_json_output (snd c))) e0
     end.
Proof.
  intros r. subst r. unfold Planner.iterative_refinement.
  destruct (refinement_loop_run py llm intent (range n) plan w)
    as [new [Hc [Ht Hr]]].
  assert (Hi : issued w (snd (Planner.refinement_loop py llm intent (range n)
                                plan w)) = new).
  { unfold issued. rewrite Hc, skipn_app, skipn_all, Nat.sub_diag.
    reflexivity. }
  rewrite Hi. split; [exact Hc|]. split; [exact Ht|]. revert Hr.
  destruct (fst (Planner.refinement_loop py llm intent (range n) plan w)).
  - intros (Hl & Hd & Hv & Ho). rewrite length_range in Hl. auto.
  - intros (good & c & i & e0 & Hg & Hd & Hk & Hf & He & Ho).
    assert (B : (List.length good < Z.to_nat n)%nat).
    { rewrite <- length_range. apply nth_error_Some. congruence. }
    rewrite nth_error_range in Hk by exact B. injection Hk as <-.
    exists good, c, e0. repeat split; assumption.
Qed.

(** C1, amended: with [iterations = 0] the plan comes back as it is and
    no request is made.  For [iterations = n >= 0], a run that returns has
    made exactly [n] requests, all from the refinement template and all
    answered with text that decodes, and it returns the value decoded from
    the last answer alone.  A run that does not return has raised at the
    first answer for which [json.loads] raised, which is its last
    exchange, within the first [n]; what it raises is the error of that
    pass. *)
Theorem iterative_refinement_count (py : interpreter) (llm : service)
        (plan intent : json) (n : Z) (w : world) :
  (0 <= n)%Z ->
  let r := Planner.iterative_refinement py llm plan intent n w in
  (n = 0%Z -> r = (Return plan, w))
  /\ calls (snd r) = calls w ++ issued w (snd r)
  /\ Forall (fun c => req_template (fst c) = refine_prompt) (issued w (snd r))
  /\ match fst r with
     | Return v =>
         List.length (issued w (snd r)) = Z.to_nat n
         /\ Forall (decodes py) (issued w (snd r))
         /\ last_decoded py plan (issued w (snd r)) = Return v
     | Raise e =>
         exists good c e0,
           issued w (snd r) = good ++ [c]
           /\ (List.length good < Z.to_nat n)%nat
           /\ Forall (decodes py) good
           /\ json_loads py (Planner.clean_json_output (snd c)) = Raise e0
           /\ e = stage_error py
                    (refine_line (Z.of_nat (List.length good))
                       (Planner.clean_json_output (snd c)))
                    (refine_message (Z.of_nat (List.length good))) e0
     end.
Proof.
  intros Hn r. split.
  - intros ->. reflexivity.
  - destruct (iterative_refinement_run py llm plan intent n w)
      as (Hc & Ht & Hr).
    fold r in Hc, Ht, Hr. split; [exact Hc|]. split; [exact Ht|].
    destruct (fst r).
    + destruct Hr as (Hl & Hd & Hv & _). auto.
    + destruct Hr as (good & c & e0 & Hg & Hl & Hd & Hf & He & _).
      exists good, c, e0. auto.
Qed.

(** Evaluates the scrutinee of a hypothesis that is a [match]. *)
Ltac eval_scrutinee H :=
  lazymatch type of H with
  | match ?x with _ => _ end =>
      let v := eval vm_compute in x in change x with v in H
  end.

Lemma iterative_refinement_count_witness :
  (0 <= 2)%Z
  /\ List.length
       (issued start
          (snd (Planner.iterative_refinement cpython
                  (constant sample_plan_text) JNull sample_intent 2 start)))
     = Z.to_nat 2
  /\ last_decoded cpython JNull
       (issued start
          (snd (Planner.iterative_refinement cpython
                  (constant sample_plan_text) JNull sample_intent 2 start)))
     = Return sample_plan.
Proof.
  split; [lia|].
  destruct (iterative_refinement_count cpython (constant sample_plan_text)
              JNull sample_intent 2 start ltac:(lia)) as (_ & _ & _ & H).
  eval_scrutinee H. destruct H as (Hl & _ & Hv). split; assumption.
Defined.

(** C10: a negative [iterations] leaves the loop without a pass: the plan
    comes back as it is, no request is made and nothing is printed. *)
Theorem iterative_refinement_negative (py : interpreter) (llm : service)
        (plan intent : json) (n : Z) (w : world) :
  (n < 0)%Z ->
  Planner.iterative_refinement py llm plan intent n w = (Return plan, w).
Proof.
  intros H. unfold Planner.iterative_refinement.
  rewrite range_nonpositive by lia. reflexivity.
Qed.

Lemma iterative_refinement_negative_witness :
  Planner.iterative_refinement cpython garbled sample_plan sample_intent (-3)
    start
  = (Return sample_plan, start).
Proof. apply iterative_refinement_negative. lia. Defined.

(** ** Decoding stages *)

(** An exchange of a run of the loop for which [json.loads] raises is the
    last one, and the run raises the error of the pass of that
    exchange. *)
Lemma iterative_refinement_failure (py : interpreter) (llm : service)
      (plan intent : json) (n : Z) (w : world) (k : nat)
      (c : request * pystr) (e : exn) :
  let r := Planner.iterative_refinement py llm plan intent n w in
  let text := Planner.clean_json_output (snd c) in
  nth_error (issued w (snd r)) k = Some c ->
  json_loads py text = Raise e ->
  fst r = Raise (stage_error py (refine_line (Z.of_nat k) text)
                   (refine_message (Z.of_nat k)) e)
  /\ List.length (issued w (snd r)) = S k
  /\ stdout (snd r)
     = stdout w ++ stage_lines py (refine_line (Z.of_nat k) text) e.
Proof.
  intros r text Hk Hf.
  destruct (iterative_refinement_run py llm plan intent n w) as (_ & _ & Hr).
  fold r in Hr.
  assert (Hin : forall l, Forall (decodes py) l -> ~ In c l).
  { intros l Hd Hl. rewrite Forall_forall in Hd.
    destruct (Hd c Hl) as [v Hv]. fold text in Hv. congruence. }
  destruct (fst r) as [v|e'].
  - destruct Hr as (_ & Hd & _). destruct (Hin _ Hd).
    exact (nth_error_In _ _ Hk).
  - destruct Hr as (good & c' & e0 & Hg & _ & Hd & Hf' & He & Ho).
    rewrite Hg in Hk |- *.
    assert (Hk' : k = List.length good).
    { destruct (Nat.lt_trichotomy k (List.length good)) as [L | [L | L]].
      - rewrite nth_error_app1 in Hk by exact L.
        destruct (Hin _ Hd). exact (nth_error_In _ _ Hk).
      - exact L.
      - assert (B : (k < List.length (good ++ [c']))%nat).
        { apply nth_error_Some. congruence. }
        rewrite length_app in B. simpl in B. lia. }
    subst k. rewrite nth_error_app2, Nat.sub_diag in Hk by apply le_n.
    injection Hk as ->. fold text in Hf', He, Ho.
    assert (e0 = e) by congruence. subst e0.
    rewrite length_app. simpl.
    repeat split; [rewrite He; reflexivity | lia | exact Ho].
Qed.

(** C2, as stated: the exception of a stage does not carry the text.
    For two answers that are not JSON and differ, [generate_intent] raises
    one and the same [ValueError], whose message names the stage and holds
    neither text; the text is in the line printed before.  And an answer
    that is not JSON by the standard, [NaN], is no failure at all:
    [json.loads] accepts it and the stage returns the value. *)
Lemma decode_error_lacks_text :
  let r1 := Planner.generate_intent cpython garbled main_user_input start in
  let r2 := Planner.generate_intent cpython (constant (lit "oops"))
              main_user_input start in
  fst r1
  = Raise (ValueError (lit "Failed to parse JSON response in generate_intent"))
  /\ fst r2 = fst r1
  /\ infix_b (lit "Sorry, I cannot help with that.")
       (lit "Failed to parse JSON response in generate_intent") = false
  /\ infix_b (lit "oops")
       (lit "Failed to parse JSON response in generate_intent") = false
  /\ stdout (snd r2)
     = [[VStr (lit "Failed to parse JSON response in generate_intent:");
         VStr (lit "oops")]]
  /\ fst (Planner.generate_intent cpython (constant (lit "NaN"))
            main_user_input start)
     = Return (JFloat (lit "NaN")).
Proof. vm_compute. repeat split; reflexivity. Qed.

(** C2, amended: in each decoding stage, an answer for whose cleaned text
    [json.loads] raises makes the stage raise, after its one exchange and
    without a value.  When the exception is [JSONDecodeError], the stage
    prints a line that holds the stage name and the cleaned text, and then
    raises a [ValueError] whose message names the stage (and, for a
    refinement pass, the pass); when that line cannot be written, the
    [UnicodeEncodeError] of [print] is what the stage raises.  Any other
    exception of [json.loads] leaves the stage as it is, with nothing
    printed.  For the loop of [iterative_refinement], this applies to
    whichever exchange of the run fails: it is the [k+1]st and last one,
    and the error is that of pass [k+1]. *)
Theorem stage_raises_on_invalid_json (py : interpreter) (llm : service)
        (w : world) :
  (forall user_input e,
      let rq := intent_request user_input in
      let text := Planner.clean_json_output (llm (calls w) rq) in
      let line :=
        [VStr (lit "Failed to parse JSON response in generate_intent:");
         VStr text] in
      json_loads py text = Raise e ->
      Planner.generate_intent py llm user_input w
      = (Raise (stage_error py line
                  (lit "Failed to parse JSON response in generate_intent") e),
         stage_output py line e (exchanged w rq (llm (calls w) rq))))
  /\ (forall intent e,
         let rq := plan_request intent in
         let text := Planner.clean_json_output (llm (calls w) rq) in
         let line :=
           [VStr (lit "Failed to parse JSON response in generate_call_plan:");
            VStr text] in
         json_loads py text = Raise e ->
         Planner.generate_call_plan py llm intent w
         = (Raise (stage_error py line
                     (lit "Failed to parse JSON response in generate_call_plan")
                     e),
            stage_output py line e (exchanged w rq (llm (calls w) rq))))
  /\ (forall intent i refined_plan e,
         let rq := refine_request intent refined_plan in
         let text := Planner.clean_json_output (llm (calls w) rq) in
         let line :=
           [VStr (lit "Failed to parse JSON response in iterative_refinement, iteration");
            VInt (i + 1); VStr (lit ":"); VStr text] in
         json_loads py text = Raise e ->
         Planner.refinement_pass py llm intent i refined_plan w
         = (Raise (stage_error py line
                     (lit "Failed to parse JSON response in iterative_refinement, iteration "
                        ++ str_of_int (i + 1)) e),
            stage_output py line e (exchanged w rq (llm (calls w) rq))))
  /\ (forall plan intent n k c e,
         let r := Planner.iterative_refinement py llm plan intent n w in
         let text := Planner.clean_json_output (snd c) in
         nth_error (issued w (snd r)) k = Some c ->
         json_loads py text = Raise e ->
         fst r = Raise (stage_error py (refine_line (Z.of_nat k) text)
                          (refine_message (Z.of_nat k)) e)
         /\ List.length (issued w (snd r)) = S k
         /\ stdout (snd r)
            = stdout w ++ stage_lines py (refine_line (Z.of_nat k) text) e)
  /\ (forall call_log e,
         let rq := summary_request call_log in
         let text := Summary.clean_json_output (llm (calls w) rq) in
         let line :=
           [VStr (lit "Failed to parse JSON response in summarize_call_log:");
            VStr text] in
         json_loads py text = Raise e ->
         Summary.summarize_call_log py llm call_log w
         = (Raise (stage_error py line
                     (lit "Failed to parse JSON response in summarize_call_log")
                     e),
            stage_output py line e (exchanged w rq (llm (calls w) rq))))
  /\ (forall line message w',
         printable py line = true ->
         stage_error py line message JSONDecodeError = ValueError message
         /\ stage_output py line JSONDecodeError w' = printed w' line
         /\ stage_lines py line JSONDecodeError = [line])
  /\ (forall line message w',
         printable py line = false ->
         stage_error py line message JSONDecodeError = UnicodeEncodeError
         /\ stage_output py line JSONDecodeError w' = w'
         /\ stage_lines py line JSONDecodeError = [])
  /\ (forall line message w' e,
         e <> JSONDecodeError ->
         stage_error py line message e = e
         /\ stage_output py line e w' = w'
         /\ stage_lines py line e = []).
Proof.
  repeat apply conj.
  - intros user_input e rq text line H. rewrite generate_intent_run.
    fold rq. fold text. rewrite H. reflexivity.
  - intros intent e rq text line H. rewrite generate_call_plan_run.
    fold rq. fold text. rewrite H. reflexivity.
  - intros intent i p e rq text line H. rewrite refinement_pass_run.
    fold rq. fold text. rewrite H. reflexivity.
  - intros plan intent n k c e. apply iterative_refinement_failure.
  - intros call_log e rq text line H. rewrite summarize_call_log_run.
    fold rq. fold text. rewrite H. reflexivity.
  - intros line message w' H. unfold stage_error, stage_output, stage_lines.
    rewrite H. auto.
  - intros line message w' H. unfold stage_error, stage_output, stage_lines.
    rewrite H. auto.
  - intros line message w' e H. destruct e; auto. destruct H. reflexivity.
Qed.

Lemma stage_raises_on_invalid_json_witness :
  Planner.generate_intent cpython garbled (lit "renew my insurance") start
  = (Raise (ValueError (lit "Failed to parse JSON response in generate_intent")),
     printed
       (exchanged start (intent_request (lit "renew my insurance"))
          (lit "Sorry, I cannot help with that."))
       [VStr (lit "Failed to parse JSON response in generate_intent:");
        VStr (lit "Sorry, I cannot help with that.")])
  /\ fst (Planner.generate_call_plan cpython garbled sample_intent start)
     = Raise (ValueError
                (lit "Failed to parse JSON response in generate_call_plan"))
  /\ fst (Planner.refinement_pass cpython garbled sample_intent 1 sample_plan
            start)
     = Raise (ValueError
                (lit "Failed to parse JSON response in iterative_refinement, iteration 2"))
  /\ fst (Planner.iterative_refinement cpython garbled sample_plan
            sample_intent 3 start)
     = Raise (ValueError
                (lit "Failed to parse JSON response in iterative_refinement, iteration 1"))
  /\ fst (Summary.summarize_call_log cpython garbled Summary.call_record start)
     = Raise (ValueError
                (lit "Failed to parse JSON response in summarize_call_log"))
  /\ fst (Planner.generate_intent cpython (constant long_integer)
            (lit "renew my insurance") start)
     = Raise (ValueError (int_limit_message cpython 4301))
  /\ fst (Planner.generate_intent cpython_ascii (constant [233])
            (lit "renew my insurance") start)
     = Raise UnicodeEncodeError.
Proof.
  destruct (stage_raises_on_invalid_json cpython garbled start)
    as (H1 & H2 & H3 & H4 & H5 & _).
  repeat apply conj.
  - rewrite (H1 (lit "renew my insurance") JSONDecodeError)
      by (vm_compute; reflexivity).
    reflexivity.
  - rewrite (H2 sample_intent JSONDecodeError) by (vm_compute; reflexivity).
    reflexivity.
  - rewrite (H3 sample_intent 1%Z sample_plan JSONDecodeError)
      by (vm_compute; reflexivity).
    reflexivity.
  - rewrite (proj1 (H4 sample_plan sample_intent 3%Z 0%nat
                      (refine_request sample_intent sample_plan,
                       lit "Sorry, I cannot help with that.")
                      JSONDecodeError
                      ltac:(vm_compute; reflexivity)
                      ltac:(vm_compute; reflexivity))).
    reflexivity.
  - rewrite (H5 Summary.call_record JSONDecodeError)
      by (vm_compute; reflexivity).
    reflexivity.
  - rewrite (proj1 (stage_raises_on_invalid_json cpython
                      (constant long_integer) start)
               (lit "renew my insurance")
               (ValueError (int_limit_message cpython 4301)))
      by (vm_compute; reflexivity).
    reflexivity.
  - rewrite (proj1 (stage_raises_on_invalid_json cpython_ascii
                      (constant [233]) start)
               (lit "renew my insurance") JSONDecodeError)
      by (vm_compute; reflexivity).
    reflexivity.
Defined.


Example create_cot_system_prompt_keeps_invalid_json :
  fst (Planner.create_cot_system_prompt_from_plan garbled sample_plan
         sample_intent start)
  = Return (lit "Sorry, I cannot help with that.")
  /\ json_loads cpython (lit "Sorry, I cannot help with that.")
     = Raise JSONDecodeError.
Proof. vm_compute. split; reflexivity. Qed.




(** ** The call summary *)

Lemma prefix_b_app (a y : pystr) : prefix_b a (a ++ y) = true.
Proof.
  induction a as [|c a IH]; simpl; [reflexivity|].
  rewrite N.eqb_refl. exact IH.
Qed.

Lemma prefix_b_true (a s : pystr) :
  prefix_b a s = true -> exists y, s = a ++ y.
Proof.
  revert s. induction a as [|c a IH]; intros s H.
  - exists s. reflexivity.
  - destruct s as [|d s]; [discriminate|]. simpl in H.
    apply andb_prop in H as [E H]. apply N.eqb_eq in E. subst d.
    destruct (IH s H) as [y ->]. exists y. reflexivity.
Qed.

Lemma infix_b_spec (a s : pystr) : infix_b a s = true <-> infix_of a s.
Proof.
  split.
  - induction s as [|c s IH]; simpl; rewrite orb_true_iff;
      intros [H | H]; try discriminate.
    + destruct (prefix_b_true _ _ H) as [y E]. exists [], y. exact E.
    + destruct (prefix_b_true _ _ H) as [y E]. exists [], y. exact E.
    + destruct (IH H) as (x & y & ->). exists (c :: x), y. reflexivity.
  - intros (x & y & ->). induction x as [|c x IH]; simpl.
    + assert (P : prefix_b a (a ++ y) = true) by apply prefix_b_app.
      destruct (a ++ y); simpl; rewrite P; reflexivity.
    + rewrite IH. apply orb_true_r.
Qed.

(** C8, as stated: the mapping that comes back has no [failure_reason]
    entry; the reason sits under the key of the prompt, [failureReason]. *)
Lemma summary_has_no_failure_reason_key :
  infix_b (lit "car is broken") Summary.call_record = true
  /\ field (lit "failure_reason")
       (fst (Summary.summarize_call_log cpython broken_car_stub
               Summary.call_record start)) = None
  /\ field (lit "failureReason")
       (fst (Summary.summarize_call_log cpython broken_car_stub
               Summary.call_record start)) = Some (JStr (lit "car broken")).
Proof. vm_compute. repeat split; reflexivity. Qed.

(** The stub text decodes on every interpreter that lets [json.loads]
    enter one object. *)
Lemma tony_summary_decodes (py : interpreter) :
  (1 <= max_nesting py)%nat ->
  json_loads py (Summary.clean_json_output tony_summary)
  = Return (JDict [(lit "recipient", JStr (lit "Tony"));
                   (lit "purpose", JStr (lit "confirm meeting"));
                   (lit "result", JStr (lit "failure"));
                   (lit "failureReason", JStr (lit "car broken"));
                   (lit "nextSteps", JStr (lit "reschedule"));
                   (lit "additionalDetails", JStr [])]).
Proof.
  destruct py as [digits [|nesting] levels encodes]; cbn [max_nesting]; [lia|].
  intros _. vm_compute. reflexivity.
Qed.

(** C8, amended: with a service that answers the given JSON text to every
    summary request whose call record contains [car is broken],
    [summarize_call_log] on such a record returns the decoded mapping; its
    [result] entry is [failure], its [failureReason] entry is
    [car broken], and it has no [failure_reason] entry.  The text is one
    object without numbers, so this holds on every interpreter that lets
    [json.loads] enter an object at all. *)
Theorem summarize_call_log_broken_car (py : interpreter) (llm : service) :
  (1 <= max_nesting py)%nat ->
  (forall history call_log,
      infix_of (lit "car is broken") call_log ->
      llm history (summary_request call_log) = tony_summary) ->
  forall call_log w,
    infix_of (lit "car is broken") call_log ->
    let r := fst (Summary.summarize_call_log py llm call_log w) in
    (exists d, r = Return (JDict d))
    /\ field (lit "result") r = Some (JStr (lit "failure"))
    /\ field (lit "failureReason") r = Some (JStr (lit "car broken"))
    /\ field (lit "failure_reason") r = None.
Proof.
  intros Hpy Hllm call_log w Hin r. subst r.
  rewrite summarize_call_log_run, (Hllm _ _ Hin).
  rewrite (tony_summary_decodes py Hpy).
  cbn [fst]. split; [eexists; reflexivity|].
  repeat apply conj; vm_compute; reflexivity.
Qed.

Lemma summarize_call_log_broken_car_witness :
  field (lit "result")
    (fst (Summary.summarize_call_log cpython broken_car_stub
            Summary.call_record start)) = Some (JStr (lit "failure"))
  /\ field (lit "failureReason")
       (fst (Summary.summarize_call_log cpython broken_car_stub
               Summary.call_record start)) = Some (JStr (lit "car broken"))
  /\ field (lit "failure_reason")
       (fst (Summary.summarize_call_log cpython broken_car_stub
               Summary.call_record start)) = None.
Proof.
  apply (summarize_call_log_broken_car cpython broken_car_stub).
  - unfold cpython. cbn [max_nesting]. lia.
  - intros history call_log H. apply infix_b_spec in H.
    unfold broken_car_stub, summary_request.
    cbn [req_template req_variables]. rewrite H. reflexivity.
  - apply infix_b_spec. vm_compute. reflexivity.
Defined.

(** ** The planning pipeline *)

Lemma bind_run {A B} (m : run A) (k : A -> run B) (w : world) :
  bind m k w
  = match m w with
    | (Return a, w') => k a w'
    | (Raise e, w') => (Raise e, w')
    end.
Proof. reflexivity. Qed.

Lemma bind_print {B} (py : interpreter) (line : list pyval) (k : run B)
      (w : world) :
  (print py line ;;; k) w
  = if printable py line then k (printed w line)
    else (Raise UnicodeEncodeError, w).
Proof. unfold bind, print. destruct (printable py line); reflexivity. Qed.

(** A text of ASCII characters can be written whatever the encoding. *)
Lemma encodable_ascii (py : interpreter) (s : pystr) :
  forallb (fun c => c <? 128) s = true -> encodable py s = true.
Proof.
  unfold encodable. induction s as [|c s IH]; simpl; [reflexivity|].
  intros H. apply andb_prop in H as [H1 H2]. rewrite H1, (IH H2). reflexivity.
Qed.

Lemma printable_text (py : interpreter) (s : pystr) :
  printable py [VStr s] = encodable py s.
Proof. unfold printable. cbn [forallb chars_of]. apply andb_true_r. Qed.

Lemma bind_print_header {B} (py : interpreter) (s : pystr) (k : run B)
      (w : world) :
  forallb (fun c => c <? 128) s = true ->
  (print py [VStr s] ;;; k) w = k (printed w [VStr s]).
Proof.
  intros H. rewrite bind_print, printable_text, (encodable_ascii py s H).
  reflexivity.
Qed.

Lemma templates_refine (l : list (request * pystr)) :
  Forall (fun c => req_template (fst c) = refine_prompt) l ->
  List.map (fun c => req_template (fst c)) l
  = repeat refine_prompt (List.length l).
Proof.
  induction 1 as [|c l H _ IH]; simpl; [reflexivity|]. rewrite H, IH.
  reflexivity.
Qed.

Lemma stage_refine (k : nat) (text : pystr) :
  stage_line refine_prompt (S (S k)) text = refine_line (Z.of_nat k) text
  /\ stage_message refine_prompt (S (S k)) = refine_message (Z.of_nat k).
Proof.
  unfold stage_line, stage_message.
  replace (S (S k) - 2)%nat with k by lia. split; reflexivity.
Qed.

(** The outcome of a run of [main]: the requests follow the order of the
    stages; the run either goes through all six of them and prints the
    last answer, or raises at its last exchange, all exchanges before it
    having decoded. *)
Lemma main_run (py : interpreter) (llm : service) (w0 : world) :
  let r := Planner.main py llm w0 in
  exists new,
    calls (snd r) = calls w0 ++ new
    /\ List.map (fun c => req_template (fst c)) new
       = firstn (List.length new) pipeline_order
    /\ match fst r with
       | Return _ =>
           List.length new = 6%nat /\ Forall (decodes py) (firstn 5 new)
           /\ exists c,
               nth_error new 5 = Some c
               /\ encodable py (Planner.clean_json_output (snd c)) = true
       | Raise e =>
           exists good c,
             new = good ++ [c]
             /\ Forall (decodes py) good
             /\ main_failure py (List.length good) c e
       end.
Proof.
  intros r. subst r. unfold Planner.main.
  rewrite bind_run, generate_intent_run.
  set (rq1 := intent_request _). set (a1 := llm (calls w0) rq1).
  destruct (json_loads py (Planner.clean_json_output a1)) as [intent|e1] eqn:E1.
  2:{ exists [(rq1, a1)]. cbn [fst snd]. rewrite stage_output_calls.
      split; [reflexivity|]. split; [reflexivity|].
      exists [], (rq1, a1). split; [reflexivity|]. split; [constructor|].
      unfold main_failure. cbn [fst snd req_template rq1 intent_request].
      rewrite E1. reflexivity. }
  assert (D1 : decodes py (rq1, a1)) by (exists intent; exact E1).
  rewrite bind_print_header by reflexivity. rewrite bind_print.
  destruct (printable py [VDumps (Some 2%Z) intent]) eqn:P1.
  2:{ exists [(rq1, a1)]. cbn [fst snd calls printed exchanged].
      split; [reflexivity|]. split; [reflexivity|].
      exists [], (rq1, a1). split; [reflexivity|]. split; [constructor|].
      unfold main_failure. cbn [fst snd req_template rq1 intent_request].
      rewrite E1. cbn [List.length]. auto. }
  rewrite bind_run, generate_call_plan_run.
  set (w1 := printed (printed (exchanged w0 rq1 a1) _) _).
  set (rq2 := plan_request intent). set (a2 := llm (calls w1) rq2).
  destruct (json_loads py (Planner.clean_json_output a2)) as [plan|e2] eqn:E2.
  2:{ exists [(rq1, a1); (rq2, a2)]. cbn [fst snd].
      rewrite stage_output_calls. cbn. rewrite <- app_assoc.
      split; [reflexivity|]. split; [reflexivity|].
      exists [(rq1, a1)], (rq2, a2). split; [reflexivity|].
      split; [constructor; [exact D1 | constructor]|].
      unfold main_failure. cbn [fst snd req_template rq2 plan_request].
      rewrite E2. reflexivity. }
  assert (D2 : decodes py (rq2, a2)) by (exists plan; exact E2).
  rewrite bind_print_header by reflexivity. rewrite bind_print.
  destruct (printable py [VDumps (Some 2%Z) plan]) eqn:P2.
  2:{ exists [(rq1, a1); (rq2, a2)]. cbn. rewrite <- app_assoc.
      split; [reflexivity|]. split; [reflexivity|].
      exists [(rq1, a1)], (rq2, a2). split; [reflexivity|].
      split; [constructor; [exact D1 | constructor]|].
      unfold main_failure. cbn [fst snd req_template rq2 plan_request].
      rewrite E2. cbn [List.length]. auto. }
  rewrite bind_run.
  set (w2 := printed (printed (exchanged w1 rq2 a2) _) _).
  assert (C2 : calls w2 = calls w0 ++ [(rq1, a1); (rq2, a2)]).
  { cbn. rewrite <- app_assoc. reflexivity. }
  destruct (iterative_refinement_run py llm plan intent 3 w2)
    as (Hc & Ht & Hr).
  set (new := issued w2 _) in *.
  pose proof (templates_refine _ Ht) as Hm.
  destruct (Planner.iterative_refinement py llm plan intent 3 w2)
    as [[refined|e] w3] eqn:ER; cbn [fst snd] in *.
  2:{ destruct Hr as (good & c & e0 & Hg & Hl & Hd & Hf & He & _).
      change (Z.to_nat 3) with 3%nat in Hl.
      exists ((rq1, a1) :: (rq2, a2) :: new).
      rewrite Hc, C2. split; [rewrite <- app_assoc; reflexivity|].
      assert (Tc : req_template (fst c) = refine_prompt).
      { rewrite Hg in Ht. apply Forall_app in Ht as [_ Ht].
        inversion Ht; assumption. }
      split.
      - cbn [List.map fst req_template rq1 rq2 intent_request plan_request
             List.length firstn pipeline_order].
        rewrite Hm. f_equal. f_equal. rewrite Hg, length_app. cbn.
        destruct good as [|g1 [|g2 [|g3 good]]]; cbn in Hl |- *;
          [reflexivity | reflexivity | reflexivity | lia].
      - exists ((rq1, a1) :: (rq2, a2) :: good), c. rewrite Hg.
        split; [reflexivity|].
        split; [repeat (constructor; [assumption|]); exact Hd|].
        unfold main_failure. rewrite Tc, Hf. cbn [List.length].
        destruct (stage_refine (List.length good)
                    (Planner.clean_json_output (snd c))) as [-> ->].
        exact He. }
  destruct Hr as (Hl & Hd & Hv & _). change (Z.to_nat 3) with 3%nat in Hl.
  destruct new as [|c3 [|c4 [|c5 [|c6 new']]]] eqn:En; try discriminate Hl.
  cbn in Hm. injection Hm as T3 T4 T5.
  unfold last_decoded in Hv. cbn in Hv.
  inversion Hd as [|? ? D3 Hd']. inversion Hd' as [|? ? D4 Hd''].
  inversion Hd'' as [|? ? D5 _]. subst.
  rewrite bind_print_header by reflexivity. rewrite bind_print.
  destruct (printable py [VDumps (Some 2%Z) refined]) eqn:P3.
  2:{ exists [(rq1, a1); (rq2, a2); c3; c4; c5]. cbn [fst snd printed calls].
      rewrite Hc, C2. split; [rewrite <- app_assoc; reflexivity|].
      split; [cbn; rewrite T3, T4, T5; reflexivity|].
      exists [(rq1, a1); (rq2, a2); c3; c4], c5. split; [reflexivity|].
      split; [repeat (constructor; [assumption|]); constructor|].
      unfold main_failure. rewrite T5, Hv. cbn [List.length]. auto. }
  rewrite bind_run, create_cot_system_prompt_from_plan_run.
  rewrite bind_print_header by reflexivity.
  set (w4 := printed (printed w3 _) _).
  set (rq4 := system_request refined intent).
  set (a4 := llm (calls w4) rq4).
  assert (C4 : calls (exchanged w4 rq4 a4)
               = calls w0 ++ [(rq1, a1); (rq2, a2); c3; c4; c5; (rq4, a4)]).
  { cbn. rewrite Hc, C2, <- !app_assoc. reflexivity. }
  exists [(rq1, a1); (rq2, a2); c3; c4; c5; (rq4, a4)].
  unfold print. rewrite printable_text.
  destruct (encodable py (Planner.clean_json_output a4)) eqn:P4;
    cbn [fst snd printed calls].
  - split; [exact C4|]. split; [cbn; rewrite T3, T4, T5; reflexivity|].
    split; [reflexivity|]. split.
    + cbn. repeat (constructor; [assumption|]). constructor.
    + exists (rq4, a4). split; [reflexivity | exact P4].
  - split; [exact C4|]. split; [cbn; rewrite T3, T4, T5; reflexivity|].
    exists [(rq1, a1); (rq2, a2); c3; c4; c5], (rq4, a4).
    split; [reflexivity|].
    split; [repeat (constructor; [assumption|]); constructor|].
    unfold main_failure. cbn [fst snd req_template rq4 system_request].
    auto.
Qed.

(** C5: in a run of the planning pipeline, an exchange of a decoding stage
    for whose answer [json.loads] raises is the last exchange of the run:
    no request of a later stage follows and none is repeated (the requests
    made are the first [k+1] of the stage order, each made once, and the
    [k] before it all decoded), and the run ends with an exception instead
    of a result: with the error of the stage that failed. *)
Theorem main_aborts_at_decode_failure (py : interpreter) (llm : service)
        (w0 : world) (k : nat) (c : request * pystr) (e0 : exn) :
  let r := Planner.main py llm w0 in
  let t := req_template (fst c) in
  let text := Planner.clean_json_output (snd c) in
  nth_error (issued w0 (snd r)) k = Some c ->
  t <> system_prompt ->
  json_loads py text = Raise e0 ->
  fst r = Raise (stage_error py (stage_line t k text) (stage_message t k) e0)
  /\ List.length (issued w0 (snd r)) = S k
  /\ List.map (fun c => req_template (fst c)) (issued w0 (snd r))
     = firstn (S k) pipeline_order
  /\ Forall (decodes py) (firstn k (issued w0 (snd r))).
Proof.
  intros r t text.
  destruct (main_run py llm w0) as (new & Hc & Ho & Hr). fold r in Hc, Hr.
  assert (Hi : issued w0 (snd r) = new).
  { unfold issued. rewrite Hc, skipn_app, skipn_all, Nat.sub_diag.
    reflexivity. }
  rewrite Hi. intros Hk Ht Hf.
  assert (Hin : forall l, Forall (decodes py) l -> ~ In c l).
  { intros l Hd Hl. rewrite Forall_forall in Hd.
    destruct (Hd c Hl) as [v Hv]. fold text in Hv. congruence. }
  destruct (fst r) as [u|e].
  - exfalso. destruct Hr as (Hl & Hd & _).
    destruct (Nat.lt_ge_cases k 5) as [L | L].
    + apply (Hin _ Hd). apply (nth_error_In _ k).
      rewrite nth_error_firstn. destruct (Nat.ltb_spec k 5); [exact Hk | lia].
    + assert (B : (k < 6)%nat).
      { rewrite <- Hl. apply nth_error_Some. congruence. }
      assert (k = 5)%nat by lia. subst k.
      apply (map_nth_error (fun c => req_template (fst c))) in Hk.
      rewrite Ho, Hl in Hk. cbn in Hk. injection Hk as Hk.
      exact (Ht (eq_sym Hk)).
  - destruct Hr as (good & c' & Hg & Hd & He).
    assert (Hk' : k = List.length good).
    { destruct (Nat.lt_trichotomy k (List.length good)) as [L | [L | L]].
      - exfalso. apply (Hin _ Hd). apply (nth_error_In _ k).
        rewrite Hg, nth_error_app1 in Hk by exact L. exact Hk.
      - exact L.
      - assert (B : (k < List.length new)%nat).
        { apply nth_error_Some. congruence. }
        rewrite Hg, length_app in B. simpl in B. lia. }
    assert (Hl : List.length new = S k).
    { rewrite Hg, length_app. simpl. lia. }
    assert (Ec : c' = c).
    { rewrite Hg, Hk', nth_error_app2, Nat.sub_diag in Hk by apply le_n.
      injection Hk as ->. reflexivity. }
    subst c'. rewrite <- Hk' in He.
    split.
    { unfold main_failure in He. cbv zeta in He. subst t text.
      destruct (req_template (fst c)); try (destruct Ht; reflexivity);
        rewrite Hf in He; rewrite He; reflexivity. }
    split; [exact Hl|]. split; [rewrite Ho, Hl; reflexivity|].
    rewrite Hg, Hk', firstn_app, Nat.sub_diag, firstn_all. cbn [firstn].
    rewrite app_nil_r. exact Hd.
Qed.

Lemma main_aborts_at_decode_failure_witness :
  fst (Planner.main cpython
         (scripted [sample_intent_text; sample_plan_text;
                    sample_plan_text; lit "oops"]) start)
  = Raise (ValueError
             (lit "Failed to parse JSON response in iterative_refinement, iteration 2"))
  /\ List.length
       (issued start
          (snd (Planner.main cpython
                  (scripted [sample_intent_text; sample_plan_text;
                             sample_plan_text; lit "oops"]) start)))
     = 4%nat.
Proof.
  destruct (main_aborts_at_decode_failure cpython
              (scripted [sample_intent_text; sample_plan_text;
                         sample_plan_text; lit "oops"]) start 3
              (refine_request sample_intent sample_plan, lit "oops")
              JSONDecodeError)
    as (He & Hl & _).
  - vm_compute. reflexivity.
  - discriminate.
  - vm_compute. reflexivity.
  - split; [|exact Hl]. rewrite He. vm_compute. reflexivity.
Defined.
(** ** The decoder: strings *)

Ltac break_match :=
  match goal with
  | |- context [match ?x with _ => _ end] =>
      lazymatch x with
      | context [match _ with _ => _ end] => fail
      | _ => destruct x eqn:?
      end
  end.

Lemma scanstring_step (s acc : pystr) :
  scanstring s acc
  = match string_step s with
    | Close r => Some (rev acc, r)
    | Char ch r => scanstring r (ch :: acc)
    | Bad => None
    end.
Proof.
  destruct s as [|c t]; [reflexivity|].
  unfold string_step. cbn [scanstring].
  repeat break_match; try reflexivity; try congruence.
Qed.

(** A whitespace character is none of the characters the scanners test
    for. *)
Lemma space_range (w : N) :
  isspace w = true -> 9 <= w <= 13 \/ 28 <= w <= 32 \/ 133 <= w.
Proof.
  unfold isspace. rewrite !orb_true_iff, !andb_true_iff, !N.leb_le, !N.eqb_eq.
  lia.
Qed.

Lemma space_neq (w k : N) :
  isspace w = true -> 33 <= k <= 132 -> (w =? k) = false.
Proof. intros H K. apply space_range in H. apply N.eqb_neq. lia. Qed.

Lemma space_not_digit (w : N) : isspace w = true -> is_digit w = false.
Proof.
  intros H. apply space_range in H. unfold is_digit.
  rewrite andb_false_iff, !N.leb_gt. lia.
Qed.

Lemma space_not_hex (w : N) : isspace w = true -> hex_value w = None.
Proof.
  intros H. unfold hex_value. rewrite (space_not_digit w H).
  apply space_range in H.
  replace ((97 <=? w) && (w <=? 102)) with false
    by (symmetry; rewrite andb_false_iff, !N.leb_gt; lia).
  replace ((65 <=? w) && (w <=? 70)) with false
    by (symmetry; rewrite andb_false_iff, !N.leb_gt; lia).
  reflexivity.
Qed.

Lemma space_not_escape (w : N) : isspace w = true -> backslash w = None.
Proof.
  intros H. unfold backslash.
  rewrite !(space_neq w) by (try exact H; lia). reflexivity.
Qed.

Lemma decode_space (h1 h2 h3 h4 : N) :
  isspace h1 = true \/ isspace h2 = true \/ isspace h3 = true
  \/ isspace h4 = true ->
  decode_uXXXX h1 h2 h3 h4 = None.
Proof.
  unfold decode_uXXXX.
  intros [H | [H | [H | H]]]; rewrite (space_not_hex _ H);
    repeat break_match; reflexivity.
Qed.

Lemma json_ws_space (c : N) : json_ws c = true -> isspace c = true.
Proof.
  unfold json_ws. rewrite !orb_true_iff, !N.eqb_eq.
  intros [[[-> | ->] | ->] | ->]; reflexivity.
Qed.

Lemma string_step_length (s : pystr) :
  match string_step s with
  | Close r => (List.length r < List.length s)%nat
  | Char _ r => (List.length r < List.length s)%nat
  | Bad => True
  end.
Proof.
  unfold string_step. repeat break_match; subst; simpl; try exact I; lia.
Qed.

Lemma scanstring_length (s acc v r : pystr) :
  scanstring s acc = Some (v, r) -> (List.length r < List.length s)%nat.
Proof.
  remember (List.length s) as n eqn:En. revert s acc En.
  induction n as [n IH] using lt_wf_ind. intros s acc En.
  rewrite scanstring_step. pose proof (string_step_length s) as L.
  destruct (string_step s) as [r'|ch r'|]; try discriminate.
  - intros [= _ ->]. lia.
  - intros H. apply (IH (List.length r')) in H; [lia | lia | reflexivity].
Qed.

Lemma scanstring_space (W acc : pystr) :
  all_space W -> scanstring W acc = None.
Proof.
  intros H. revert acc. induction H as [|w W Hw _ IH]; intros acc.
  - reflexivity.
  - cbn [scanstring]. rewrite !(space_neq w) by (try exact Hw; lia).
    destruct (w <=? 31); [reflexivity | apply IH].
Qed.

(** ** Fenced text *)

Lemma all_space_tick_free (s : pystr) : all_space s -> tick_free s.
Proof.
  induction 1 as [|c s H _ IH]; constructor; [|exact IH].
  intros ->. discriminate.
Qed.

Lemma fence_in_tick_free_l (u s : pystr) :
  tick_free u -> fence_in (u ++ s) -> fence_in s.
Proof.
  induction 1 as [|c u H _ IH]; simpl; [tauto|]. intros F.
  apply fence_in_inv in F as [F | F]; [|exact (IH F)].
  destruct (u ++ s) as [|c2 [|c3 t]]; simpl in F; try discriminate.
  apply andb_prop in F as [F _]. apply andb_prop in F as [F _].
  apply N.eqb_eq in F. contradiction.
Qed.

Lemma tick_free_no_fence (v : pystr) : tick_free v -> ~ fence_in v.
Proof.
  intros T (a & b & ->). apply Forall_app in T as [_ T].
  inversion T as [|? ? H _]. apply H. reflexivity.
Qed.

Lemma fence_in_tick_free_r (s v : pystr) :
  tick_free v -> fence_in (s ++ v) -> fence_in s.
Proof.
  intros T. induction s as [|c s IH]; simpl; intros F.
  - destruct (tick_free_no_fence v T F).
  - apply fence_in_inv in F as [F | F]; [|apply fence_in_cons, IH, F].
    apply fence_in_starts.
    destruct s as [|c2 [|c3 s]]; simpl in F |- *; try exact F; exfalso.
    + destruct v as [|d [|d' v]]; try discriminate.
      inversion T as [|? ? H _]. apply H.
      apply andb_prop in F as [F _]. apply andb_prop in F as [_ F].
      apply N.eqb_eq in F. exact F.
    + destruct v as [|d v]; try discriminate.
      inversion T as [|? ? H _]. apply H.
      apply andb_prop in F as [_ F]. apply N.eqb_eq in F. exact F.
Qed.

(** A closing fence at the end of a text without fence is removed whole,
    even behind one or two backticks. *)
Lemma remove_fences_closing (a : pystr) :
  ~ fence_in a -> remove_fences (a ++ fence) = a.
Proof.
  induction a as [|c a IH]; intros F; [reflexivity|].
  destruct (starts_fence ((c :: a) ++ fence)) eqn:E.
  - destruct a as [|c2 [|c3 a]].
    + simpl in E. apply andb_prop in E as [E _]. apply andb_prop in E as [E _].
      apply N.eqb_eq in E. subst c. reflexivity.
    + simpl in E. apply andb_prop in E as [E _]. apply andb_prop in E as [E E2].
      apply N.eqb_eq in E, E2. subst c c2. reflexivity.
    + destruct F. apply fence_in_starts. exact E.
  - change ((c :: a) ++ fence) with (c :: a ++ fence) in *.
    rewrite remove_fences_keep by exact E.
    rewrite IH; [reflexivity|]. intros G. apply F, fence_in_cons, G.
Qed.

Lemma lstrip_app (s t : pystr) :
  lstrip s <> [] -> lstrip (s ++ t) = lstrip s ++ t.
Proof.
  induction s as [|c s IH]; simpl; [congruence|].
  destruct (isspace c); [exact IH | reflexivity].
Qed.

Lemma lstrip_all_space (s : pystr) : all_space s -> lstrip s = [].
Proof.
  induction 1 as [|c s H _ IH]; simpl; [reflexivity|]. rewrite H. exact IH.
Qed.

Lemma lstrip_nil (s : pystr) : lstrip s = [] -> all_space s.
Proof.
  intros E. destruct (lstrip_split s) as [ws [Es Hs]].
  rewrite E, app_nil_r in Es. subst ws. exact Hs.
Qed.

Lemma strip_around (pre s post : pystr) :
  all_space pre -> all_space post -> strip (pre ++ s ++ post) = strip s.
Proof.
  intros Hpre Hpost. unfold strip. rewrite lstrip_app_space by exact Hpre.
  destruct (lstrip s) as [|c t] eqn:E.
  - rewrite lstrip_app_space by exact (lstrip_nil _ E).
    rewrite lstrip_all_space by exact Hpost. reflexivity.
  - rewrite lstrip_app by congruence. rewrite E.
    apply rstrip_app_space. exact Hpost.
Qed.

Lemma space_not_literal (p w : N) :
  In p [106; 115; 111; 110] -> isspace w = true ->
  literal_ignorecase p w = false.
Proof.
  intros Hp Hw. destruct (literal_ignorecase p w) eqn:E; [|reflexivity].
  exfalso. simpl in Hp.
  destruct Hp as [<- | [<- | [<- | [<- | []]]]];
    [apply literal_j in E | apply literal_s in E | apply literal_o in E
     | apply literal_n in E];
    simpl in E; intuition (subst; discriminate).
Qed.

(** Whitespace behind a text neither makes nor unmakes a leading marker. *)
Lemma match_json_marker_app_space (s post : pystr) :
  all_space post ->
  match_json_marker s = None -> match_json_marker (s ++ post) = None.
Proof.
  intros Hpost. unfold match_json_marker.
  destruct (lstrip s) as [|c1 t] eqn:E.
  - rewrite lstrip_app_space by exact (lstrip_nil _ E).
    rewrite lstrip_all_space by exact Hpost. reflexivity.
  - rewrite lstrip_app by congruence. rewrite E. intros H.
    assert (K : forall p w W, In p [106; 115; 111; 110] -> all_space (w :: W) ->
                              literal_ignorecase p w = false).
    { intros p w W Hp HW. apply space_not_literal; [exact Hp|].
      inversion HW; assumption. }
    assert (T : forall w W, all_space (w :: W) -> all_space W).
    { intros w W HW. inversion HW; assumption. }
    destruct t as [|c2 [|c3 [|c4 t]]]; cbn [app].
    + destruct post as [|w2 [|w3 [|w4 W]]]; try reflexivity.
      rewrite (K 115 w2 _) by (simpl; auto || exact Hpost).
      rewrite andb_false_r. reflexivity.
    + destruct post as [|w3 [|w4 W]]; try reflexivity.
      rewrite (K 111 w3 _) by (simpl; auto || exact Hpost).
      rewrite andb_false_r. reflexivity.
    + destruct post as [|w4 W]; try reflexivity.
      rewrite (K 110 w4 _) by (simpl; auto || exact Hpost).
      rewrite andb_false_r. reflexivity.
    + destruct (_ && _); [discriminate | reflexivity].
Qed.

Lemma match_json_marker_tag (x : pystr) :
  match_json_marker (lit "json" ++ x) = Some (lstrip x).
Proof. reflexivity. Qed.

(** Cleaning a fenced text gives the text between the fences, trimmed:
    with the tag [json] always, and without tag when the text does not
    itself start with a [json] marker. *)
Lemma clean_json_output_fenced (lang pre j post : pystr) :
  ~ fence_in j -> all_space pre -> all_space post ->
  (lang = lit "json" \/ (lang = [] /\ ~ leading_json_marker j)) ->
  Planner.clean_json_output (fenced lang pre j post) = strip j.
Proof.
  intros F Hpre Hpost Hlang. unfold Planner.clean_json_output, fenced.
  rewrite remove_fences_skip.
  replace (lang ++ pre ++ j ++ post ++ fence)
    with ((lang ++ pre ++ j ++ post) ++ fence)
    by (rewrite <- !app_assoc; reflexivity).
  assert (T : tick_free lang).
  { destruct Hlang as [-> | [-> _]]; [|constructor].
    repeat constructor; discriminate. }
  rewrite remove_fences_closing.
  2:{ intros G. apply F.
      apply fence_in_tick_free_l in G; [|exact T].
      apply fence_in_tick_free_l in G; [|apply all_space_tick_free, Hpre].
      apply fence_in_tick_free_r in G; [exact G|].
      apply all_space_tick_free, Hpost. }
  destruct Hlang as [-> | [-> M]].
  - unfold sub_json_marker. rewrite match_json_marker_tag.
    unfold strip at 1. rewrite lstrip_idem. apply strip_around; assumption.
  - cbn [app]. unfold sub_json_marker.
    apply match_json_marker_none in M.
    assert (M' : match_json_marker (pre ++ j ++ post) = None).
    { unfold match_json_marker. rewrite lstrip_app_space by exact Hpre.
      apply (match_json_marker_app_space j post Hpost M). }
    rewrite M'. apply strip_around; assumption.
Qed.

(** ** The decoder: numbers and constants *)

Lemma skip_ws_split (s : pystr) :
  exists ws, s = ws ++ skip_ws s /\ Forall (fun c => json_ws c = true) ws.
Proof.
  induction s as [|c t [ws [E F]]]; simpl.
  - exists []. split; [reflexivity | constructor].
  - destruct (json_ws c) eqn:Hc.
    + exists (c :: ws). split; [simpl; congruence | constructor; assumption].
    + exists []. split; [reflexivity | constructor].
Qed.

Lemma skip_ws_length (s : pystr) :
  (List.length (skip_ws s) <= List.length s)%nat.
Proof.
  destruct (skip_ws_split s) as [ws [E _]]. rewrite E at 2.
  rewrite length_app. lia.
Qed.

Lemma skip_ws_head (s : pystr) (c : N) (t : pystr) :
  skip_ws s = c :: t -> json_ws c = false.
Proof.
  induction s as [|d s IH]; simpl; [discriminate|].
  destruct (json_ws d) eqn:Hd; [exact IH|]. intros [= <- _]. exact Hd.
Qed.

Lemma span_digits_length (s d r : pystr) :
  span_digits s = (d, r) -> (List.length r <= List.length s)%nat.
Proof.
  revert d r. induction s as [|c s IH]; simpl; intros d r.
  - intros [= _ <-]. apply le_n.
  - destruct (is_digit c).
    + destruct (span_digits s) as [d' r'] eqn:E. intros [= _ <-].
      specialize (IH d' r' eq_refl). lia.
    + intros [= _ <-]. apply le_n.
Qed.

Lemma after_word_length (w s r : pystr) :
  after_word w s = Some r -> (List.length r <= List.length s)%nat.
Proof.
  revert s. induction w as [|x w IH]; intros s; simpl.
  - intros [= <-]. apply le_n.
  - destruct s as [|c s]; [discriminate|].
    destruct (c =? x); [|discriminate]. intros H. apply IH in H. simpl. lia.
Qed.

Lemma match_integer_length (s i r : pystr) :
  match_integer s = Some (i, r) -> (List.length r < List.length s)%nat.
Proof.
  unfold match_integer.
  destruct s as [|c t]; [discriminate|].
  destruct (c =? 45).
  - destruct t as [|c' t']; [discriminate|].
    destruct (c' =? 48); [intros [= _ <-]; simpl; lia|].
    destruct (is_digit c'); [|discriminate].
    destruct (span_digits t') as [d r'] eqn:E. intros [= _ <-].
    apply span_digits_length in E. simpl. lia.
  - destruct (c =? 48); [intros [= _ <-]; simpl; lia|].
    destruct (is_digit c); [|discriminate].
    destruct (span_digits t) as [d r'] eqn:E. intros [= _ <-].
    apply span_digits_length in E. simpl. lia.
Qed.

Lemma match_frac_length (s f r : pystr) :
  match_frac s = Some (f, r) -> (List.length r <= List.length s)%nat.
Proof.
  unfold match_frac. destruct s as [|c t]; [discriminate|].
  destruct (c =? 46); [|discriminate].
  destruct (span_digits t) as [d r'] eqn:E.
  apply span_digits_length in E. destruct d; [discriminate|].
  intros [= _ <-]. simpl. lia.
Qed.

Lemma match_exp_length (s e r : pystr) :
  match_exp s = Some (e, r) -> (List.length r <= List.length s)%nat.
Proof.
  unfold match_exp. destruct s as [|c t]; [discriminate|].
  destruct ((c =? 101) || (c =? 69)); [|discriminate].
  destruct t as [|g t'].
  - simpl. discriminate.
  - destruct ((g =? 45) || (g =? 43)).
    + destruct (span_digits t') as [d r'] eqn:E.
      apply span_digits_length in E. destruct d; [discriminate|].
      intros [= _ <-]. simpl. lia.
    + destruct (span_digits (g :: t')) as [d r'] eqn:E.
      apply span_digits_length in E. destruct d; [discriminate|].
      intros [= _ <-]. simpl in *. lia.
Qed.

Lemma match_number_length (s : pystr) (v : json) (r : pystr) :
  match_number s = Some (v, r) -> (List.length r < List.length s)%nat.
Proof.
  unfold match_number.
  destruct (match_integer s) as [[i r0]|] eqn:Ei; [|discriminate].
  apply match_integer_length in Ei.
  destruct (match_frac r0) as [[f r1']|] eqn:Ef;
    [apply match_frac_length in Ef|];
    destruct (match_exp _) as [[e r2']|] eqn:Ee;
    try apply match_exp_length in Ee;
    repeat break_match; intros [= _ <-]; lia.
Qed.

Lemma scan_constant_length (s : pystr) (v : json) (r : pystr) :
  scan_constant s = Some (v, r) -> (List.length r < List.length s)%nat.
Proof.
  unfold scan_constant. destruct s as [|c t]; [discriminate|].
  repeat match goal with
         | |- context [if ?b then after_word ?w t else None] =>
             let E := fresh "E" in
             destruct (if b then after_word w t else None) eqn:E;
             [ destruct b; [apply after_word_length in E | discriminate];
               intros [= _ <-]; simpl; lia | clear E ]
         | |- context [match_number ?x] =>
             let E := fresh "E" in
             destruct (match_number x) as [[? ?]|] eqn:E;
             [ apply match_number_length in E; intros [= _ <-]; exact E
             | clear E ]
         end.
  discriminate.
Qed.

(** ** The decoder: values *)

(** An action that fails, or ends in an error, reads no value; and it
    does not use up the budget of the definition. *)
Lemma attempt_scanned {A : Type} (py : interpreter) (d : nat) (a : action)
      (o : scan A) (v : A) (r : pystr) :
  attempt py d a o = Scanned v r -> o = Scanned v r.
Proof. unfold attempt. destruct (_ <? _)%nat; [discriminate | auto]. Qed.

Lemma attempt_exhausted {A : Type} (py : interpreter) (d : nat) (a : action)
      (o : scan A) :
  attempt py d a o = Exhausted -> o = Exhausted.
Proof. unfold attempt. destruct (_ <? _)%nat; [discriminate | auto]. Qed.

(** Reduces a hypothesis on the outcome of an action to the outcome it
    ends in, and closes the goal when the two cannot agree. *)
Ltac outcome H :=
  unfold syntax_error, no_value_here in H;
  first [ apply attempt_scanned in H | apply attempt_exhausted in H ];
  try discriminate H.

Lemma scan_once_S (py : interpreter) (n d : nat) (c : N) (t : pystr) :
  scan_once py (S n) d (c :: t)
  = if c =? 34 then
      match scanstring t [] with
      | Some (str, r) => Scanned (JStr str) r
      | None => syntax_error py d
      end
    else if c =? 123 then
      match d with
      | O => Raised RecursionError
      | S d' =>
          match skip_ws t with
          | c' :: t' =>
              if c' =? 125 then Scanned (JDict (dict_of_pairs [])) t'
              else if c' =? 34 then
                match object_pairs py n d' t' [] with
                | Scanned pairs r => Scanned (JDict (dict_of_pairs pairs)) r
                | Invalid => Invalid
                | Raised e => Raised e
                | Exhausted => Exhausted
                end
              else syntax_error py d'
          | [] => syntax_error py d'
          end
      end
    else if c =? 91 then
      match d with
      | O => Raised RecursionError
      | S d' =>
          match skip_ws t with
          | c' :: t' =>
              if c' =? 93 then Scanned (JList []) t'
              else
                match array_items py n d' (c' :: t') [] with
                | Scanned values r => Scanned (JList values) r
                | Invalid => Invalid
                | Raised e => Raised e
                | Exhausted => Exhausted
                end
          | [] => no_value_here py d'
          end
      end
    else
      match scan_constant (c :: t) with
      | Some (v, r) =>
          if is_int v && exceeds_int_limit py (integer_digits (c :: t))
          then attempt py d BuildValueError
                 (Raised (ValueError
                            (int_limit_message py (integer_digits (c :: t)))))
          else if is_named_constant v
          then attempt py d CallParseConstant (Scanned v r)
          else Scanned v r
      | None => no_value_here py d
      end.
Proof. reflexivity. Qed.

Lemma array_items_S (py : interpreter) (n d : nat) (s : pystr)
      (values : list json) :
  array_items py (S n) d s values
  = match scan_once py n d s with
    | Scanned value r =>
        match skip_ws r with
        | c :: t =>
            if c =? 93 then Scanned (rev (value :: values)) t
            else if c =? 44
            then array_items py n d (skip_ws t) (value :: values)
            else syntax_error py d
        | [] => syntax_error py d
        end
    | Invalid => Invalid
    | Raised e => Raised e
    | Exhausted => Exhausted
    end.
Proof. reflexivity. Qed.

Lemma object_pairs_S (py : interpreter) (n d : nat) (s : pystr)
      (pairs : list (pystr * json)) :
  object_pairs py (S n) d s pairs
  = match scanstring s [] with
    | None => syntax_error py d
    | Some (key, r) =>
        match skip_ws r with
        | c :: t =>
            if c =? 58 then
              match scan_once py n d (skip_ws t) with
              | Scanned value r' =>
                  match skip_ws r' with
                  | c' :: t' =>
                      if c' =? 125 then Scanned (rev ((key, value) :: pairs)) t'
                      else if c' =? 44 then
                        match skip_ws t' with
                        | q :: t'' =>
                            if q =? 34
                            then object_pairs py n d t'' ((key, value) :: pairs)
                            else syntax_error py d
                        | [] => syntax_error py d
                        end
                      else syntax_error py d
                  | [] => syntax_error py d
                  end
              | Invalid => Invalid
              | Raised e => Raised e
              | Exhausted => Exhausted
              end
            else syntax_error py d
        | [] => syntax_error py d
        end
    end.
Proof. reflexivity. Qed.

Lemma skip_ws_cons_length (s : pystr) (c : N) (t : pystr) :
  skip_ws s = c :: t -> (List.length t < List.length s)%nat.
Proof.
  intros E. pose proof (skip_ws_length s) as L. rewrite E in L. simpl in L. lia.
Qed.

(** Turns what is known about the pieces of a scan into length facts. *)
Ltac lengths :=
  repeat match goal with
         | H : skip_ws _ = _ :: _ |- _ => apply skip_ws_cons_length in H
         | H : scanstring _ _ = Some _ |- _ => apply scanstring_length in H
         | H : scan_constant _ = Some _ |- _ => apply scan_constant_length in H
         end;
  repeat match goal with
         | |- context [List.length (skip_ws ?x)] =>
             lazymatch goal with
             | _ : (List.length (skip_ws x) <= List.length x)%nat |- _ => fail
             | _ => pose proof (skip_ws_length x)
             end
         | H : context [List.length (skip_ws ?x)] |- _ =>
             lazymatch goal with
             | _ : (List.length (skip_ws x) <= List.length x)%nat |- _ => fail
             | _ => pose proof (skip_ws_length x)
             end
         end;
  cbn [List.length] in *.

Ltac break_hyp H :=
  repeat match type of H with
         | context [match ?x with _ => _ end] =>
             lazymatch x with
             | context [match _ with _ => _ end] => fail
             | _ => destruct x eqn:?
             end
         end.

(** Every successful scan consumes at least one character. *)
Lemma scan_progress (py : interpreter) (n : nat) :
  (forall d s v r, scan_once py n d s = Scanned v r ->
                   (List.length r < List.length s)%nat)
  /\ (forall d s vs l r, array_items py n d s vs = Scanned l r ->
                         (List.length r < List.length s)%nat)
  /\ (forall d s ps l r, object_pairs py n d s ps = Scanned l r ->
                         (List.length r < List.length s)%nat).
Proof.
  induction n as [|n (IH1 & IH2 & IH3)].
  - repeat split; intros; discriminate.
  - repeat split.
    + intros d [|c t] v r H; [outcome H|]. rewrite scan_once_S in H.
      break_hyp H; try discriminate; try outcome H; injection H as <- <-;
        repeat match goal with
               | E : object_pairs py n _ _ _ = Scanned _ _ |- _ =>
                   apply IH3 in E
               | E : array_items py n _ _ _ = Scanned _ _ |- _ =>
                   apply IH2 in E
               end; lengths; lia.
    + intros d s vs l r H. rewrite array_items_S in H.
      break_hyp H; try discriminate; try (outcome H; fail);
        repeat match goal with
               | E : scan_once py n _ _ = Scanned _ _ |- _ => apply IH1 in E
               end;
        [injection H as <- <- | apply IH2 in H]; lengths; lia.
    + intros d s ps l r H. rewrite object_pairs_S in H.
      break_hyp H; try discriminate; try (outcome H; fail);
        repeat match goal with
               | E : scan_once py n _ _ = Scanned _ _ |- _ => apply IH1 in E
               end;
        [injection H as <- <- | apply IH3 in H]; lengths; lia.
Qed.

Ltac progress_facts py n :=
  repeat match goal with
         | E : scan_once py n _ _ = Scanned _ _ |- _ =>
             apply (proj1 (scan_progress py n)) in E
         | E : array_items py n _ _ _ = Scanned _ _ |- _ =>
             apply (proj1 (proj2 (scan_progress py n))) in E
         | E : object_pairs py n _ _ _ = Scanned _ _ |- _ =>
             apply (proj2 (proj2 (scan_progress py n))) in E
         end.

(** With a budget above twice the length of the text, no scanner stops
    for lack of budget. *)
Lemma scan_budget (py : interpreter) (n : nat) :
  (forall d s, (2 * List.length s + 1 <= n)%nat ->
               scan_once py n d s <> Exhausted)
  /\ (forall d s vs, (2 * List.length s + 2 <= n)%nat ->
                     array_items py n d s vs <> Exhausted)
  /\ (forall d s ps, (2 * List.length s + 1 <= n)%nat ->
                     object_pairs py n d s ps <> Exhausted).
Proof.
  induction n as [|n (IH1 & IH2 & IH3)].
  - repeat split; intros; lia.
  - repeat split.
    + intros d [|c t] L H; [outcome H|]. rewrite scan_once_S in H.
      cbn [List.length] in L.
      break_hyp H; try discriminate; try (outcome H; fail);
        match goal with
        | E : object_pairs py n ?k ?x ?p = Exhausted |- _ =>
            apply (IH3 k x p); [|exact E]
        | E : array_items py n ?k ?x ?p = Exhausted |- _ =>
            apply (IH2 k x p); [|exact E]
        end; lengths; lia.
    + intros d s vs L H. rewrite array_items_S in H.
      break_hyp H; try discriminate; try (outcome H; fail);
        progress_facts py n;
        match goal with
        | E : array_items py n ?k ?x ?p = Exhausted |- _ =>
            apply (IH2 k x p); [|exact E]
        | E : scan_once py n ?k ?x = Exhausted |- _ =>
            apply (IH1 k x); [|exact E]
        end; lengths; lia.
    + intros d s ps L H. rewrite object_pairs_S in H.
      break_hyp H; try discriminate; try (outcome H; fail);
        progress_facts py n;
        match goal with
        | E : object_pairs py n ?k ?x ?p = Exhausted |- _ =>
            apply (IH3 k x p); [|exact E]
        | E : scan_once py n ?k ?x = Exhausted |- _ =>
            apply (IH1 k x); [|exact E]
        end; lengths; lia.
Qed.

(** A scan that did not stop for lack of budget gives the same outcome
    with a larger budget. *)
Lemma scan_step (py : interpreter) (n : nat) :
  (forall d s, scan_once py n d s <> Exhausted ->
               scan_once py (S n) d s = scan_once py n d s)
  /\ (forall d s vs, array_items py n d s vs <> Exhausted ->
                     array_items py (S n) d s vs = array_items py n d s vs)
  /\ (forall d s ps, object_pairs py n d s ps <> Exhausted ->
                     object_pairs py (S n) d s ps = object_pairs py n d s ps).
Proof.
  induction n as [|n (IH1 & IH2 & IH3)].
  - repeat split; intros; exfalso; auto.
  - repeat split.
    + intros d [|c t] H; [reflexivity|].
      rewrite (scan_once_S py (S n)). rewrite scan_once_S in H |- *.
      destruct (c =? 34); [reflexivity|].
      destruct (c =? 123).
      { destruct d as [|d']; [reflexivity|].
        destruct (skip_ws t) as [|c' t']; [reflexivity|].
        destruct (c' =? 125); [reflexivity|].
        destruct (c' =? 34); [|reflexivity].
        rewrite IH3; [reflexivity|]. intros E. rewrite E in H. auto. }
      destruct (c =? 91); [|reflexivity].
      destruct d as [|d']; [reflexivity|].
      destruct (skip_ws t) as [|c' t']; [reflexivity|].
      destruct (c' =? 93); [reflexivity|].
      rewrite IH2; [reflexivity|]. intros E. rewrite E in H. auto.
    + intros d s vs H. rewrite (array_items_S py (S n)).
      rewrite array_items_S in H |- *.
      destruct (scan_once py n d s) as [value r| | e |] eqn:E.
      * rewrite IH1 by (rewrite E; discriminate). rewrite E.
        repeat break_match; try reflexivity. apply IH2. exact H.
      * rewrite IH1 by (rewrite E; discriminate). rewrite E. reflexivity.
      * rewrite IH1 by (rewrite E; discriminate). rewrite E. reflexivity.
      * destruct H. reflexivity.
    + intros d s ps H. rewrite (object_pairs_S py (S n)).
      rewrite object_pairs_S in H |- *.
      destruct (scanstring s []) as [[key r]|]; [|reflexivity].
      destruct (skip_ws r) as [|c t]; [reflexivity|].
      destruct (c =? 58); [|reflexivity].
      destruct (scan_once py n d (skip_ws t)) as [value r'| | e |] eqn:E.
      * rewrite IH1 by (rewrite E; discriminate). rewrite E.
        repeat break_match; try reflexivity. apply IH3. exact H.
      * rewrite IH1 by (rewrite E; discriminate). rewrite E. reflexivity.
      * rewrite IH1 by (rewrite E; discriminate). rewrite E. reflexivity.
      * destruct H. reflexivity.
Qed.

Lemma scan_once_more (py : interpreter) (n m d : nat) (s : pystr) :
  (n <= m)%nat -> scan_once py n d s <> Exhausted ->
  scan_once py m d s = scan_once py n d s.
Proof.
  induction 1 as [|m L IH]; intros H; [reflexivity|].
  rewrite (proj1 (scan_step py m)); [exact (IH H)|]. rewrite (IH H). exact H.
Qed.

(** Under its own budget [json_loads] is never cut short... *)
Lemma json_loads_not_exhausted (py : interpreter) (s : pystr) :
  scan_once py (budget s) (max_nesting py) (skip_ws s) <> Exhausted.
Proof.
  apply (proj1 (scan_budget py _)). unfold budget.
  pose proof (skip_ws_length s). lia.
Qed.

(** ... and it does not depend on that budget: any budget under which the
    scan is not cut short gives its result. *)
Lemma json_loads_budget (py : interpreter) (n : nat) (s : pystr) :
  scan_once py n (max_nesting py) (skip_ws s) <> Exhausted ->
  json_loads py s
  = match scan_once py n (max_nesting py) (skip_ws s) with
    | Scanned obj r =>
        match skip_ws r with
        | [] => Return obj
        | _ :: _ => Raise JSONDecodeError
        end
    | Raised e => Raise e
    | _ => Raise JSONDecodeError
    end.
Proof.
  intros H. unfold json_loads.
  pose proof (json_loads_not_exhausted py s) as B.
  destruct (Nat.le_ge_cases n (budget s)) as [L | L].
  - rewrite (scan_once_more py n (budget s)) by assumption.
    destruct (scan_once py n _ _); reflexivity.
  - rewrite <- (scan_once_more py (budget s) n) by assumption.
    destruct (scan_once py (budget s) _ _); reflexivity.
Qed.

(** ** Whitespace behind a text *)

Lemma all_space_inv (w : N) (W : pystr) :
  all_space (w :: W) -> isspace w = true /\ all_space W.
Proof. intros H. inversion H. split; assumption. Qed.

Lemma span_digits_app (y W : pystr) :
  all_space W ->
  span_digits (y ++ W) = (fst (span_digits y), snd (span_digits y) ++ W).
Proof.
  intros HW. induction y as [|c y IH]; simpl.
  - destruct W as [|w W']; [reflexivity|].
    apply all_space_inv in HW as [Hw _]. simpl.
    rewrite (space_not_digit w Hw). reflexivity.
  - destruct (is_digit c); [|reflexivity].
    rewrite IH. destruct (span_digits y). reflexivity.
Qed.

Lemma span_digits_space (W : pystr) :
  all_space W -> span_digits W = ([], W).
Proof. intros HW. exact (span_digits_app [] W HW). Qed.

Lemma match_integer_app (y W : pystr) :
  all_space W -> match_integer (y ++ W) = trailing W (match_integer y).
Proof.
  intros HW. unfold match_integer.
  assert (K : forall sign z,
             match z ++ W with
             | [] => None
             | c :: t =>
                 if c =? 48 then Some (sign ++ [48], t)
                 else if is_digit c
                      then let (d, r) := span_digits t in Some (sign ++ c :: d, r)
                      else None
             end
             = trailing W
                 match z with
                 | [] => None
                 | c :: t =>
                     if c =? 48 then Some (sign ++ [48], t)
                     else if is_digit c
                          then let (d, r) := span_digits t in
                               Some (sign ++ c :: d, r)
                          else None
                 end).
  { intros sign [|c z]; cbn [app].
    - destruct W as [|w W']; [reflexivity|].
      apply all_space_inv in HW as [Hw _].
      rewrite (space_neq w 48 Hw) by lia.
      rewrite (space_not_digit w Hw). reflexivity.
    - destruct (c =? 48); [reflexivity|].
      destruct (is_digit c); [|reflexivity].
      rewrite (span_digits_app z W HW).
      destruct (span_digits z). reflexivity. }
  destruct y as [|c y]; cbn [app].
  - destruct W as [|w W']; [reflexivity|].
    pose proof (all_space_inv _ _ HW) as [Hw _].
    rewrite (space_neq w 45 Hw) by lia. apply (K [] []).
  - destruct (c =? 45); [apply (K [45] y) | apply (K [] (c :: y))].
Qed.

Lemma match_frac_app (y W : pystr) :
  all_space W -> match_frac (y ++ W) = trailing W (match_frac y).
Proof.
  intros HW. unfold match_frac. destruct y as [|c y]; cbn [app].
  - destruct W as [|w W']; [reflexivity|].
    apply all_space_inv in HW as [Hw _].
    rewrite (space_neq w 46 Hw) by lia. reflexivity.
  - destruct (c =? 46); [|reflexivity].
    rewrite (span_digits_app y W HW).
    destruct (span_digits y) as [[|d ds] r]; reflexivity.
Qed.

Lemma match_exp_app (y W : pystr) :
  all_space W -> match_exp (y ++ W) = trailing W (match_exp y).
Proof.
  intros HW. unfold match_exp. destruct y as [|c y]; cbn [app].
  - destruct W as [|w W']; [reflexivity|].
    apply all_space_inv in HW as [Hw _].
    rewrite (space_neq w 101 Hw), (space_neq w 69 Hw) by lia. reflexivity.
  - destruct ((c =? 101) || (c =? 69)); [|reflexivity].
    destruct y as [|g y]; cbn [app].
    + destruct W as [|w W']; [reflexivity|].
      pose proof (all_space_inv _ _ HW) as [Hw _].
      rewrite (space_neq w 45 Hw), (space_neq w 43 Hw) by lia.
      cbn [orb]. rewrite (span_digits_space (w :: W') HW). reflexivity.
    + destruct ((g =? 45) || (g =? 43)).
      * rewrite (span_digits_app y W HW).
        destruct (span_digits y) as [[|d ds] r]; reflexivity.
      * change (g :: y ++ W) with ((g :: y) ++ W).
        rewrite (span_digits_app (g :: y) W HW).
        destruct (span_digits (g :: y)) as [[|d ds] r]; reflexivity.
Qed.

Lemma match_number_app (y W : pystr) :
  all_space W -> match_number (y ++ W) = trailing W (match_number y).
Proof.
  intros HW. unfold match_number. rewrite (match_integer_app y W HW).
  destruct (match_integer y) as [[integer r0]|]; [|reflexivity].
  cbn [trailing]. rewrite (match_frac_app r0 W HW).
  destruct (match_frac r0) as [[frac r1]|]; cbn [trailing].
  - rewrite (match_exp_app r1 W HW).
    destruct (match_exp r1) as [[exp r2]|]; cbn [trailing];
      destruct frac; try destruct exp; reflexivity.
  - rewrite (match_exp_app r0 W HW).
    destruct (match_exp r0) as [[exp r2]|]; cbn [trailing];
      try destruct exp; reflexivity.
Qed.

Lemma after_word_app (word y W : pystr) :
  all_space W -> Forall (fun x => isspace x = false) word ->
  after_word word (y ++ W)
  = match after_word word y with
    | Some r => Some (r ++ W)
    | None => None
    end.
Proof.
  intros HW Hword. revert y.
  induction Hword as [|x word Hx _ IH]; intros y; [reflexivity|].
  destruct y as [|c y]; cbn [app after_word].
  - destruct W as [|w W']; [reflexivity|].
    apply all_space_inv in HW as [Hw _].
    destruct (N.eqb_spec w x) as [-> | _]; [congruence | reflexivity].
  - destruct (c =? x); [apply IH | reflexivity].
Qed.

Lemma integer_digits_app (y W : pystr) :
  all_space W -> integer_digits (y ++ W) = integer_digits y.
Proof.
  intros HW. unfold integer_digits. rewrite (match_integer_app y W HW).
  destruct (match_integer y) as [[integer r]|]; reflexivity.
Qed.

Lemma scan_constant_space (W : pystr) : all_space W -> scan_constant W = None.
Proof.
  intros HW. destruct W as [|w W']; [reflexivity|].
  pose proof (all_space_inv _ _ HW) as [Hw _]. unfold scan_constant.
  rewrite !(space_neq w) by (try exact Hw; lia).
  change (match_number (w :: W')) with (match_number ([] ++ w :: W')).
  rewrite (match_number_app [] (w :: W') HW). reflexivity.
Qed.

Lemma scan_constant_app (y W : pystr) :
  all_space W -> scan_constant (y ++ W) = trailing W (scan_constant y).
Proof.
  intros HW. destruct y as [|c y].
  - apply scan_constant_space. exact HW.
  - cbn [app]. unfold scan_constant.
    change (c :: y ++ W) with ((c :: y) ++ W).
    rewrite (match_number_app (c :: y) W HW).
    repeat match goal with
           | |- context [after_word (lit ?w) (y ++ W)] =>
               rewrite (after_word_app (lit w) y W HW)
                 by (repeat constructor)
           end.
    repeat match goal with
           | |- context [if ?b then _ else _] => destruct b
           end;
      repeat match goal with
             | |- context [after_word ?w y] => destruct (after_word w y)
             end;
      try reflexivity;
      destruct (match_number (c :: y)) as [[? ?]|]; reflexivity.
Qed.

(** Splits a whitespace text the goal matches on, and records what is
    known of its first character. *)
Ltac space_inv :=
  match goal with
  | HW : all_space ?W |- context [match ?W with _ => _ end] =>
      let w := fresh "w" in
      let W' := fresh "W" in
      let Hw := fresh "Hw" in
      destruct W as [|w W'];
      [ | apply all_space_inv in HW as [Hw HW];
          try rewrite !(space_neq w 34 Hw) by lia;
          try rewrite !(space_neq w 92 Hw) by lia;
          try rewrite !(space_neq w 117 Hw) by lia;
          try rewrite !(space_not_escape w Hw);
          try rewrite !andb_false_r ]
  end.

Ltac decode_none :=
  match goal with
  | |- context [decode_uXXXX ?a ?b ?c ?d] =>
      rewrite (decode_space a b c d) by auto
  end.

Lemma string_step_app (c : N) (y W : pystr) :
  all_space W ->
  string_step ((c :: y) ++ W) = chunk_trailing W (string_step (c :: y)).
Proof.
  intros HW. cbn [app]. unfold string_step.
  destruct (c =? 34); [reflexivity|].
  destruct (c =? 92); [|destruct (c <=? 31); reflexivity].
  destruct y as [|e y]; cbn [app].
  { space_inv; reflexivity. }
  destruct (e =? 117); [|destruct (backslash e); reflexivity].
  destruct y as [|h1 [|h2 [|h3 [|h4 y]]]]; cbn [app];
    try (repeat space_inv; try reflexivity; decode_none; reflexivity).
  destruct (decode_uXXXX h1 h2 h3 h4) as [uni|]; [|reflexivity].
  destruct ((55296 <=? uni) && (uni <=? 56319)); [|reflexivity].
  destruct y as [|b [|u y]]; cbn [app];
    try (repeat space_inv; reflexivity).
  destruct ((b =? 92) && (u =? 117)); [|reflexivity].
  destruct y as [|g1 [|g2 [|g3 [|g4 y]]]]; cbn [app];
    try (repeat space_inv; try reflexivity; decode_none; reflexivity).
  destruct (decode_uXXXX g1 g2 g3 g4) as [uni2|]; [|reflexivity].
  destruct ((56320 <=? uni2) && (uni2 <=? 57343)); reflexivity.
Qed.

(** Whitespace behind a text changes nothing to the string read from it. *)
Lemma scanstring_app (y W acc : pystr) :
  all_space W -> scanstring (y ++ W) acc = trailing W (scanstring y acc).
Proof.
  intros HW. remember (List.length y) as n eqn:En. revert y acc En.
  induction n as [n IH] using lt_wf_ind. intros [|c y] acc En.
  - apply scanstring_space. exact HW.
  - rewrite (scanstring_step ((c :: y) ++ W)), (scanstring_step (c :: y)).
    rewrite (string_step_app c y W HW).
    pose proof (string_step_length (c :: y)) as L.
    destruct (string_step (c :: y)) as [r|ch r|]; cbn [chunk_trailing trailing].
    + reflexivity.
    + apply (IH (List.length r)); [lia | reflexivity].
    + reflexivity.
Qed.

Lemma skip_ws_app (y W : pystr) :
  skip_ws y <> [] -> skip_ws (y ++ W) = skip_ws y ++ W.
Proof.
  induction y as [|c y IH]; simpl; [congruence|].
  destruct (json_ws c); [exact IH | reflexivity].
Qed.

Lemma skip_ws_space (W : pystr) : all_space W -> all_space (skip_ws W).
Proof.
  intros HW. destruct (skip_ws_split W) as [ws [E _]].
  rewrite E in HW. apply Forall_app in HW as [_ HW]. exact HW.
Qed.

Lemma skip_ws_app_nil (y W : pystr) :
  skip_ws y = [] -> skip_ws (y ++ W) = skip_ws W.
Proof.
  induction y as [|c y IH]; simpl; [reflexivity|].
  destruct (json_ws c); [exact IH | discriminate].
Qed.

(** No value starts with a whitespace character, and none is empty. *)
Lemma scan_constant_head_space (w : N) (t : pystr) :
  isspace w = true -> scan_constant (w :: t) = None.
Proof.
  intros Hw. unfold scan_constant, match_number, match_integer.
  rewrite !(space_neq w) by (try exact Hw; lia).
  rewrite (space_not_digit w Hw). reflexivity.
Qed.

Lemma scan_once_no_value (py : interpreter) (n d : nat) (s : pystr)
      (v : json) (r : pystr) :
  no_value s -> scan_once py n d s <> Scanned v r.
Proof.
  intros Hs H. destruct n; [discriminate|].
  destruct s as [|w t]; [outcome H|].
  simpl in Hs. rewrite scan_once_S in H.
  rewrite !(space_neq w) in H by (try exact Hs; lia).
  rewrite (scan_constant_head_space w t Hs) in H. outcome H.
Qed.

Lemma array_items_no_value (py : interpreter) (n d : nat) (s : pystr)
      (vs l : list json) (r : pystr) :
  no_value s -> array_items py n d s vs <> Scanned l r.
Proof.
  intros Hs. destruct n; [discriminate|]. rewrite array_items_S.
  pose proof (fun v r => scan_once_no_value py n d s v r Hs) as K.
  destruct (scan_once py n d s) as [v' r'| | e |]; try discriminate.
  destruct (K v' r' eq_refl).
Qed.

Lemma all_space_no_value (s : pystr) : all_space s -> no_value s.
Proof. intros [|w t Hw _]; [exact I | exact Hw]. Qed.

Lemma skip_ws_trailing (x W : pystr) (c : N) (t : pystr) :
  all_space W -> skip_ws (x ++ W) = c :: t ->
  (exists t0, skip_ws x = c :: t0 /\ t = t0 ++ W)
  \/ (skip_ws x = [] /\ isspace c = true).
Proof.
  intros HW E. destruct (skip_ws x) as [|c0 t0] eqn:Ex.
  - right. split; [reflexivity|].
    rewrite (skip_ws_app_nil _ _ Ex) in E.
    pose proof (skip_ws_space W HW) as S. rewrite E in S.
    apply all_space_inv in S as [S _]. exact S.
  - left. rewrite skip_ws_app in E by congruence. rewrite Ex in E.
    injection E as <- <-. exists t0. split; reflexivity.
Qed.

Lemma skip_ws_trailing_form (x W : pystr) :
  all_space W ->
  skip_ws (x ++ W) = skip_ws x ++ W \/ no_value (skip_ws (x ++ W)).
Proof.
  intros HW. destruct (skip_ws x) as [|c0 t0] eqn:Ex.
  - right. rewrite (skip_ws_app_nil _ _ Ex).
    apply all_space_no_value, skip_ws_space, HW.
  - left. rewrite skip_ws_app by congruence. rewrite Ex. reflexivity.
Qed.

(** Closes a goal whose hypothesis says that an error read a value. *)
Ltac bad H := solve [discriminate H | outcome H].

(** Whitespace behind a text is not part of the value read from it: a scan
    of the longer text that succeeds stops before that whitespace, and the
    scan of the shorter text gives the same value. *)
Lemma scan_trailing (py : interpreter) (W : pystr) (HW : all_space W)
      (n : nat) :
  (forall d y v r, scan_once py n d (y ++ W) = Scanned v r ->
                   exists r0, r = r0 ++ W /\ scan_once py n d y = Scanned v r0)
  /\ (forall d y vs l r, array_items py n d (y ++ W) vs = Scanned l r ->
                         exists r0, r = r0 ++ W
                                    /\ array_items py n d y vs = Scanned l r0)
  /\ (forall d y ps l r, object_pairs py n d (y ++ W) ps = Scanned l r ->
                         exists r0, r = r0 ++ W
                                    /\ object_pairs py n d y ps = Scanned l r0).
Proof.
  induction n as [|n (IH1 & IH2 & IH3)].
  - repeat split; intros; discriminate.
  - repeat split.
    + intros d [|c y] v r H.
      { destruct (scan_once_no_value _ _ _ _ _ _ (all_space_no_value W HW) H). }
      cbn [app] in H. rewrite scan_once_S in H. rewrite scan_once_S.
      destruct (c =? 34).
      { rewrite (scanstring_app y W [] HW) in H.
        destruct (scanstring y []) as [[str r0]|]; [|bad H].
        injection H as <- <-. exists r0. split; reflexivity. }
      destruct (c =? 123).
      { destruct d as [|d']; [bad H|].
        destruct (skip_ws (y ++ W)) as [|c' t'] eqn:E; [bad H|].
        apply (skip_ws_trailing _ _ _ _ HW) in E
          as [(t0 & -> & ->) | (_ & Hc)].
        2:{ rewrite !(space_neq c') in H by (try exact Hc; lia).
            bad H. }
        destruct (c' =? 125).
        { injection H as <- <-. exists t0. split; reflexivity. }
        destruct (c' =? 34); [|bad H].
        destruct (object_pairs py n d' (t0 ++ W) []) as [pairs r'| | e |] eqn:EO;
          try discriminate.
        injection H as <- <-. apply IH3 in EO as (r0 & -> & ->).
        exists r0. split; reflexivity. }
      destruct (c =? 91).
      { destruct d as [|d']; [bad H|].
        destruct (skip_ws (y ++ W)) as [|c' t'] eqn:E; [bad H|].
        apply (skip_ws_trailing _ _ _ _ HW) in E
          as [(t0 & -> & ->) | (_ & Hc)].
        2:{ rewrite !(space_neq c') in H by (try exact Hc; lia).
            destruct (array_items py n d' (c' :: t') [])
              as [vals r'| | e |] eqn:EA; try discriminate.
            destruct (array_items_no_value py n d' (c' :: t') [] vals r' Hc EA). }
        destruct (c' =? 93).
        { injection H as <- <-. exists t0. split; reflexivity. }
        change (c' :: t0 ++ W) with ((c' :: t0) ++ W) in H.
        destruct (array_items py n d' ((c' :: t0) ++ W) [])
          as [vals r'| | e |] eqn:EA; try discriminate.
        injection H as <- <-. apply IH2 in EA as (r0 & -> & ->).
        exists r0. split; reflexivity. }
      change (c :: y ++ W) with ((c :: y) ++ W) in H.
      rewrite (scan_constant_app (c :: y) W HW) in H.
      rewrite (integer_digits_app (c :: y) W HW) in H.
      destruct (scan_constant (c :: y)) as [[v0 r0]|]; [|bad H].
      cbn [trailing] in H.
      destruct (is_int v0 && exceeds_int_limit py (integer_digits (c :: y)));
        [bad H|].
      destruct (is_named_constant v0).
      * unfold attempt in H |- *.
        destruct (d <? needs py CallParseConstant)%nat; [discriminate H|].
        injection H as <- <-. exists r0. split; reflexivity.
      * injection H as <- <-. exists r0. split; reflexivity.
    + intros d y vs l r H. rewrite array_items_S in H. rewrite array_items_S.
      destruct (scan_once py n d (y ++ W)) as [value r1| | e |] eqn:E1;
        try discriminate.
      apply IH1 in E1 as (r0 & -> & ->).
      destruct (skip_ws (r0 ++ W)) as [|c t] eqn:E2; [bad H|].
      apply (skip_ws_trailing _ _ _ _ HW) in E2
        as [(t0 & -> & ->) | (_ & Hc)].
      2:{ rewrite !(space_neq c) in H by (try exact Hc; lia). bad H. }
      destruct (c =? 93).
      { injection H as <- <-. exists t0. split; reflexivity. }
      destruct (c =? 44); [|bad H].
      destruct (skip_ws_trailing_form t0 W HW) as [E | E].
      * rewrite E in H. apply IH2 in H. exact H.
      * destruct (array_items_no_value _ _ _ _ _ _ _ E H).
    + intros d y ps l r H. rewrite object_pairs_S in H. rewrite object_pairs_S.
      rewrite (scanstring_app y W [] HW) in H.
      destruct (scanstring y []) as [[key r0]|]; [|bad H].
      cbn [trailing] in H.
      destruct (skip_ws (r0 ++ W)) as [|c t] eqn:E2; [bad H|].
      apply (skip_ws_trailing _ _ _ _ HW) in E2
        as [(t0 & -> & ->) | (_ & Hc)].
      2:{ rewrite !(space_neq c) in H by (try exact Hc; lia). bad H. }
      destruct (c =? 58); [|bad H].
      destruct (skip_ws_trailing_form t0 W HW) as [E | E].
      2:{ destruct (scan_once py n d (skip_ws (t0 ++ W)))
            as [v' r'| | e |] eqn:E1; try discriminate.
          destruct (scan_once_no_value _ _ _ _ _ _ E E1). }
      rewrite E in H.
      destruct (scan_once py n d (skip_ws t0 ++ W)) as [value r1| | e |] eqn:E1;
        try discriminate.
      apply IH1 in E1 as (r2 & -> & ->).
      destruct (skip_ws (r2 ++ W)) as [|c' t'] eqn:E3; [bad H|].
      apply (skip_ws_trailing _ _ _ _ HW) in E3
        as [(t1 & -> & ->) | (_ & Hc)].
      2:{ rewrite !(space_neq c') in H by (try exact Hc; lia). bad H. }
      destruct (c' =? 125).
      { injection H as <- <-. exists t1. split; reflexivity. }
      destruct (c' =? 44); [|bad H].
      destruct (skip_ws (t1 ++ W)) as [|q t''] eqn:E4; [bad H|].
      apply (skip_ws_trailing _ _ _ _ HW) in E4
        as [(t2 & -> & ->) | (_ & Hc)].
      2:{ rewrite !(space_neq q) in H by (try exact Hc; lia). bad H. }
      destruct (q =? 34); [|bad H].
      apply IH3 in H. exact H.
Qed.

(** ** [json.loads] and surrounding whitespace *)

Lemma lstrip_skip_ws (j : pystr) (c : N) (t : pystr) :
  skip_ws j = c :: t -> isspace c = false -> lstrip j = c :: t.
Proof.
  intros E Hc. induction j as [|d j IH]; [discriminate|].
  simpl in E |- *. destruct (json_ws d) eqn:Hd.
  - rewrite (json_ws_space d Hd). exact (IH E).
  - injection E as -> ->. rewrite Hc. reflexivity.
Qed.

Lemma skip_ws_fixed (c : N) (t : pystr) :
  json_ws c = false -> skip_ws (c :: t) = c :: t.
Proof. intros H. simpl. rewrite H. reflexivity. Qed.

Lemma skip_ws_app_inv (a b : pystr) : skip_ws (a ++ b) = [] -> skip_ws a = [].
Proof.
  intros E. destruct (skip_ws a) as [|c t] eqn:Ea; [reflexivity|].
  rewrite skip_ws_app in E by congruence. rewrite Ea in E. discriminate.
Qed.

Lemma json_loads_scanned (py : interpreter) (j : pystr) (v : json) :
  json_loads py j = Return v ->
  exists r, scan_once py (budget j) (max_nesting py) (skip_ws j) = Scanned v r
            /\ skip_ws r = [].
Proof.
  unfold json_loads.
  destruct (scan_once py (budget j) (max_nesting py) (skip_ws j))
    as [obj r| | e |]; try discriminate.
  destruct (skip_ws r) eqn:E; [|discriminate].
  intros [= <-]. exists r. split; [reflexivity | exact E].
Qed.

(** A text that decodes starts, after its whitespace, with a character
    that is neither whitespace nor a letter [j]. *)
Lemma json_loads_head (py : interpreter) (j : pystr) (v : json) :
  json_loads py j = Return v ->
  exists c t, skip_ws j = c :: t /\ lstrip j = c :: t
              /\ isspace c = false /\ c <> 106 /\ c <> 74.
Proof.
  intros H. apply json_loads_scanned in H as (r & H & _).
  destruct (skip_ws j) as [|c t] eqn:E.
  { destruct (scan_once_no_value py (budget j) _ [] v r I H). }
  assert (Hc : isspace c = false).
  { destruct (isspace c) eqn:Hc; [|reflexivity].
    destruct (scan_once_no_value py (budget j) _ (c :: t) v r Hc H). }
  exists c, t. repeat split; try assumption.
  - apply lstrip_skip_ws; assumption.
  - intros ->. destruct (budget j); [discriminate|]. bad H.
  - intros ->. destruct (budget j); [discriminate|]. bad H.
Qed.

(** What decodes, decodes to the same value once trimmed. *)
Lemma json_loads_strip (py : interpreter) (j : pystr) (v : json) :
  json_loads py j = Return v -> json_loads py (strip j) = Return v.
Proof.
  intros H. destruct (json_loads_head py j v H) as (c & t & Es & El & Hc & _).
  apply json_loads_scanned in H as (r & H & Er).
  unfold strip. rewrite El. rewrite Es in H.
  destruct (rstrip_split (c :: t)) as [W [EW HW]].
  destruct (rstrip_cons c t Hc) as [x Ex]. rewrite Ex in EW |- *.
  rewrite EW in H.
  apply (proj1 (scan_trailing py W HW (budget j))) in H as (r0 & -> & H).
  apply skip_ws_app_inv in Er.
  assert (Ek : skip_ws (c :: x) = c :: x).
  { apply skip_ws_fixed. exact (skip_ws_head _ _ _ Es). }
  rewrite (json_loads_budget py (budget j)); rewrite Ek, H.
  - rewrite Er. reflexivity.
  - discriminate.
Qed.

Lemma json_loads_no_marker (py : interpreter) (j : pystr) (v : json) :
  json_loads py j = Return v -> ~ leading_json_marker j.
Proof.
  intros H.
  destruct (json_loads_head py j v H) as (c & t & _ & El & _ & Hj & HJ).
  apply match_json_marker_none. unfold match_json_marker. rewrite El.
  destruct t as [|c2 [|c3 [|c4 t]]]; try reflexivity.
  replace (literal_ignorecase 106 c) with false; [reflexivity|].
  symmetry. destruct (literal_ignorecase 106 c) eqn:E; [|reflexivity].
  apply literal_j in E. simpl in E. intuition congruence.
Qed.

(** C4, as stated: a fence marker inside a string value of the object is
    removed with the fences around it, and the decoded value changes. *)
Lemma fenced_object_loses_inner_fence :
  json_loads cpython (qlit "{'note': 'use ``` for code'}")
  = Return (JDict [(lit "note", JStr (lit "use ``` for code"))])
  /\ json_loads cpython
       (Planner.clean_json_output
          (fenced (lit "json") [10] (qlit "{'note': 'use ``` for code'}") [10]))
     = Return (JDict [(lit "note", JStr (lit "use  for code"))]).
Proof. vm_compute. split; reflexivity. Qed.

(** C4, amended: for a text [j] that decodes as JSON and holds no triple
    backtick, wrapping [j] in a code fence (with or without the tag
    [json], any whitespace between the fences and [j]), cleaning and
    decoding gives the value that decoding [j] gives; this on every
    interpreter. *)
Theorem fenced_json_decodes (py : interpreter) (j lang pre post : pystr)
        (v : json) :
  json_loads py j = Return v ->
  ~ fence_in j ->
  lang = [] \/ lang = lit "json" ->
  all_space pre -> all_space post ->
  json_loads py (Planner.clean_json_output (fenced lang pre j post))
  = json_loads py j.
Proof.
  intros H F Hlang Hpre Hpost.
  rewrite clean_json_output_fenced; try assumption.
  - rewrite H. apply json_loads_strip. exact H.
  - destruct Hlang as [-> | ->]; [right | left; reflexivity].
    split; [reflexivity|]. exact (json_loads_no_marker py j v H).
Qed.

Lemma fenced_json_decodes_witness :
  json_loads cpython
    (Planner.clean_json_output
       (fenced (lit "json") [10] (qlit " {'purpose': 'renew', 'n': [1, 2]} ")
          [10]))
  = json_loads cpython (qlit " {'purpose': 'renew', 'n': [1, 2]} ").
Proof.
  apply (fenced_json_decodes cpython _ _ _ _
           (JDict [(lit "purpose", JStr (lit "renew"));
                   (lit "n", JList [JInt 1; JInt 2])])).
  - vm_compute. reflexivity.
  - apply no_fence_by_scan. vm_compute. reflexivity.
  - right. reflexivity.
  - repeat constructor.
  - repeat constructor.
Defined.

(** * Further properties of the two files *)

(** ** [clean_json_output] *)

Lemma subseq_refl (s : pystr) : subseq s s.
Proof. induction s; constructor; assumption. Qed.

Lemma subseq_trans (a b c : pystr) : subseq a b -> subseq b c -> subseq a c.
Proof.
  intros Hab Hbc. revert a Hab.
  induction Hbc as [|x b c _ IH|x b c _ IH]; intros a Hab.
  - exact Hab.
  - inversion Hab; subst; constructor; auto.
  - constructor. apply IH. exact Hab.
Qed.

Lemma subseq_app_r (a s : pystr) : subseq s (a ++ s).
Proof. induction a; simpl; [apply subseq_refl | constructor; assumption]. Qed.

Lemma subseq_app_l (s b : pystr) : subseq s (s ++ b).
Proof.
  induction s; simpl; [|constructor; assumption].
  induction b; constructor; assumption.
Qed.

Lemma remove_fences_subseq (s : pystr) : subseq (remove_fences s) s.
Proof.
  induction s as [| t IH | c s E IH] using remove_fences_scan.
  - constructor.
  - rewrite remove_fences_skip. repeat constructor. exact IH.
  - rewrite remove_fences_keep by exact E. constructor. exact IH.
Qed.

(** X1: [clean_json_output] only deletes: its result is the text given,
    with some characters left out and the others in their order; in
    particular it is never longer. *)
Theorem clean_json_output_only_deletes (s : pystr) :
  subseq (Planner.clean_json_output s) s
  /\ subseq (Summary.clean_json_output s) s
  /\ (List.length (Planner.clean_json_output s) <= List.length s)%nat.
Proof.
  assert (H : subseq (Planner.clean_json_output s) s).
  { unfold Planner.clean_json_output.
    apply (subseq_trans _ (remove_fences s)); [|apply remove_fences_subseq].
    destruct (sub_json_marker_suffix (remove_fences s)) as [a E].
    destruct (strip_infix (sub_json_marker (remove_fences s))) as [b [c E']].
    rewrite E at 2. apply (subseq_trans _ (sub_json_marker (remove_fences s)));
      [|apply subseq_app_r].
    rewrite E' at 2.
    apply (subseq_trans _ (strip (sub_json_marker (remove_fences s)) ++ c));
      [apply subseq_app_l | apply subseq_app_r]. }
  repeat split; try exact H. apply clean_json_output_length.
Qed.

(** X2: the result of [clean_json_output] holds no triple backtick and is
    trimmed: neither its first nor its last character is whitespace; the
    same for the copy of the function in [summary.py]. *)
Theorem clean_json_output_shape (s : pystr) :
  (~ fence_in (Planner.clean_json_output s)
   /\ (forall c t, Planner.clean_json_output s = c :: t -> isspace c = false)
   /\ (forall r d, Planner.clean_json_output s = r ++ [d] ->
                   isspace d = false))
  /\ (~ fence_in (Summary.clean_json_output s)
      /\ (forall c t, Summary.clean_json_output s = c :: t ->
                      isspace c = false)
      /\ (forall r d, Summary.clean_json_output s = r ++ [d] ->
                      isspace d = false)).
Proof.
  assert (H : ~ fence_in (Planner.clean_json_output s)
              /\ (forall c t, Planner.clean_json_output s = c :: t ->
                              isspace c = false)
              /\ (forall r d, Planner.clean_json_output s = r ++ [d] ->
                              isspace d = false)).
  { split; [apply clean_json_output_no_fence|].
    pose proof (clean_json_output_stripped s) as S.
    pose proof (lstrip_strip (Planner.clean_json_output s)) as L.
    rewrite S in L. split.
    - intros c t E. rewrite E in L.
      destruct (isspace c) eqn:Hc; [|reflexivity]. exfalso.
      simpl in L. rewrite Hc in L.
      pose proof (lstrip_length t) as K. rewrite L in K. simpl in K. lia.
    - intros r d E. unfold strip in S. rewrite L, E in S.
      destruct (isspace d) eqn:Hd; [|reflexivity]. exfalso.
      rewrite rstrip_app_space in S by (repeat constructor; exact Hd).
      pose proof (rstrip_length r) as K. rewrite S, length_app in K.
      simpl in K. lia. }
  split; exact H.
Qed.

(** X3: [clean_json_output] leaves a text as it is exactly when the text
    holds no triple backtick, does not start with a [json] marker, and
    has no whitespace at either end; the same for the copy of the
    function in [summary.py]. *)
Theorem clean_json_output_fixed_point (s : pystr) :
  (Planner.clean_json_output s = s
   <-> ~ fence_in s /\ ~ leading_json_marker s /\ strip s = s)
  /\ (Summary.clean_json_output s = s
      <-> ~ fence_in s /\ ~ leading_json_marker s /\ strip s = s).
Proof.
  assert (H : Planner.clean_json_output s = s
              <-> ~ fence_in s /\ ~ leading_json_marker s /\ strip s = s).
  { split.
    - intros E.
      assert (F : ~ fence_in s)
        by (rewrite <- E; apply clean_json_output_no_fence).
      split; [exact F|]. split.
      + intros M. pose proof (clean_json_output_marked s F M) as L.
        rewrite E in L. lia.
      + rewrite <- E. apply clean_json_output_stripped.
    - intros (F & M & S). rewrite (clean_json_output_plain s F M). exact S. }
  split; exact H.
Qed.

(** X4: [clean_json_output] unwraps a code fence: for a text [j] without
    triple backtick, put between an opening fence (tagged [json], or
    untagged when [j] does not itself start with a [json] marker) and a
    closing fence, with any whitespace in between, the result is [j]
    trimmed. *)
Theorem clean_json_output_unwraps_fence (lang pre j post : pystr) :
  ~ fence_in j -> all_space pre -> all_space post ->
  (lang = lit "json" \/ (lang = [] /\ ~ leading_json_marker j)) ->
  Planner.clean_json_output (fenced lang pre j post) = strip j
  /\ Summary.clean_json_output (fenced lang pre j post) = strip j.
Proof.
  intros F Hpre Hpost Hlang.
  split; [|rewrite (summary_clean_json_output (fenced lang pre j post))];
    apply clean_json_output_fenced; assumption.
Qed.

Lemma clean_json_output_unwraps_fence_witness :
  Planner.clean_json_output
    (fenced (lit "json") [10] (qlit "{'result': 'failure'} ") [10])
  = strip (qlit "{'result': 'failure'} ")
  /\ Summary.clean_json_output
       (fenced (lit "json") [10] (qlit "{'result': 'failure'} ") [10])
     = strip (qlit "{'result': 'failure'} ").
Proof.
  apply clean_json_output_unwraps_fence.
  - apply no_fence_by_scan. vm_compute. reflexivity.
  - repeat constructor.
  - repeat constructor.
  - left. reflexivity.
Defined.

Lemma remove_fences_tick_free_l (u s : pystr) :
  tick_free u -> remove_fences (u ++ s) = u ++ remove_fences s.
Proof.
  induction 1 as [|c u H _ IH]; [reflexivity|]. cbn [app].
  rewrite remove_fences_keep; [rewrite IH; reflexivity|].
  destruct (u ++ s) as [|c2 [|c3 t]]; try reflexivity. simpl.
  destruct (N.eqb_spec c backtick); [contradiction | reflexivity].
Qed.

Lemma remove_fences_tick_free_r (s v : pystr) :
  tick_free v -> remove_fences (s ++ v) = remove_fences s ++ v.
Proof.
  intros T. induction s as [| t IH | c s E IH] using remove_fences_scan.
  - apply remove_fences_id, tick_free_no_fence, T.
  - rewrite <- app_assoc, !remove_fences_skip. exact IH.
  - cbn [app]. rewrite !remove_fences_keep; [rewrite IH; reflexivity | exact E |].
    destruct (starts_fence (c :: s ++ v)) eqn:K; [|reflexivity]. exfalso.
    assert (G : fence_in ((c :: s) ++ v)) by (apply fence_in_starts; exact K).
    destruct s as [|c2 [|c3 s]].
    + destruct v as [|d [|d' v]]; try discriminate.
      inversion T as [|? ? H _]. apply H. simpl in K.
      apply andb_prop in K as [K _]. apply andb_prop in K as [_ K].
      apply N.eqb_eq in K. exact K.
    + destruct v as [|d v]; try discriminate.
      inversion T as [|? ? H _]. apply H. simpl in K.
      apply andb_prop in K as [_ K]. apply N.eqb_eq in K. exact K.
    + simpl in K, E. congruence.
Qed.

Lemma strip_lstrip (s : pystr) : strip (lstrip s) = strip s.
Proof. unfold strip. rewrite lstrip_idem. reflexivity. Qed.

Lemma sub_json_marker_around (pre x post : pystr) :
  all_space pre -> all_space post ->
  strip (sub_json_marker (pre ++ x ++ post)) = strip (sub_json_marker x).
Proof.
  intros Hpre Hpost. unfold sub_json_marker.
  destruct (match_json_marker x) as [r|] eqn:E.
  - unfold match_json_marker in E |- *.
    rewrite lstrip_app_space by exact Hpre.
    destruct (lstrip x) as [|c1 [|c2 [|c3 [|c4 t]]]] eqn:Ex; try discriminate.
    rewrite lstrip_app by congruence. rewrite Ex. cbn [app].
    destruct (_ && _); [|discriminate]. injection E as <-.
    rewrite !strip_lstrip. apply (strip_around [] t post); [constructor|].
    exact Hpost.
  - assert (E' : match_json_marker (pre ++ x ++ post) = None).
    { unfold match_json_marker. rewrite lstrip_app_space by exact Hpre.
      apply (match_json_marker_app_space x post Hpost E). }
    rewrite E'. apply strip_around; assumption.
Qed.

Lemma clean_json_output_around (pre s post : pystr) :
  all_space pre -> all_space post ->
  Planner.clean_json_output (pre ++ s ++ post) = Planner.clean_json_output s.
Proof.
  intros Hpre Hpost. unfold Planner.clean_json_output.
  rewrite remove_fences_tick_free_l by (apply all_space_tick_free, Hpre).
  rewrite remove_fences_tick_free_r by (apply all_space_tick_free, Hpost).
  apply sub_json_marker_around; assumption.
Qed.

(** X5: whitespace around the answer does not matter: [clean_json_output]
    gives the same result for a text and for the text with whitespace put
    before and behind it. *)
Theorem clean_json_output_ignores_outer_space (pre s post : pystr) :
  all_space pre -> all_space post ->
  Planner.clean_json_output (pre ++ s ++ post) = Planner.clean_json_output s
  /\ Summary.clean_json_output (pre ++ s ++ post)
     = Summary.clean_json_output s.
Proof.
  intros Hpre Hpost.
  split; [|rewrite !summary_clean_json_output];
    apply clean_json_output_around; assumption.
Qed.

Lemma clean_json_output_ignores_outer_space_witness :
  Planner.clean_json_output ([10; 32] ++ lit "```json {}```" ++ [32; 10])
  = Planner.clean_json_output (lit "```json {}```")
  /\ Summary.clean_json_output ([10; 32] ++ lit "```json {}```" ++ [32; 10])
     = Summary.clean_json_output (lit "```json {}```").
Proof.
  apply clean_json_output_ignores_outer_space; repeat constructor.
Defined.

(** ** The stages and the two [main] functions *)




(** X7: [main] of [summary.py] makes exactly one request, for the record
    it holds.  When [json.loads] returns a value for the cleaned answer,
    [main] prints the header and then the value: it returns after the two
    lines when the value can be written to [sys.stdout], and raises the
    [UnicodeEncodeError] of [print] after the header when it cannot.  When
    [json.loads] raises, [main] raises what [summarize_call_log] raises,
    and has printed what that stage printed. *)
Theorem summary_main_outcome (py : interpreter) (llm : service) (w : world) :
  let rq := summary_request Summary.call_record in
  let answer := llm (calls w) rq in
  let text := Summary.clean_json_output answer in
  let line :=
    [VStr (lit "Failed to parse JSON response in summarize_call_log:");
     VStr text] in
  let r := Summary.main py llm w in
  calls (snd r) = calls w ++ [(rq, answer)]
  /\ match json_loads py text with
     | Return summary =>
         if printable py [VDumps (Some 2%Z) summary]
         then fst r = Return tt
              /\ stdout (snd r)
                 = stdout w ++ [[VStr (10 :: lit "[Call Record Summary]")];
                                [VDumps (Some 2%Z) summary]]
         else fst r = Raise UnicodeEncodeError
              /\ stdout (snd r)
                 = stdout w ++ [[VStr (10 :: lit "[Call Record Summary]")]]
     | Raise e =>
         fst r
         = Raise (stage_error py line
                    (lit "Failed to parse JSON response in summarize_call_log")
                    e)
         /\ stdout (snd r) = stdout w ++ stage_lines py line e
     end.
Proof.
  intros rq answer text line r. subst r. unfold Summary.main.
  rewrite bind_run, summarize_call_log_run. fold rq answer text.
  destruct (json_loads py text) as [summary|e].
  - rewrite bind_print_header by reflexivity. unfold print.
    destruct (printable py [VDumps (Some 2%Z) summary]).
    + cbn. rewrite <- app_assoc. auto.
    + cbn. auto.
  - cbn [fst snd]. rewrite stage_output_calls, stage_output_stdout.
    cbn. auto.
Qed.

Lemma main_run_position (py : interpreter) (llm : service) (w0 : world)
      (good : list (request * pystr)) (c : request * pystr) :
  List.map (fun c => req_template (fst c)) (good ++ [c])
  = firstn (List.length (good ++ [c])) pipeline_order ->
  nth_error pipeline_order (List.length good) = Some (req_template (fst c)).
Proof.
  intros H.
  assert (K : nth_error (List.map (fun c => req_template (fst c)) (good ++ [c]))
                (List.length good) = Some (req_template (fst c))).
  { rewrite map_app, nth_error_app2 by (rewrite length_map; apply le_n).
    rewrite length_map, Nat.sub_diag. reflexivity. }
  rewrite H, nth_error_firstn in K.
  destruct (Nat.ltb_spec (List.length good) (List.length (good ++ [c])));
    [exact K | discriminate K].
Qed.

(** X8: a run of [main] of [planner.py] returns exactly when it makes a
    sixth request and the cleaned answer to it can be written to
    [sys.stdout]; a run that makes six requests has made the six of the
    stage order, and the answers to the first five all decode. *)
Theorem planner_main_returns (py : interpreter) (llm : service) (w0 : world) :
  let r := Planner.main py llm w0 in
  ((exists u, fst r = Return u)
   <-> exists c, nth_error (issued w0 (snd r)) 5 = Some c
                 /\ encodable py (Planner.clean_json_output (snd c)) = true)
  /\ (List.length (issued w0 (snd r)) = 6%nat ->
      List.map (fun c => req_template (fst c)) (issued w0 (snd r))
      = pipeline_order
      /\ Forall (decodes py) (firstn 5 (issued w0 (snd r)))).
Proof.
  intros r. destruct (main_run py llm w0) as (new & Hc & Ho & Hr).
  fold r in Hc, Hr.
  assert (Hi : issued w0 (snd r) = new).
  { unfold issued. rewrite Hc, skipn_app, skipn_all, Nat.sub_diag.
    reflexivity. }
  rewrite Hi.
  assert (B : (List.length new <= 6)%nat).
  { apply (f_equal (@List.length template)) in Ho.
    rewrite length_map, length_firstn in Ho. simpl in Ho. lia. }
  destruct (fst r) as [u|e].
  - destruct Hr as (Hl & Hd & Hp). split; [split|].
    + intros _. exact Hp.
    + intros _. exists u. reflexivity.
    + intros _. rewrite Hl in Ho. split; assumption.
  - destruct Hr as (good & c & Hg & Hd & He).
    assert (P : nth_error pipeline_order (List.length good)
                = Some (req_template (fst c))).
    { apply (main_run_position py llm w0). rewrite <- Hg. exact Ho. }
    split; [split|].
    + intros [u Hu]. discriminate Hu.
    + intros (c' & Hk & Hp). exfalso.
      assert (L : List.length good = 5%nat).
      { assert (5 < List.length new)%nat by (apply nth_error_Some; congruence).
        rewrite Hg, length_app in B, H. simpl in B, H. lia. }
      rewrite Hg, nth_error_app2, L in Hk by lia. injection Hk as <-.
      rewrite L in P. injection P as P.
      unfold main_failure in He. rewrite <- P in He.
      destruct He as [He _]. congruence.
    + intros L. rewrite L in Ho. split; [exact Ho|].
      assert (Lg : List.length good = 5%nat).
      { rewrite Hg, length_app in L. simpl in L. lia. }
      rewrite Hg, firstn_app, Lg, Nat.sub_diag, <- Lg, firstn_all.
      cbn [firstn]. rewrite app_nil_r. exact Hd.
Qed.

Lemma planner_main_returns_witness :
  List.map (fun c => req_template (fst c))
    (issued start
       (snd (Planner.main cpython
               (scripted [sample_intent_text; sample_plan_text;
                          sample_plan_text; sample_plan_text;
                          sample_plan_text; lit "Be brief."]) start)))
  = pipeline_order.
Proof.
  apply (planner_main_returns cpython
           (scripted [sample_intent_text; sample_plan_text;
                      sample_plan_text; sample_plan_text;
                      sample_plan_text; lit "Be brief."]) start).
  vm_compute. reflexivity.
Defined.

(** Six requests do not make a run return: with [sys.stdout] in ASCII, a
    last answer that holds an accented letter is requested and then fails
    to print. *)
Example planner_main_last_print_fails :
  let r := Planner.main cpython_ascii
             (scripted [sample_intent_text; sample_plan_text;
                        sample_plan_text; sample_plan_text;
                        sample_plan_text; [66; 233]]) start in
  List.length (issued start (snd r)) = 6%nat
  /\ fst r = Raise UnicodeEncodeError.
Proof. vm_compute. split; reflexivity. Qed.

(** ** The refinement loop *)

Lemma refinement_loop_chained (py : interpreter) (llm : service)
      (intent : json) (indices : list Z) :
  forall (p : json) (w : world),
  exists new,
    calls (snd (Planner.refinement_loop py llm intent indices p w))
    = calls w ++ new
    /\ chained py intent p new.
Proof.
  induction indices as [|i indices IH]; intros p w.
  - exists []. simpl. rewrite app_nil_r. split; [reflexivity | exact I].
  - rewrite refinement_loop_step.
    set (rq := refine_request intent p). set (answer := llm (calls w) rq).
    destruct (json_loads py (Planner.clean_json_output answer))
      as [p'|e] eqn:E.
    + destruct (IH p' (exchanged w rq answer)) as (new & Hc & Hn).
      exists ((rq, answer) :: new). split.
      * rewrite Hc. simpl. rewrite <- app_assoc. reflexivity.
      * simpl. split; [reflexivity|]. rewrite E. exact Hn.
    + exists [(rq, answer)]. cbn [fst snd]. rewrite stage_output_calls.
      split; [reflexivity|].
      simpl. split; [reflexivity|]. rewrite E. reflexivity.
Qed.

(** X9: in [iterative_refinement], the first request carries the plan
    given and every later request carries the plan decoded from the
    answer just before it; each carries the same intent; and nothing is
    requested after an answer that fails to decode. *)
Theorem iterative_refinement_chains (py : interpreter) (llm : service)
        (plan intent : json) (n : Z) (w : world) :
  chained py intent plan
    (issued w (snd (Planner.iterative_refinement py llm plan intent n w))).
Proof.
  unfold Planner.iterative_refinement.
  destruct (refinement_loop_chained py llm intent (range n) plan w)
    as (new & Hc & Hn).
  unfold issued. rewrite Hc, skipn_app, skipn_all, Nat.sub_diag. exact Hn.
Qed.

Lemma refinement_loop_app (py : interpreter) (llm : service) (intent : json)
      (l1 l2 : list Z) :
  forall (p : json) (w : world),
    Planner.refinement_loop py llm intent (l1 ++ l2) p w
    = match Planner.refinement_loop py llm intent l1 p w with
      | (Return p', w') => Planner.refinement_loop py llm intent l2 p' w'
      | (Raise e, w') => (Raise e, w')
      end.
Proof.
  induction l1 as [|i l1 IH]; intros p w; [reflexivity|].
  cbn [app]. rewrite !refinement_loop_step.
  destruct (json_loads _ _); [apply IH | reflexivity].
Qed.

(** The loop indices only number the error message and the diagnostic. *)
Lemma refinement_loop_indices (py : interpreter) (llm : service)
      (intent : json) :
  forall (l l' : list Z) (p : json) (w : world),
    List.length l = List.length l' ->
    calls (snd (Planner.refinement_loop py llm intent l p w))
    = calls (snd (Planner.refinement_loop py llm intent l' p w))
    /\ (forall v, fst (Planner.refinement_loop py llm intent l p w) = Return v
                  <-> fst (Planner.refinement_loop py llm intent l' p w)
                      = Return v)
    /\ ((exists v, fst (Planner.refinement_loop py llm intent l' p w)
                   = Return v)
        -> Planner.refinement_loop py llm intent l p w
           = Planner.refinement_loop py llm intent l' p w).
Proof.
  induction l as [|i l IH]; intros [|i' l'] p w L; try discriminate L.
  - repeat split; auto.
  - rewrite !refinement_loop_step.
    destruct (json_loads _ _).
    + apply IH. simpl in L. lia.
    + cbn [fst snd]. rewrite !stage_output_calls.
      repeat split; try discriminate.
      intros [v Hv]. discriminate Hv.
Qed.

Lemma range_add (m n : Z) :
  (0 <= m)%Z -> (0 <= n)%Z ->
  exists l, range (m + n) = range m ++ l /\ List.length l = List.length (range n).
Proof.
  intros Hm Hn. unfold range.
  replace (Z.to_nat (m + n)) with (Z.to_nat m + Z.to_nat n)%nat by lia.
  rewrite seq_app, map_app. eexists. split; [reflexivity|].
  rewrite !length_map, !length_seq. reflexivity.
Qed.

(** X10: refinement composes: when [m] passes over a plan return [p1],
    [m + n] passes over the plan make the same exchanges as [n] further
    passes over [p1], return under the same conditions, and then return
    the same value and leave the same output. *)
Theorem iterative_refinement_composes (py : interpreter) (llm : service)
        (plan intent : json) (m n : Z) (w : world) (p1 : json) (w1 : world) :
  (0 <= m)%Z -> (0 <= n)%Z ->
  Planner.iterative_refinement py llm plan intent m w = (Return p1, w1) ->
  calls (snd (Planner.iterative_refinement py llm plan intent (m + n) w))
  = calls (snd (Planner.iterative_refinement py llm p1 intent n w1))
  /\ (forall v,
         fst (Planner.iterative_refinement py llm plan intent (m + n) w)
         = Return v
         <-> fst (Planner.iterative_refinement py llm p1 intent n w1)
             = Return v)
  /\ ((exists v,
          fst (Planner.iterative_refinement py llm p1 intent n w1) = Return v)
      -> Planner.iterative_refinement py llm plan intent (m + n) w
         = Planner.iterative_refinement py llm p1 intent n w1).
Proof.
  intros Hm Hn H. unfold Planner.iterative_refinement in *.
  destruct (range_add m n Hm Hn) as (l & -> & L).
  rewrite refinement_loop_app, H.
  apply refinement_loop_indices. exact L.
Qed.

Lemma iterative_refinement_composes_witness :
  Planner.iterative_refinement cpython (constant sample_plan_text) JNull
    sample_intent (1 + 2) start
  = Planner.iterative_refinement cpython (constant sample_plan_text)
      sample_plan sample_intent 2
      (exchanged start (refine_request sample_intent JNull) sample_plan_text).
Proof.
  apply (iterative_refinement_composes cpython (constant sample_plan_text)
           JNull sample_intent 1 2 start sample_plan).
  - lia.
  - lia.
  - vm_compute. reflexivity.
  - exists sample_plan. vm_compute. reflexivity.
Defined.

(** ** The wiring of the planning pipeline *)

Ltac case_decode H E :=
  match type of H with
  | context [json_loads ?py ?x] =>
      destruct (json_loads py x) as [?value|?err] eqn:E; [|discriminate H]
  end.

Ltac case_print H P :=
  rewrite bind_print_header in H by reflexivity;
  rewrite bind_print in H;
  match type of H with
  | context [printable ?py ?l] =>
      destruct (printable py l) eqn:P; [|discriminate H]
  end.

(** X11: a run of [main] of [planner.py] that returns has wired the
    stages as follows: the intent decoded from the first answer goes into
    every later request; the plan decoded from the second answer goes into
    the first refinement request, each refined plan into the next, and the
    third refined plan into the request of the last stage; the run prints,
    in order, the intent, the first plan, the last refined plan only, and
    the cleaned answer of the last stage. *)
Theorem planner_main_wiring (py : interpreter) (llm : service)
        (w0 w : world) (u : unit) :
  Planner.main py llm w0 = (Return u, w) ->
  exists a1 a2 a3 a4 a5 a6 intent p0 p1 p2 p3,
    issued w0 w
    = [(intent_request main_user_input, a1);
       (plan_request intent, a2);
       (refine_request intent p0, a3);
       (refine_request intent p1, a4);
       (refine_request intent p2, a5);
       (system_request p3 intent, a6)]
    /\ json_loads py (Planner.clean_json_output a1) = Return intent
    /\ json_loads py (Planner.clean_json_output a2) = Return p0
    /\ json_loads py (Planner.clean_json_output a3) = Return p1
    /\ json_loads py (Planner.clean_json_output a4) = Return p2
    /\ json_loads py (Planner.clean_json_output a5) = Return p3
    /\ stdout w
       = stdout w0
           ++ [[VStr (10 :: lit "[Generated Intent]")];
               [VDumps (Some 2%Z) intent];
               [VStr (10 :: lit "[Initial Call Plan]")];
               [VDumps (Some 2%Z) p0];
               [VStr (10 :: lit "[Refined Call Plan]")];
               [VDumps (Some 2%Z) p3];
               [VStr (10 :: lit "[Final System Prompt]")];
               [VStr (Planner.clean_json_output a6)]].
Proof.
  intros H. unfold Planner.main in H. fold main_user_input in H.
  rewrite bind_run, generate_intent_run in H.
  set (a1 := llm (calls w0) _) in H. case_decode H E1.
  case_print H P1.
  rewrite bind_run, generate_call_plan_run in H.
  set (a2 := llm _ (plan_request _)) in H. case_decode H E2.
  case_print H P2.
  rewrite bind_run in H.
  unfold Planner.iterative_refinement in H.
  change (range 3) with [0; 1; 2]%Z in H.
  rewrite refinement_loop_step in H.
  set (a3 := llm _ (refine_request _ _)) in H. case_decode H E3.
  rewrite refinement_loop_step in H.
  set (a4 := llm _ (refine_request _ _)) in H. case_decode H E4.
  rewrite refinement_loop_step in H.
  set (a5 := llm _ (refine_request _ _)) in H. case_decode H E5.
  cbn [Planner.refinement_loop ret] in H.
  case_print H P3.
  rewrite bind_run, create_cot_system_prompt_from_plan_run in H.
  set (a6 := llm _ (system_request _ _)) in H.
  rewrite bind_print_header in H by reflexivity. unfold print in H.
  destruct (printable py [VStr (Planner.clean_json_output a6)]);
    [|discriminate H].
  injection H as _ <-.
  exists a1, a2, a3, a4, a5, a6.
  match goal with
  | E1 : _ = Return ?i, E2 : _ = Return ?q0, E3 : _ = Return ?q1,
    E4 : _ = Return ?q2, E5 : _ = Return ?q3 |- _ =>
      match type of E1 with context [a1] =>
      match type of E2 with context [a2] =>
      match type of E3 with context [a3] =>
      match type of E4 with context [a4] =>
      match type of E5 with context [a5] =>
        exists i, q0, q1, q2, q3
      end end end end end
  end.
  repeat split; try assumption.
  - unfold issued, printed, exchanged. cbn [calls stdout].
    rewrite <- !app_assoc. cbn [app].
    rewrite skipn_app, skipn_all, Nat.sub_diag. reflexivity.
  - unfold printed, exchanged. cbn [calls stdout].
    rewrite <- !app_assoc. reflexivity.
Qed.

Lemma planner_main_wiring_witness :
  exists a1 a2 a3 a4 a5 a6 intent p0 p1 p2 p3,
    issued start
      (snd (Planner.main cpython
              (scripted [sample_intent_text; sample_plan_text;
                         sample_plan_text; sample_plan_text;
                         sample_plan_text; lit "Be brief."]) start))
    = [(intent_request main_user_input, a1);
       (plan_request intent, a2);
       (refine_request intent p0, a3);
       (refine_request intent p1, a4);
       (refine_request intent p2, a5);
       (system_request p3 intent, a6)].
Proof.
  destruct (planner_main_wiring cpython
              (scripted [sample_intent_text; sample_plan_text;
                         sample_plan_text; sample_plan_text;
                         sample_plan_text; lit "Be brief."]) start
              (snd (Planner.main cpython
                      (scripted [sample_intent_text; sample_plan_text;
                                 sample_plan_text; sample_plan_text;
                                 sample_plan_text; lit "Be brief."]) start))
              tt)
    as (a1 & a2 & a3 & a4 & a5 & a6 & intent & p0 & p1 & p2 & p3 & H & _).
  - vm_compute. reflexivity.
  - exists a1, a2, a3, a4, a5, a6, intent, p0, p1, p2, p3. exact H.
Defined.



(** X13: the marker is read without regard to letter case, as
    [re.IGNORECASE] reads it: a text that starts with [j], [s], [o], [n]
    in either case (or U+017F for the [s]) is cleaned to what follows the
    four letters, with its fences removed and trimmed. *)
Theorem clean_json_output_marker_case (c1 c2 c3 c4 : N) (x : pystr) :
  In c1 [106; 74] -> In c2 [115; 83; 383] ->
  In c3 [111; 79] -> In c4 [110; 78] ->
  Planner.clean_json_output (c1 :: c2 :: c3 :: c4 :: x)
  = strip (remove_fences x)
  /\ Summary.clean_json_output (c1 :: c2 :: c3 :: c4 :: x)
     = strip (remove_fences x).
Proof.
  intros H1 H2 H3 H4.
  assert (K : Planner.clean_json_output (c1 :: c2 :: c3 :: c4 :: x)
              = strip (remove_fences x)).
  { unfold Planner.clean_json_output.
    assert (T : tick_free [c1; c2; c3; c4]).
    { simpl in H1, H2, H3, H4.
      repeat constructor; intros ->; intuition discriminate. }
    change (c1 :: c2 :: c3 :: c4 :: x) with ([c1; c2; c3; c4] ++ x).
    rewrite (remove_fences_tick_free_l _ x T). cbn [app].
    unfold sub_json_marker, match_json_marker.
    assert (S : isspace c1 = false).
    { simpl in H1. intuition (subst; reflexivity). }
    rewrite lstrip_fixed by exact S.
    apply literal_j in H1. apply literal_s in H2.
    apply literal_o in H3. apply literal_n in H4.
    rewrite H1, H2, H3, H4. cbn [andb]. apply strip_lstrip. }
  split; exact K.
Qed.

Lemma clean_json_output_marker_case_witness :
  Planner.clean_json_output (lit "JSON" ++ qlit " {'a': 1}")
  = strip (remove_fences (qlit " {'a': 1}"))
  /\ Summary.clean_json_output (lit "JSON" ++ qlit " {'a': 1}")
     = strip (remove_fences (qlit " {'a': 1}")).
Proof.
  apply (clean_json_output_marker_case 74 83 79 78); simpl; auto.
Defined.
